(** * SpringSim: the physics core of the mass-spring oscillation simulator

    A shallow embedding of the TypeScript sources

    - [src/lib/constants.ts]          (module [Constants]),
    - [src/lib/integration.ts]        (module [Integration]),
    - [src/lib/physics.ts]            (module [Physics]),
    - [src/types/simulation.ts]       (modules [SpringParameters],
                                       [SimulationState], [DataPoint] and
                                       [TimeSeriesData]),
    - [src/lib/validation.ts]         (module [Validation]),
    - [src/hooks/usePhysicsEngine.ts] (module [UsePhysicsEngine]),
    - [src/hooks/useGraphData.ts]     (module [UseGraphData]),
    - [src/hooks/useSimulation.ts]    (module [UseSimulation]),

    then the notions the properties are stated with (modules [Rk4Spec],
    [BufferSpec], [SimRun], [NumberShape] and [Rounding]), then the
    properties.

    A JavaScript [number] is an IEEE 754 binary64 value: it is modelled by
    Rocq's primitive [float], whose operations round exactly as the
    JavaScript ones do.  [throw new Error(msg)] is modelled by the [Throw msg]
    outcome of the [result] type below.

    The hook [useSimulation] is modelled as a state machine over its memory
    (React state, refs, and the host's pending animation frame callbacks):
    the calls of its API, React's commit of a render, and the host's
    animation frame are separate steps, so that what a frame sees between a
    call and the commit that follows it can be stated. *)

From Stdlib Require Import Floats ZArith List String Bool Arith Lia.
Import ListNotations.

Set Implicit Arguments.

(** A decimal literal denotes the nearest binary64 value, as it does in
    JavaScript. *)
Set Warnings "-inexact-float".

(** ** JavaScript numbers and exceptions *)

Definition number : Set := float.

(** [Number.isFinite(x)] on a value of type [number]. *)
Definition Number_isFinite (x : number) : bool := PrimFloat.is_finite x.

(** The outcome of a call: a returned value, or [throw new Error(msg)]. *)
Inductive result (A : Type) : Type :=
| Ok (a : A)
| Throw (msg : string).

Arguments Ok {A} a.
Arguments Throw {A} msg.

Definition bind {A B : Type} (r : result A) (k : A -> result B) : result B :=
  match r with
  | Ok a => k a
  | Throw msg => Throw msg
  end.

Notation "x <- r ;; k" := (bind r (fun x => k))
  (at level 61, r at next level, right associativity).

Definition is_ok {A : Type} (r : result A) : bool :=
  match r with Ok _ => true | Throw _ => false end.

(** The comparison [x >= y] of JavaScript: false as soon as one side is NaN. *)
Definition Number_ge (x y : number) : bool := PrimFloat.leb y x.

(** ** src/lib/constants.ts *)

Module Constants.

(** [PHYSICS_CONSTANTS.GRAVITY]. *)
Definition GRAVITY : number := 9.81%float.

(** [PHYSICS_CONSTANTS.TIMESTEP]: [1 / 60]. *)
Definition TIMESTEP : number := (1 / 60)%float.

(** [PHYSICS_CONSTANTS.GRAPH_UPDATE_INTERVAL] (milliseconds). *)
Definition GRAPH_UPDATE_INTERVAL : number := 100%float.

(** [PHYSICS_CONSTANTS.GRAPH_WINDOW_DURATION] (seconds). *)
Definition GRAPH_WINDOW_DURATION : number := 15%float.

(** [PARAMETER_LIMITS]. *)
Definition MIN_MASS : number := 0.01%float.
Definition MAX_MASS : number := 100%float.
Definition MIN_SPRING_CONSTANT : number := 0.1%float.
Definition MAX_SPRING_CONSTANT : number := 1000%float.
Definition MIN_LENGTH : number := 0.1%float.
Definition MAX_LENGTH : number := 10%float.

End Constants.

(** ** src/lib/integration.ts *)

Module Integration.

Record State : Type := mkState {
  position : number;
  velocity : number
}.

Local Open Scope string_scope.
Local Open Scope float_scope.

(** [rk4Step(state, dt, accelerationFunc)].  The acceleration function is a
    JavaScript callback: it returns a number or throws, and what it throws
    propagates out of [rk4Step]. *)
Definition rk4Step (state : State) (dt : number)
    (accelerationFunc : number -> number -> result number) : result State :=
  let x := position state in
  let v := velocity state in
  if negb (Number_isFinite x) || negb (Number_isFinite v)
     || negb (Number_isFinite dt)
  then Throw "Invalid input: position, velocity, and dt must be finite numbers"
  else
    let k1_dx := v in
    k1_dv <- accelerationFunc x v ;;
    if negb (Number_isFinite k1_dv)
    then Throw "Acceleration function returned non-finite value"
    else
      let k2_dx := v + k1_dv * dt / 2 in
      k2_dv <- accelerationFunc (x + k1_dx * dt / 2) (v + k1_dv * dt / 2) ;;
      if negb (Number_isFinite k2_dv)
      then Throw "Acceleration function returned non-finite value at k2"
      else
        let k3_dx := v + k2_dv * dt / 2 in
        k3_dv <- accelerationFunc (x + k2_dx * dt / 2) (v + k2_dv * dt / 2) ;;
        if negb (Number_isFinite k3_dv)
        then Throw "Acceleration function returned non-finite value at k3"
        else
          let k4_dx := v + k3_dv * dt in
          k4_dv <- accelerationFunc (x + k3_dx * dt) (v + k3_dv * dt) ;;
          if negb (Number_isFinite k4_dv)
          then Throw "Acceleration function returned non-finite value at k4"
          else
            let dx := (k1_dx + 2 * k2_dx + 2 * k3_dx + k4_dx) / 6 in
            let dv := (k1_dv + 2 * k2_dv + 2 * k3_dv + k4_dv) / 6 in
            let newPosition := x + dx * dt in
            let newVelocity := v + dv * dt in
            if negb (Number_isFinite newPosition)
               || negb (Number_isFinite newVelocity)
            then Throw "RK4 integration produced non-finite values"
            else Ok {| position := newPosition; velocity := newVelocity |}.

End Integration.

(** ** src/lib/physics.ts *)

Module Physics.

Local Open Scope string_scope.
Local Open Scope float_scope.

(** [computeSpringForce(displacement, springConstant)]: Hooke's law. *)
Definition computeSpringForce (displacement springConstant : number)
    : result number :=
  if negb (Number_isFinite displacement)
     || negb (Number_isFinite springConstant)
  then Throw "Invalid input: displacement and springConstant must be finite numbers"
  else Ok ((- springConstant) * displacement).

(** [computeDampingForce(velocity, dampingCoefficient)]. *)
Definition computeDampingForce (velocity dampingCoefficient : number)
    : result number :=
  if negb (Number_isFinite velocity)
     || negb (Number_isFinite dampingCoefficient)
  then Throw "Invalid input: velocity and dampingCoefficient must be finite numbers"
  else if dampingCoefficient <? 0
  then Throw "Invalid input: dampingCoefficient must be non-negative"
  else Ok ((- dampingCoefficient) * velocity).

(** [computeAcceleration(force, mass)]: Newton's second law. *)
Definition computeAcceleration (force mass : number) : result number :=
  if negb (Number_isFinite force) || negb (Number_isFinite mass)
  then Throw "Invalid input: force and mass must be finite numbers"
  else if mass <=? 0
  then Throw "Invalid input: mass must be positive"
  else Ok (force / mass).

(** [computeKineticEnergy(mass, velocity)]. *)
Definition computeKineticEnergy (mass velocity : number) : result number :=
  if negb (Number_isFinite mass) || negb (Number_isFinite velocity)
  then Throw "Invalid input: mass and velocity must be finite numbers"
  else if mass <=? 0
  then Throw "Invalid input: mass must be positive"
  else Ok (0.5 * mass * velocity * velocity).

(** [computePotentialEnergy(springConstant, displacement)]. *)
Definition computePotentialEnergy (springConstant displacement : number)
    : result number :=
  if negb (Number_isFinite springConstant)
     || negb (Number_isFinite displacement)
  then Throw "Invalid input: springConstant and displacement must be finite numbers"
  else if springConstant <=? 0
  then Throw "Invalid input: springConstant must be positive"
  else Ok (0.5 * springConstant * displacement * displacement).

(** [computeTotalEnergy(mass, velocity, springConstant, displacement)]. *)
Definition computeTotalEnergy (mass velocity springConstant displacement : number)
    : result number :=
  kineticEnergy <- computeKineticEnergy mass velocity ;;
  potentialEnergy <- computePotentialEnergy springConstant displacement ;;
  Ok (kineticEnergy + potentialEnergy).

(** [computeEquilibriumPosition(mass, springConstant, gravity = 9.81)]:
    [None] is a call that leaves [gravity] out. *)
Definition computeEquilibriumPosition (mass springConstant : number)
    (gravity : option number) : result number :=
  let gravity := match gravity with Some g => g | None => 9.81 end in
  if negb (Number_isFinite mass) || negb (Number_isFinite springConstant)
     || negb (Number_isFinite gravity)
  then Throw "Invalid input: all parameters must be finite numbers"
  else if (mass <=? 0) || (springConstant <=? 0)
  then Throw "Invalid input: mass and springConstant must be positive"
  else Ok ((mass * gravity) / springConstant).

End Physics.

(** ** src/types/simulation.ts *)

Module SpringParameters.
Record t : Type := mk {
  mass : number;
  springConstant : number;
  initialLength : number;
  dampingCoefficient : number
}.
End SpringParameters.

Module SimulationState.
Record t : Type := mk {
  position : number;
  velocity : number;
  acceleration : number;
  time : number;
  isRunning : bool;
  isPaused : bool
}.
End SimulationState.

Module DataPoint.
Record t : Type := mk {
  time : number;
  value : number
}.
End DataPoint.

Module TimeSeriesData.
Record t : Type := mk {
  displacement : list DataPoint.t;
  velocity : list DataPoint.t;
  acceleration : list DataPoint.t;
  totalEnergy : list DataPoint.t
}.
End TimeSeriesData.

(** ** src/lib/validation.ts *)

Module Validation.

Import Constants.
Local Open Scope string_scope.
Local Open Scope float_scope.

(** The keys of the [errors] record that [validateParameters] fills, in
    the order it adds them (the messages are left out). *)
Definition validationErrors (params : SpringParameters.t) : list string :=
  let mass := SpringParameters.mass params in
  let springConstant := SpringParameters.springConstant params in
  let initialLength := SpringParameters.initialLength params in
  let dampingCoefficient := SpringParameters.dampingCoefficient params in
  (if negb (Number_isFinite mass) then ["mass"]
   else if mass <=? 0 then ["mass"]
   else if mass <? MIN_MASS then ["mass"]
   else if MAX_MASS <? mass then ["mass"]
   else [])
  ++ (if negb (Number_isFinite springConstant) then ["springConstant"]
      else if springConstant <=? 0 then ["springConstant"]
      else if springConstant <? MIN_SPRING_CONSTANT then ["springConstant"]
      else if MAX_SPRING_CONSTANT <? springConstant then ["springConstant"]
      else [])
  ++ (if negb (Number_isFinite initialLength) then ["initialLength"]
      else if initialLength <=? 0 then ["initialLength"]
      else if initialLength <? MIN_LENGTH then ["initialLength"]
      else if MAX_LENGTH <? initialLength then ["initialLength"]
      else [])
  ++ (if negb (Number_isFinite dampingCoefficient) then ["dampingCoefficient"]
      else if dampingCoefficient <? 0 then ["dampingCoefficient"]
      else if 100 <? dampingCoefficient then ["dampingCoefficient"]
      else []).

(** The [isValid] field of the result of [validateParameters]:
    [Object.keys(errors).length === 0]. *)
Definition isValid (params : SpringParameters.t) : bool :=
  Nat.eqb (List.length (validationErrors params)) 0.

End Validation.

(** ** src/hooks/usePhysicsEngine.ts *)

Module UsePhysicsEngine.

Import Physics.
Local Open Scope float_scope.

(** The object [{ position, velocity, acceleration }] that
    [computeNextState] returns. *)
Record NextState : Type := mkNextState {
  position : number;
  velocity : number;
  acceleration : number
}.

(** What the hook returns.  [computeAcceleration] is the function called
    [computeAccelerationFromState] inside the hook, and [computeTotalEnergy]
    the one called [computeEnergy] there. *)
Record PhysicsEngine : Type := mkPhysicsEngine {
  computeNextState : Integration.State -> number -> result NextState;
  computeAcceleration : number -> number -> result number;
  computeTotalEnergy : number -> number -> result number
}.

(** The body of [computeNextState], for the acceleration function it
    closes over. *)
Definition computeNextStateFrom
    (computeAccelerationFromState : number -> number -> result number)
    (currentState : Integration.State) (dt : number) : result NextState :=
  next <- Integration.rk4Step
            {| Integration.position := Integration.position currentState;
               Integration.velocity := Integration.velocity currentState |}
            dt computeAccelerationFromState ;;
  let position := Integration.position next in
  let velocity := Integration.velocity next in
  acceleration <- computeAccelerationFromState position velocity ;;
  Ok {| position := position; velocity := velocity;
        acceleration := acceleration |}.

Section Hook.

Variable parameters : SpringParameters.t.

Let mass := SpringParameters.mass parameters.
Let springConstant := SpringParameters.springConstant parameters.
Let dampingCoefficient := SpringParameters.dampingCoefficient parameters.

(** [a = F_total/m = (-kx - cv)/m]. *)
Definition computeAccelerationFromState (position velocity : number)
    : result number :=
  springForce <- computeSpringForce position springConstant ;;
  dampingForce <- computeDampingForce velocity dampingCoefficient ;;
  let totalForce := springForce + dampingForce in
  Physics.computeAcceleration totalForce mass.

Definition computeEnergy (position velocity : number) : result number :=
  Physics.computeTotalEnergy mass velocity springConstant position.

Definition usePhysicsEngine : PhysicsEngine :=
  {| computeNextState := computeNextStateFrom computeAccelerationFromState;
     computeAcceleration := computeAccelerationFromState;
     computeTotalEnergy := computeEnergy |}.

End Hook.

End UsePhysicsEngine.

(** ** src/hooks/useGraphData.ts *)

Module UseGraphData.

Import Constants.
Local Open Scope float_scope.

(** The initial value of the [timeSeriesData] state. *)
Definition emptyData : TimeSeriesData.t :=
  {| TimeSeriesData.displacement := [];
     TimeSeriesData.velocity := [];
     TimeSeriesData.acceleration := [];
     TimeSeriesData.totalEnergy := [] |}.

(** The local function [pruneAndAdd] of [addDataPoint], for the [time] and
    [cutoffTime] it closes over. *)
Definition pruneAndAdd (time cutoffTime : number)
    (data : list DataPoint.t) (value : number) : list DataPoint.t :=
  let filtered :=
    filter (fun point => Number_ge (DataPoint.time point) cutoffTime) data in
  filtered ++ [ {| DataPoint.time := time; DataPoint.value := value |} ].

(** [addDataPoint(time, displacement, velocity, acceleration, totalEnergy)],
    as the state updater it hands to [setTimeSeriesData]. *)
Definition addDataPoint
    (time displacement velocity acceleration totalEnergy : number)
    (prev : TimeSeriesData.t) : TimeSeriesData.t :=
  let cutoffTime := time - GRAPH_WINDOW_DURATION in
  {| TimeSeriesData.displacement :=
       pruneAndAdd time cutoffTime (TimeSeriesData.displacement prev) displacement;
     TimeSeriesData.velocity :=
       pruneAndAdd time cutoffTime (TimeSeriesData.velocity prev) velocity;
     TimeSeriesData.acceleration :=
       pruneAndAdd time cutoffTime (TimeSeriesData.acceleration prev) acceleration;
     TimeSeriesData.totalEnergy :=
       pruneAndAdd time cutoffTime (TimeSeriesData.totalEnergy prev) totalEnergy |}.

(** [clearData()], as the value it hands to [setTimeSeriesData]. *)
Definition clearData (prev : TimeSeriesData.t) : TimeSeriesData.t :=
  {| TimeSeriesData.displacement := [];
     TimeSeriesData.velocity := [];
     TimeSeriesData.acceleration := [];
     TimeSeriesData.totalEnergy := [] |}.

End UseGraphData.

(** ** src/hooks/useSimulation.ts *)

Module UseSimulation.

Import Constants.
Import UsePhysicsEngine.
Local Open Scope float_scope.

(** The three run modes, as [ControlPanel.tsx] and [App.tsx] read them off
    the two flags: stopped is [!isRunning], running is
    [isRunning && !isPaused], paused is [isRunning && isPaused]. *)
Inductive RunMode : Type := Stopped | Running | Paused.

Definition runMode (st : SimulationState.t) : RunMode :=
  if SimulationState.isRunning st
  then if SimulationState.isPaused st then Paused else Running
  else Stopped.

(** The initial value of the [state] state. *)
Definition initialState : SimulationState.t :=
  {| SimulationState.position := 0;
     SimulationState.velocity := 0;
     SimulationState.acceleration := 0;
     SimulationState.time := 0;
     SimulationState.isRunning := false;
     SimulationState.isPaused := false |}.

(** One mounted instance of the hook together with the host's list of
    animation frame callbacks.

    - [state] is the React state as the next render will see it: a call
      [setState(v)] replaces it and a call [setState(f)] applies [f] to it
      (React applies queued updates in the order of the calls);
    - [stateRef] is [stateRef.current], which the first effect of the hook
      sets to the rendered state each time React commits a render;
    - [rafPending] holds the handles that [requestAnimationFrame] has
      returned and that were neither run nor cancelled (every callback the
      hook registers is [animate]); [rafNext] is the next fresh handle.

    [lastFrameTimeRef] (written, never read) and the locked Y domains of the
    graphs (a rendering concern) are left out. *)
Record Sim : Type := mkSim {
  state : SimulationState.t;
  stateRef : SimulationState.t;
  timeSeriesData : TimeSeriesData.t;
  rafIdRef : option nat;
  lastDataUpdateRef : number;
  rafPending : list nat;
  rafNext : nat
}.

(** The hook right after it is mounted. *)
Definition mount : Sim :=
  {| state := initialState;
     stateRef := initialState;
     timeSeriesData := UseGraphData.emptyData;
     rafIdRef := None;
     lastDataUpdateRef := 0;
     rafPending := [];
     rafNext := 1 |}.

Definition setState (f : SimulationState.t -> SimulationState.t) (s : Sim) : Sim :=
  {| state := f (state s);
     stateRef := stateRef s;
     timeSeriesData := timeSeriesData s;
     rafIdRef := rafIdRef s;
     lastDataUpdateRef := lastDataUpdateRef s;
     rafPending := rafPending s;
     rafNext := rafNext s |}.

Definition setTimeSeriesData (f : TimeSeriesData.t -> TimeSeriesData.t) (s : Sim) : Sim :=
  {| state := state s;
     stateRef := stateRef s;
     timeSeriesData := f (timeSeriesData s);
     rafIdRef := rafIdRef s;
     lastDataUpdateRef := lastDataUpdateRef s;
     rafPending := rafPending s;
     rafNext := rafNext s |}.

Definition setLastDataUpdateRef (t : number) (s : Sim) : Sim :=
  {| state := state s;
     stateRef := stateRef s;
     timeSeriesData := timeSeriesData s;
     rafIdRef := rafIdRef s;
     lastDataUpdateRef := t;
     rafPending := rafPending s;
     rafNext := rafNext s |}.

Definition setStateRef (st : SimulationState.t) (s : Sim) : Sim :=
  {| state := state s;
     stateRef := st;
     timeSeriesData := timeSeriesData s;
     rafIdRef := rafIdRef s;
     lastDataUpdateRef := lastDataUpdateRef s;
     rafPending := rafPending s;
     rafNext := rafNext s |}.

(** [rafIdRef.current = requestAnimationFrame(animate)]. *)
Definition requestAnimationFrame (s : Sim) : Sim :=
  {| state := state s;
     stateRef := stateRef s;
     timeSeriesData := timeSeriesData s;
     rafIdRef := Some (rafNext s);
     lastDataUpdateRef := lastDataUpdateRef s;
     rafPending := rafPending s ++ [rafNext s];
     rafNext := S (rafNext s) |}.

(** [if (rafIdRef.current !== null) { cancelAnimationFrame(rafIdRef.current);
    rafIdRef.current = null; }] *)
Definition cancelCurrentFrame (s : Sim) : Sim :=
  match rafIdRef s with
  | None => s
  | Some id =>
      {| state := state s;
         stateRef := stateRef s;
         timeSeriesData := timeSeriesData s;
         rafIdRef := None;
         lastDataUpdateRef := lastDataUpdateRef s;
         rafPending := filter (fun h => negb (Nat.eqb h id)) (rafPending s);
         rafNext := rafNext s |}
  end.

(** [setInitialDisplacement(displacement)]. *)
Definition setInitialDisplacement (displacement : number) (s : Sim) : Sim :=
  setState (fun prev =>
    {| SimulationState.position := displacement;
       SimulationState.velocity := 0;
       SimulationState.acceleration := 0;
       SimulationState.time := SimulationState.time prev;
       SimulationState.isRunning := SimulationState.isRunning prev;
       SimulationState.isPaused := SimulationState.isPaused prev |}) s.

(** [start()]. *)
Definition start (s : Sim) : Sim :=
  setLastDataUpdateRef 0
    (setState (fun prev =>
       {| SimulationState.position := SimulationState.position prev;
          SimulationState.velocity := SimulationState.velocity prev;
          SimulationState.acceleration := SimulationState.acceleration prev;
          SimulationState.time := SimulationState.time prev;
          SimulationState.isRunning := true;
          SimulationState.isPaused := false |}) s).

(** The updater [(prev) => ({ ...prev, isPaused })] shared by [pause],
    [resume] and the [catch] branch of [animate]. *)
Definition withPaused (b : bool) (prev : SimulationState.t) : SimulationState.t :=
  {| SimulationState.position := SimulationState.position prev;
     SimulationState.velocity := SimulationState.velocity prev;
     SimulationState.acceleration := SimulationState.acceleration prev;
     SimulationState.time := SimulationState.time prev;
     SimulationState.isRunning := SimulationState.isRunning prev;
     SimulationState.isPaused := b |}.

(** [pause()]. *)
Definition pause (s : Sim) : Sim := setState (withPaused true) s.

(** [resume()]. *)
Definition resume (s : Sim) : Sim := setState (withPaused false) s.

(** [reset()]. *)
Definition reset (s : Sim) : Sim :=
  cancelCurrentFrame
    (setTimeSeriesData UseGraphData.clearData
       (setState (fun _ => initialState) s)).

(** Whether the effect that owns the animation loop goes past its early
    [return]: [isRunning && !isPaused]. *)
Definition loopActive (st : SimulationState.t) : bool :=
  SimulationState.isRunning st && negb (SimulationState.isPaused st).

Section Hook.

(** The functions the hook gets from [usePhysicsEngine(parameters)]. *)
Variable engine : PhysicsEngine.

(** The part of [animate] inside [try], after [computeNextState] has
    returned [nextState]: [Throw] when it throws (after the effects
    already made on the way, which the first component keeps). *)
Definition animateTry (current : SimulationState.t) (nextState : NextState)
    (s : Sim) : Sim * result unit :=
  let newTime := SimulationState.time current + TIMESTEP in
  let s1 := setState (fun _ =>
    {| SimulationState.position := position nextState;
       SimulationState.velocity := velocity nextState;
       SimulationState.acceleration := acceleration nextState;
       SimulationState.time := newTime;
       SimulationState.isRunning := true;
       SimulationState.isPaused := false |}) s in
  let timeSinceLastUpdate := (newTime - lastDataUpdateRef s1) * 1000 in
  if Number_ge timeSinceLastUpdate GRAPH_UPDATE_INTERVAL
  then
    match computeTotalEnergy engine (position nextState) (velocity nextState) with
    | Throw msg => (s1, Throw msg)
    | Ok energy =>
        let s2 := setTimeSeriesData
          (UseGraphData.addDataPoint newTime (position nextState)
             (velocity nextState) (acceleration nextState) energy) s1 in
        let s3 := setLastDataUpdateRef newTime s2 in
        (requestAnimationFrame s3, Ok tt)
    end
  else (requestAnimationFrame s1, Ok tt).

(** The callback [animate] of the animation loop. *)
Definition animate (s : Sim) : Sim :=
  let current := stateRef s in
  if negb (SimulationState.isRunning current) || SimulationState.isPaused current
  then s
  else
    match computeNextState engine
            {| Integration.position := SimulationState.position current;
               Integration.velocity := SimulationState.velocity current |}
            TIMESTEP with
    | Throw _ => setState (withPaused true) s
    | Ok nextState =>
        match animateTry current nextState s with
        | (s', Ok _) => s'
        | (s', Throw _) => setState (withPaused true) s'
        end
    end.

(** The host runs the animation frame callbacks: it takes the handles
    pending at the start of the frame and, for each one that is still
    pending, removes it and calls its callback. *)
Definition runCallback (s : Sim) (h : nat) : Sim :=
  if existsb (Nat.eqb h) (rafPending s)
  then animate
         {| state := state s;
            stateRef := stateRef s;
            timeSeriesData := timeSeriesData s;
            rafIdRef := rafIdRef s;
            lastDataUpdateRef := lastDataUpdateRef s;
            rafPending := filter (fun h' => negb (Nat.eqb h' h)) (rafPending s);
            rafNext := rafNext s |}
  else s.

Definition frame (s : Sim) : Sim :=
  fold_left runCallback (rafPending s) s.

(** React commits a render of the current state and runs the effects of
    the hook.  The effect of the animation loop runs again when
    [state.isRunning] or [state.isPaused] differs from the previous
    render (its other dependencies are stable for fixed parameters): first
    the cleanup its previous run returned, if that run went past the early
    [return]; then the first effect, [stateRef.current = state]; then the
    body of the loop effect. *)
Definition commit (s : Sim) : Sim :=
  let prev := stateRef s in
  let next := state s in
  let depsChanged :=
    negb (Bool.eqb (SimulationState.isRunning prev) (SimulationState.isRunning next))
    || negb (Bool.eqb (SimulationState.isPaused prev) (SimulationState.isPaused next)) in
  let s1 := if depsChanged && loopActive prev then cancelCurrentFrame s else s in
  let s2 := setStateRef next s1 in
  if depsChanged && loopActive next then requestAnimationFrame s2 else s2.

(** One turn of the host: an animation frame, then React's commit of the
    state the frame has set. *)
Definition tick (s : Sim) : Sim := commit (frame s).

Fixpoint ticks (n : nat) (s : Sim) : Sim :=
  match n with
  | O => s
  | S n' => ticks n' (tick s)
  end.

End Hook.

End UseSimulation.

(** ** The classical RK4 update, in the words of the specification

    The slopes [k1x] ... [k4v] and the update [x' = x + dt/6*(...)],
    [v' = v + dt/6*(...)] for a total acceleration function [a], evaluated
    with the arithmetic of JavaScript numbers. *)

Module Rk4Spec.

Local Open Scope float_scope.

Section Update.

Variable a : number -> number -> number.
Variables x v dt : number.

Definition k1x : number := v.
Definition k1v : number := a x v.
Definition k2x : number := v + k1v * dt / 2.
Definition k2v : number := a (x + k1x * dt / 2) (v + k1v * dt / 2).
Definition k3x : number := v + k2v * dt / 2.
Definition k3v : number := a (x + k2x * dt / 2) (v + k2v * dt / 2).
Definition k4x : number := v + k3v * dt.
Definition k4v : number := a (x + k3x * dt) (v + k3v * dt).

(** [x' = x + dt/6*(k1x+2k2x+2k3x+k4x)] and
    [v' = v + dt/6*(k1v+2k2v+2k3v+k4v)], as the specification writes
    them. *)
Definition nextPosition : number :=
  x + dt / 6 * (k1x + 2 * k2x + 2 * k3x + k4x).
Definition nextVelocity : number :=
  v + dt / 6 * (k1v + 2 * k2v + 2 * k3v + k4v).

Definition update : Integration.State :=
  {| Integration.position := nextPosition;
     Integration.velocity := nextVelocity |}.

(** The same weighted sums in the order [rk4Step] evaluates them: the
    average slope first, then its product with [dt]. *)
Definition steppedPosition : number :=
  x + (k1x + 2 * k2x + 2 * k3x + k4x) / 6 * dt.
Definition steppedVelocity : number :=
  v + (k1v + 2 * k2v + 2 * k3v + k4v) / 6 * dt.

Definition stepped : Integration.State :=
  {| Integration.position := steppedPosition;
     Integration.velocity := steppedVelocity |}.

(** All four slope evaluations return a finite number. *)
Definition slopesFinite : bool :=
  Number_isFinite k1v && Number_isFinite k2v
  && Number_isFinite k3v && Number_isFinite k4v.

End Update.

End Rk4Spec.

(** A JavaScript callback that returns and never throws. *)
Definition returns2 (a : number -> number -> number)
    : number -> number -> result number :=
  fun x v => Ok (a x v).

(** ** The rolling window of the buffer, in the words of the specification *)

Module BufferSpec.

Import Constants.
Local Open Scope float_scope.

(** A sample is inside the window that ends at [latestTime]:
    [time >= latestTime - W]. *)
Definition withinWindow (latestTime : number) (p : DataPoint.t) : bool :=
  Number_ge (DataPoint.time p) (latestTime - GRAPH_WINDOW_DURATION).

Definition oldest (channel : list DataPoint.t) : option DataPoint.t :=
  hd_error channel.

Definition newest (channel : list DataPoint.t) : option DataPoint.t :=
  hd_error (rev channel).

(** What appending [(time, value)] makes of a channel: the earlier samples
    that are inside the window, in their order, then the new sample; so
    the channel ends with the new sample, holds no sample before the
    window, and its oldest sample is inside the window. *)
Definition appendedWithin (time value : number)
    (before after : list DataPoint.t) : Prop :=
  after = filter (withinWindow time) before
          ++ [ {| DataPoint.time := time; DataPoint.value := value |} ]
  /\ newest after
     = Some {| DataPoint.time := time; DataPoint.value := value |}
  /\ Forall (fun p => withinWindow time p = true
                      /\ (DataPoint.time p <? time - GRAPH_WINDOW_DURATION)
                         = false) after
  /\ (forall p, oldest after = Some p -> withinWindow time p = true).

(** The times of the samples of a channel, oldest first. *)
Definition times (channel : list DataPoint.t) : list number :=
  map DataPoint.time channel.

(** The four channels hold samples of the same times, in the same
    order. *)
Definition aligned (data : TimeSeriesData.t) : Prop :=
  times (TimeSeriesData.displacement data)
  = times (TimeSeriesData.velocity data)
  /\ times (TimeSeriesData.velocity data)
     = times (TimeSeriesData.acceleration data)
  /\ times (TimeSeriesData.acceleration data)
     = times (TimeSeriesData.totalEnergy data).

(** Every sample of the channel is inside the window that ends at its
    newest sample, whose time is a number. *)
Definition windowed (channel : list DataPoint.t) : Prop :=
  forall latest,
    newest channel = Some latest ->
    PrimFloat.is_nan (DataPoint.time latest) = false
    /\ Forall (fun p => withinWindow (DataPoint.time latest) p = true)
         channel.

(** The values of the samples of a channel, oldest first. *)
Definition values (channel : list DataPoint.t) : list number :=
  map DataPoint.value channel.

(** Every displacement and velocity sample is finite and no energy sample
    is below zero. *)
Definition plottable (data : TimeSeriesData.t) : Prop :=
  Forall (fun x => Number_isFinite x = true)
    (values (TimeSeriesData.displacement data))
  /\ Forall (fun v => Number_isFinite v = true)
       (values (TimeSeriesData.velocity data))
  /\ Forall (fun e => (e <? 0) = false)
       (values (TimeSeriesData.totalEnergy data)).

(** Each value is at most the one before it. *)
Fixpoint nonIncreasing (values : list number) : bool :=
  match values with
  | [] => true
  | e :: rest =>
      match rest with
      | [] => true
      | e' :: _ => (e' <=? e) && nonIncreasing rest
      end
  end.

End BufferSpec.

(** ** Runs of the simulation hook

    What the host and the user can do to a mounted hook, one event at a
    time, and the shapes of its memory the properties below speak about. *)

Module SimRun.

Import UseSimulation.
Import UsePhysicsEngine.
Local Open Scope float_scope.

(** The invariant of [SpringParameters] in the specification: every field
    the physics reads is finite, [mass] and [springConstant] are positive,
    [dampingCoefficient] is not negative. *)
Definition validParameters (p : SpringParameters.t) : bool :=
  Number_isFinite (SpringParameters.mass p)
  && (0 <? SpringParameters.mass p)
  && Number_isFinite (SpringParameters.springConstant p)
  && (0 <? SpringParameters.springConstant p)
  && Number_isFinite (SpringParameters.dampingCoefficient p)
  && (0 <=? SpringParameters.dampingCoefficient p).

(** At most one animation frame callback is pending; when one is, its
    handle is the one in [rafIdRef], the committed state is running and
    the state to render has [isRunning] set. *)
Definition wellFormed (s : Sim) : bool :=
  match rafPending s with
  | [] => true
  | [h] =>
      match rafIdRef s with
      | Some h' =>
          Nat.eqb h h' && loopActive (stateRef s)
          && SimulationState.isRunning (state s)
      | None => false
      end
  | _ :: _ :: _ => false
  end.

(** A running simulation whose state React has committed: the loop's next
    callback is pending and will read this very state. *)
Definition runningCommitted (s : Sim) : Prop :=
  state s = stateRef s
  /\ loopActive (state s) = true
  /\ exists h, rafPending s = [h] /\ rafIdRef s = Some h.

(** The hook once the host has taken the pending callbacks off its list to
    run them. *)
Definition taken (s : Sim) : Sim :=
  {| state := state s;
     stateRef := stateRef s;
     timeSeriesData := timeSeriesData s;
     rafIdRef := rafIdRef s;
     lastDataUpdateRef := lastDataUpdateRef s;
     rafPending := [];
     rafNext := rafNext s |}.

(** The events of a run. *)
Inductive Event : Type :=
| EvStart
| EvPause
| EvResume
| EvReset
| EvSetDisplacement (displacement : number)
| EvCommit
| EvFrame.

(** [start()] and [resume()] are the two calls that set the loop going. *)
Definition restarts (e : Event) : bool :=
  match e with
  | EvStart | EvResume => true
  | _ => false
  end.

Section Run.

Variable engine : PhysicsEngine.

Definition handle (s : Sim) (e : Event) : Sim :=
  match e with
  | EvStart => start s
  | EvPause => pause s
  | EvResume => resume s
  | EvReset => reset s
  | EvSetDisplacement x => setInitialDisplacement x s
  | EvCommit => commit s
  | EvFrame => frame engine s
  end.

Definition run (es : list Event) (s : Sim) : Sim :=
  fold_left handle es s.

(** A run of the simulation that the loop has paused after a failure of
    the physics: committed, paused, nothing pending, and the step from
    its state fails. *)
Definition halted (s : Sim) : Prop :=
  state s = stateRef s
  /\ SimulationState.isRunning (state s) = true
  /\ SimulationState.isPaused (state s) = true
  /\ rafPending s = []
  /\ is_ok (computeNextState engine
              {| Integration.position := SimulationState.position (state s);
                 Integration.velocity := SimulationState.velocity (state s) |}
              Constants.TIMESTEP) = false.

End Run.

(** Nothing is pending and the state to render is not running: the loop is
    at rest. *)
Definition quiescent (s : Sim) : Prop :=
  rafPending s = [] /\ loopActive (state s) = false.

(** Two hooks that differ at most in the handles of their animation frame
    callbacks. *)
Definition sameRun (s1 s2 : Sim) : Prop :=
  state s1 = state s2
  /\ stateRef s1 = stateRef s2
  /\ timeSeriesData s1 = timeSeriesData s2
  /\ lastDataUpdateRef s1 = lastDataUpdateRef s2
  /\ List.length (rafPending s1) = List.length (rafPending s2).

(** [pause()] then [resume()], each followed by React's commit. *)
Definition pauseThenResume (s : Sim) : Sim :=
  commit (resume (commit (pause s))).

(** The same position, velocity, acceleration and elapsed time. *)
Definition sameMotion (st1 st2 : SimulationState.t) : Prop :=
  SimulationState.position st1 = SimulationState.position st2
  /\ SimulationState.velocity st1 = SimulationState.velocity st2
  /\ SimulationState.acceleration st1 = SimulationState.acceleration st2
  /\ SimulationState.time st1 = SimulationState.time st2.

(** The parameters [App.tsx] starts with. *)
Definition defaultParameters : SpringParameters.t :=
  {| SpringParameters.mass := 10;
     SpringParameters.springConstant := 100;
     SpringParameters.initialLength := 2;
     SpringParameters.dampingCoefficient := 0.5 |}.

(** A run as the specification seeds it: [start()], then a displacement
    injected while the simulation is at rest, each followed by React's
    commit. *)
Definition seeded (displacement : number) : Sim :=
  commit (setInitialDisplacement displacement (commit (start mount))).

(** The state [animate] sets after a step that succeeded. *)
Definition advanced (s : Sim) (nextState : UsePhysicsEngine.NextState)
    : SimulationState.t :=
  {| SimulationState.position := UsePhysicsEngine.position nextState;
     SimulationState.velocity := UsePhysicsEngine.velocity nextState;
     SimulationState.acceleration := UsePhysicsEngine.acceleration nextState;
     SimulationState.time := SimulationState.time (state s) + Constants.TIMESTEP;
     SimulationState.isRunning := true;
     SimulationState.isPaused := false |}.

(** Whether the step that ends at the new time is due for a sample. *)
Definition sampleDue (s : Sim) : bool :=
  Number_ge
    ((SimulationState.time (state s) + Constants.TIMESTEP
      - lastDataUpdateRef s) * 1000)
    Constants.GRAPH_UPDATE_INTERVAL.

(** The checks [validateParameters] runs on one field with a lower and an
    upper limit. *)
Definition withinLimits (x lower upper : number) : bool :=
  Number_isFinite x && negb (x <=? 0) && negb (x <? lower)
  && negb (upper <? x).

(** The elapsed times the hook holds are numbers, and each of its four
    series is inside the window of its newest sample. *)
Definition timed (s : Sim) : Prop :=
  PrimFloat.is_nan (SimulationState.time (state s)) = false
  /\ PrimFloat.is_nan (SimulationState.time (stateRef s)) = false
  /\ BufferSpec.windowed (TimeSeriesData.displacement (timeSeriesData s))
  /\ BufferSpec.windowed (TimeSeriesData.velocity (timeSeriesData s))
  /\ BufferSpec.windowed (TimeSeriesData.acceleration (timeSeriesData s))
  /\ BufferSpec.windowed (TimeSeriesData.totalEnergy (timeSeriesData s)).

(** The sampled total energies held by the buffer, oldest first. *)
Definition sampledEnergies (s : Sim) : list number :=
  map DataPoint.value (TimeSeriesData.totalEnergy (timeSeriesData s)).

End SimRun.

(** ** Signs and zeros of binary64 values

    The sign bit of a value as [SpecFloat] specifies it ([None] for NaN), and
    the two shapes the properties of the energy and of the rest state rely
    on. *)

Module NumberShape.

Definition SFsign (f : spec_float) : option bool :=
  match f with
  | S754_nan => None
  | S754_zero s | S754_infinity s | S754_finite s _ _ => Some s
  end.

(** NaN, or a value whose sign bit is clear. *)
Definition SFnotNegative (f : spec_float) : bool :=
  match SFsign f with
  | Some true => false
  | _ => true
  end.

Definition SFisZero (f : spec_float) : bool :=
  match f with
  | S754_zero _ => true
  | _ => false
  end.

(** Zero or a finite non-zero value. *)
Definition SFisFinite (f : spec_float) : bool :=
  match f with
  | S754_zero _ | S754_finite _ _ _ => true
  | _ => false
  end.

(** [x === 0] in JavaScript: [+0] or [-0]. *)
Definition isZero (x : number) : bool := PrimFloat.eqb x 0%float.

End NumberShape.

(** ** Rounding to nearest, as [SpecFloat] computes it

    The notions the order properties of the rounding are stated with. *)

Module Rounding.

Local Open Scope Z_scope.

(** What [n] right shifts have made of the mantissa [M]: the quotient by
    [2^n], and two bits that are both clear when the division is exact. *)
Definition shifted (M n : Z) (mrs : shr_record) : Prop :=
  0 <= shr_m mrs
  /\ shr_m mrs * 2 ^ n <= M < (shr_m mrs + 1) * 2 ^ n
  /\ (shr_r mrs || shr_s mrs = true -> shr_m mrs * 2 ^ n < M).

(** The outcome of a comparison is [Lt] or [Eq]. *)
Definition notAbove (c : option comparison) : Prop :=
  c = Some Lt \/ c = Some Eq.

Section Format.

Variables prec emax : Z.

(** The outcome of a rounding once the overflow check is made. *)
Definition finite_or_infinity (sx : bool) (m : positive) (e : Z)
    : spec_float :=
  if e <=? emax - prec then S754_finite sx m e else S754_infinity sx.

(** What [binary_round] makes of the mantissa [M] at the exponent [E]:
    a mantissa [mr] of at most [prec + 1] bits at an exponent [f],
    nearest to [M * 2^E] among the multiples of [2^f] (values are
    compared as multiples of [2^emin]). *)
Definition rounds_to (M : positive) (E : Z) (mr : positive) (f : Z)
    : Prop :=
  SpecFloat.emin prec emax <= f
  /\ Zpos mr <= 2 ^ prec
  /\ (SpecFloat.emin prec emax < f ->
      2 ^ (prec - 1) <= Zpos mr
      /\ 2 ^ (prec - 1) * 2 ^ (f - SpecFloat.emin prec emax)
         <= Zpos M * 2 ^ (E - SpecFloat.emin prec emax))
  /\ (Zpos mr < 2 ^ prec ->
      SpecFloat.fexp prec emax (Zpos (digits2_pos mr) + f) = f)
  /\ forall T : Z,
       (Zpos M * 2 ^ (E - SpecFloat.emin prec emax)
        <= T * 2 ^ (f - SpecFloat.emin prec emax) -> Zpos mr <= T)
       /\ (T * 2 ^ (f - SpecFloat.emin prec emax)
           <= Zpos M * 2 ^ (E - SpecFloat.emin prec emax) -> T <= Zpos mr).

(** The value [mr * 2^f] in the format: one more shift when [mr] is
    [2^prec], then the overflow check. *)
Definition rounded (sx : bool) (mr : positive) (f : Z) : spec_float :=
  if Zpos mr <? 2 ^ prec
  then finite_or_infinity sx mr f
  else finite_or_infinity sx (Z.to_pos (2 ^ (prec - 1))) (f + 1).

End Format.

End Rounding.

(** * Properties *)

(** ** Order of JavaScript numbers

    The comparisons of [float] are specified by those of [SpecFloat]; the
    facts below are the ones the guards of the source rely on. *)

Section NumberOrder.

Import Stdlib.ZArith.BinInt Stdlib.PArith.BinPos.

Lemma SFcompare_antisym (a b : spec_float) (c : comparison) :
  SFcompare a b = Some c -> SFcompare b a = Some (CompOpp c).
Proof.
  destruct a as [sa | sa | | sa ma ea], b as [sb | sb | | sb mb eb];
    simpl; try discriminate;
    try (destruct sa; intros [= <-]; reflexivity);
    try (destruct sb; intros [= <-]; reflexivity);
    try (destruct sa, sb; intros [= <-]; reflexivity).
  destruct sa, sb; intros [= <-]; try reflexivity; f_equal;
    rewrite (Z.compare_antisym ea eb);
    destruct (Z.compare ea eb); simpl; try reflexivity;
    rewrite (Pos.compare_cont_antisym ma mb Eq); simpl;
    destruct (Pos.compare_cont Eq ma mb); reflexivity.
Qed.

Lemma Number_lt_not_ge (x y : number) :
  PrimFloat.ltb x y = true -> PrimFloat.leb y x = false.
Proof.
  rewrite ltb_spec, leb_spec. unfold SFltb, SFleb.
  destruct (SFcompare (Prim2SF x) (Prim2SF y)) as [[ | | ] | ] eqn:E;
    try discriminate.
  intros _. rewrite (SFcompare_antisym _ _ E). reflexivity.
Qed.

Lemma Number_le_not_gt (x y : number) :
  PrimFloat.leb x y = true -> PrimFloat.ltb y x = false.
Proof.
  rewrite ltb_spec, leb_spec. unfold SFltb, SFleb.
  destruct (SFcompare (Prim2SF x) (Prim2SF y)) as [[ | | ] | ] eqn:E;
    try discriminate; intros _; rewrite (SFcompare_antisym _ _ E); reflexivity.
Qed.

End NumberOrder.

(** ** The integrator *)

Section Integrator.

Import Integration.
Local Open Scope string_scope.
Local Open Scope float_scope.

Variable a : number -> number -> number.
Variables x v dt : number.

Hypothesis x_finite : Number_isFinite x = true.
Hypothesis v_finite : Number_isFinite v = true.
Hypothesis dt_finite : Number_isFinite dt = true.

(** With finite inputs and four finite slopes, [rk4Step] gets to its final
    check with the weighted sums of the classical method. *)
Lemma rk4Step_slopes_finite :
  Rk4Spec.slopesFinite a x v dt = true ->
  rk4Step (mkState x v) dt (returns2 a) =
    if negb (Number_isFinite (Rk4Spec.steppedPosition a x v dt))
       || negb (Number_isFinite (Rk4Spec.steppedVelocity a x v dt))
    then Throw "RK4 integration produced non-finite values"
    else Ok (Rk4Spec.stepped a x v dt).
Proof.
  unfold Rk4Spec.slopesFinite. intros H.
  apply andb_prop in H as [H H4]. apply andb_prop in H as [H H3].
  apply andb_prop in H as [H1 H2].
  unfold Rk4Spec.stepped, Rk4Spec.steppedPosition, Rk4Spec.steppedVelocity.
  unfold Rk4Spec.k4v, Rk4Spec.k4x, Rk4Spec.k3v, Rk4Spec.k3x,
    Rk4Spec.k2v, Rk4Spec.k2x, Rk4Spec.k1v, Rk4Spec.k1x in *.
  unfold rk4Step, returns2, bind; cbn [position velocity].
  rewrite x_finite, v_finite, dt_finite; cbn [negb orb].
  rewrite H1; cbn [negb]. rewrite H2; cbn [negb].
  rewrite H3; cbn [negb]. rewrite H4; cbn [negb].
  reflexivity.
Qed.

(** With finite inputs, [rk4Step] throws at the first slope that is not
    finite. *)
Lemma rk4Step_first_non_finite_slope :
  (Number_isFinite (Rk4Spec.k1v a x v) = false ->
     rk4Step (mkState x v) dt (returns2 a) =
       Throw "Acceleration function returned non-finite value")
  /\ (Number_isFinite (Rk4Spec.k1v a x v) = true ->
      Number_isFinite (Rk4Spec.k2v a x v dt) = false ->
     rk4Step (mkState x v) dt (returns2 a) =
       Throw "Acceleration function returned non-finite value at k2")
  /\ (Number_isFinite (Rk4Spec.k1v a x v) = true ->
      Number_isFinite (Rk4Spec.k2v a x v dt) = true ->
      Number_isFinite (Rk4Spec.k3v a x v dt) = false ->
     rk4Step (mkState x v) dt (returns2 a) =
       Throw "Acceleration function returned non-finite value at k3")
  /\ (Number_isFinite (Rk4Spec.k1v a x v) = true ->
      Number_isFinite (Rk4Spec.k2v a x v dt) = true ->
      Number_isFinite (Rk4Spec.k3v a x v dt) = true ->
      Number_isFinite (Rk4Spec.k4v a x v dt) = false ->
     rk4Step (mkState x v) dt (returns2 a) =
       Throw "Acceleration function returned non-finite value at k4").
Proof.
  unfold Rk4Spec.k4v, Rk4Spec.k4x, Rk4Spec.k3v, Rk4Spec.k3x,
    Rk4Spec.k2v, Rk4Spec.k2x, Rk4Spec.k1v, Rk4Spec.k1x.
  unfold rk4Step, returns2, bind; cbn [position velocity].
  rewrite x_finite, v_finite, dt_finite; cbn [negb orb].
  repeat split; intros;
    repeat match goal with
           | H : Number_isFinite _ = _ |- _ =>
               rewrite H; clear H; cbn [negb]
           end; reflexivity.
Qed.

(** So it returns no state as soon as one slope is not finite. *)
Lemma rk4Step_non_finite_slope :
  Rk4Spec.slopesFinite a x v dt = false ->
  is_ok (rk4Step (mkState x v) dt (returns2 a)) = false.
Proof.
  unfold Rk4Spec.slopesFinite. intros H.
  destruct rk4Step_first_non_finite_slope as (E1 & E2 & E3 & E4).
  destruct (Number_isFinite (Rk4Spec.k1v a x v)) eqn:F1;
    [ | rewrite E1; reflexivity ].
  destruct (Number_isFinite (Rk4Spec.k2v a x v dt)) eqn:F2;
    [ | rewrite E2; reflexivity ].
  destruct (Number_isFinite (Rk4Spec.k3v a x v dt)) eqn:F3;
    [ | rewrite E3; reflexivity ].
  destruct (Number_isFinite (Rk4Spec.k4v a x v dt)) eqn:F4;
    [ discriminate | rewrite E4; reflexivity ].
Qed.

End Integrator.

(** ** The simulation hook: frames, commits and the invariant of runs *)

Section HookBasics.

Import UseSimulation UsePhysicsEngine SimRun.

Variable engine : PhysicsEngine.

Lemma frame_nothing_pending (s : Sim) :
  rafPending s = [] -> frame engine s = s.
Proof.
  unfold frame. intros ->. reflexivity.
Qed.

Lemma frame_one_pending (s : Sim) (h : nat) :
  rafPending s = [h] -> frame engine s = animate engine (taken s).
Proof.
  intros E. unfold frame, taken. rewrite E. cbn [fold_left].
  unfold runCallback. rewrite E. cbn [existsb filter].
  rewrite Nat.eqb_refl. cbn [orb negb]. reflexivity.
Qed.

Lemma wellFormed_cases (s : Sim) :
  wellFormed s = true ->
  rafPending s = []
  \/ exists h, rafPending s = [h] /\ rafIdRef s = Some h
               /\ loopActive (stateRef s) = true
               /\ SimulationState.isRunning (state s) = true.
Proof.
  unfold wellFormed.
  destruct (rafPending s) as [ | h [ | h' l ] ]; [ now left | | discriminate ].
  destruct (rafIdRef s) as [ h' | ]; [ | discriminate ].
  intros H. apply andb_prop in H as [H H3]. apply andb_prop in H as [H1 H2].
  apply Nat.eqb_eq in H1. subst h'. right. exists h. auto.
Qed.

Lemma loopActive_isRunning (st : SimulationState.t) :
  loopActive st = true -> SimulationState.isRunning st = true.
Proof.
  unfold loopActive. intros H. apply andb_prop in H. tauto.
Qed.

Lemma wellFormed_mount : wellFormed mount = true.
Proof. reflexivity. Qed.

Lemma wellFormed_start (s : Sim) :
  wellFormed s = true -> wellFormed (start s) = true.
Proof.
  intros H. destruct (wellFormed_cases s H) as [E | (h & E & R & A & _)];
    unfold wellFormed, start; simpl; rewrite E; [ reflexivity | ].
  rewrite R, A, Nat.eqb_refl. reflexivity.
Qed.

Lemma wellFormed_setState (f : SimulationState.t -> SimulationState.t) (s : Sim) :
  (forall st, SimulationState.isRunning (f st) = SimulationState.isRunning st) ->
  wellFormed s = true -> wellFormed (setState f s) = true.
Proof.
  intros Hf H. destruct (wellFormed_cases s H) as [E | (h & E & R & A & I)];
    unfold wellFormed, setState; simpl; rewrite E; [ reflexivity | ].
  rewrite R, A, Hf, I, Nat.eqb_refl. reflexivity.
Qed.

(** The pending callback, if any, is the one [rafIdRef] holds. *)
Lemma wellFormed_tracked (s : Sim) :
  wellFormed s = true ->
  rafPending s = [] \/ exists h, rafPending s = [h] /\ rafIdRef s = Some h.
Proof.
  intros H. destruct (wellFormed_cases s H) as [E | (h & E & R & _)];
    [ now left | right; exists h; auto ].
Qed.

Lemma cancelCurrentFrame_pending (s : Sim) :
  rafPending s = [] \/ (exists h, rafPending s = [h] /\ rafIdRef s = Some h) ->
  rafPending (cancelCurrentFrame s) = [].
Proof.
  intros [E | (h & E & R)]; unfold cancelCurrentFrame.
  - destruct (rafIdRef s); simpl; rewrite E; reflexivity.
  - rewrite R; cbn [rafPending]. rewrite E; cbn [filter].
    rewrite Nat.eqb_refl. reflexivity.
Qed.

Lemma cancelCurrentFrame_state (s : Sim) :
  state (cancelCurrentFrame s) = state s.
Proof. unfold cancelCurrentFrame. destruct (rafIdRef s); reflexivity. Qed.

Lemma cancelCurrentFrame_stateRef (s : Sim) :
  stateRef (cancelCurrentFrame s) = stateRef s.
Proof. unfold cancelCurrentFrame. destruct (rafIdRef s); reflexivity. Qed.

Lemma cancelCurrentFrame_timeSeriesData (s : Sim) :
  timeSeriesData (cancelCurrentFrame s) = timeSeriesData s.
Proof. unfold cancelCurrentFrame. destruct (rafIdRef s); reflexivity. Qed.

Lemma cancelCurrentFrame_lastDataUpdateRef (s : Sim) :
  lastDataUpdateRef (cancelCurrentFrame s) = lastDataUpdateRef s.
Proof. unfold cancelCurrentFrame. destruct (rafIdRef s); reflexivity. Qed.

Lemma reset_pending (s : Sim) :
  wellFormed s = true -> rafPending (reset s) = [].
Proof.
  intros H. unfold reset. apply cancelCurrentFrame_pending.
  exact (wellFormed_tracked s H).
Qed.

Lemma wellFormed_reset (s : Sim) :
  wellFormed s = true -> wellFormed (reset s) = true.
Proof.
  intros H. unfold wellFormed. rewrite (reset_pending s H). reflexivity.
Qed.

Lemma animate_guard (st : SimulationState.t) :
  negb (SimulationState.isRunning st) || SimulationState.isPaused st
  = negb (loopActive st).
Proof.
  unfold loopActive.
  destruct (SimulationState.isRunning st), (SimulationState.isPaused st);
    reflexivity.
Qed.

(** [animate] returns at once when the committed state is not running. *)
Lemma animate_inactive (s : Sim) :
  loopActive (stateRef s) = false -> animate engine s = s.
Proof.
  intros H. unfold animate. rewrite animate_guard, H. reflexivity.
Qed.

(** The [catch] branch: when [computeNextState] throws, [animate] only
    sets [isPaused]. *)
Lemma animate_throw (s : Sim) :
  loopActive (stateRef s) = true ->
  is_ok (computeNextState engine
           {| Integration.position := SimulationState.position (stateRef s);
              Integration.velocity := SimulationState.velocity (stateRef s) |}
           Constants.TIMESTEP) = false ->
  animate engine s = setState (withPaused true) s.
Proof.
  intros A T. unfold animate. rewrite animate_guard, A. cbn [negb].
  destruct (computeNextState engine _ _); [ discriminate | reflexivity ].
Qed.

Lemma wellFormed_animate (s : Sim) :
  rafPending s = [] -> loopActive (stateRef s) = true ->
  wellFormed (animate engine s) = true.
Proof.
  intros E A. unfold animate. rewrite animate_guard, A. cbn [negb].
  destruct (computeNextState engine _ _) as [ nextState | msg ].
  - unfold animateTry.
    destruct (Number_ge _ _);
      [ destruct (computeTotalEnergy engine _ _) | ];
      unfold wellFormed; simpl; rewrite E; simpl;
      rewrite ?Nat.eqb_refl, ?A; reflexivity.
  - unfold wellFormed; simpl; rewrite E; reflexivity.
Qed.

Lemma wellFormed_frame (s : Sim) :
  wellFormed s = true -> wellFormed (frame engine s) = true.
Proof.
  intros H. destruct (wellFormed_cases s H) as [E | (h & E & R & A & I)].
  - rewrite (frame_nothing_pending s E). exact H.
  - rewrite (frame_one_pending s E). apply wellFormed_animate; [ reflexivity | exact A ].
Qed.

Lemma wellFormed_commit (s : Sim) :
  wellFormed s = true -> wellFormed (commit s) = true.
Proof.
  intros H. unfold commit.
  destruct (wellFormed_cases s H) as [E | (h & E & R & A & I)].
  - destruct (negb _ || negb _); cbn [andb].
    + destruct (loopActive (stateRef s)).
      * destruct (loopActive (state s)) eqn:A'; unfold wellFormed; simpl;
          rewrite (cancelCurrentFrame_pending s (or_introl E)); simpl;
          rewrite ?cancelCurrentFrame_state, ?Nat.eqb_refl, ?A',
            ?(loopActive_isRunning _ A'); reflexivity.
      * destruct (loopActive (state s)) eqn:A'; unfold wellFormed; simpl;
          rewrite E; simpl;
          rewrite ?Nat.eqb_refl, ?A', ?(loopActive_isRunning _ A'); reflexivity.
    + unfold wellFormed; simpl; rewrite E; reflexivity.
  - rewrite A.
    destruct (negb _ || negb _) eqn:D; cbn [andb].
    + assert (C : rafPending (cancelCurrentFrame s) = []).
      { apply cancelCurrentFrame_pending. right. exists h. auto. }
      destruct (loopActive (state s)) eqn:A'; unfold wellFormed; simpl;
        rewrite C; simpl;
        rewrite ?cancelCurrentFrame_state, ?Nat.eqb_refl, ?A',
          ?(loopActive_isRunning _ A'); reflexivity.
    + (* same flags as the previous render: the loop stays as it is *)
      assert (A' : loopActive (state s) = true).
      { apply orb_false_elim in D as [D1 D2].
        apply negb_false_iff, eqb_prop in D1.
        apply negb_false_iff, eqb_prop in D2.
        unfold loopActive in *. rewrite <- D1, <- D2. exact A. }
      unfold wellFormed; simpl. rewrite E, R; simpl.
      rewrite Nat.eqb_refl, A', I. reflexivity.
Qed.

Lemma wellFormed_handle (s : Sim) (e : Event) :
  wellFormed s = true -> wellFormed (handle engine s e) = true.
Proof.
  destruct e; cbn [handle].
  - apply wellFormed_start.
  - apply wellFormed_setState. reflexivity.
  - apply wellFormed_setState. reflexivity.
  - apply wellFormed_reset.
  - apply wellFormed_setState. reflexivity.
  - apply wellFormed_commit.
  - apply wellFormed_frame.
Qed.

(** Every state a run reaches from a well-formed one is well formed. *)
Lemma wellFormed_run (es : list Event) (s : Sim) :
  wellFormed s = true -> wellFormed (run engine es s) = true.
Proof.
  revert s. induction es as [ | e es IH ]; intros s H; [ exact H | ].
  cbn [run fold_left]. apply IH. apply wellFormed_handle. exact H.
Qed.

(** In particular every state a run reaches from the mounted hook. *)
Lemma reachable_wellFormed (es : list Event) :
  wellFormed (run engine es mount) = true.
Proof.
  apply wellFormed_run. exact wellFormed_mount.
Qed.

End HookBasics.

(** ** The loop at rest *)

Section Quiescence.

Import UseSimulation UsePhysicsEngine SimRun.

Variable engine : PhysicsEngine.

Lemma quiescent_frame (s : Sim) :
  quiescent s -> frame engine s = s.
Proof.
  intros [E _]. apply frame_nothing_pending. exact E.
Qed.

Lemma quiescent_commit (s : Sim) :
  quiescent s -> quiescent (commit s).
Proof.
  intros [E Q]. unfold commit. rewrite Q, andb_false_r.
  destruct (_ && loopActive (stateRef s)); split; cbn [rafPending state setStateRef];
    rewrite ?cancelCurrentFrame_state; auto.
  apply cancelCurrentFrame_pending. left. exact E.
Qed.

Lemma quiescent_handle (s : Sim) (e : Event) :
  restarts e = false -> quiescent s -> quiescent (handle engine s e).
Proof.
  destruct e; cbn [restarts handle]; try discriminate; intros _ Q.
  - destruct Q as [E Q]. split; [ exact E | ].
    unfold loopActive; simpl. apply andb_false_r.
  - destruct Q as [E Q]. split.
    + unfold reset. apply cancelCurrentFrame_pending. left. exact E.
    + unfold reset. rewrite cancelCurrentFrame_state. reflexivity.
  - destruct Q as [E Q]. split; [ exact E | exact Q ].
  - apply quiescent_commit. exact Q.
  - rewrite (quiescent_frame Q). exact Q.
Qed.

(** Once at rest, the loop stays at rest until [start()] or [resume()]. *)
Lemma quiescent_run (es : list Event) (s : Sim) :
  forallb (fun e => negb (restarts e)) es = true ->
  quiescent s -> quiescent (run engine es s).
Proof.
  revert s. induction es as [ | e es IH ]; intros s H Q; [ exact Q | ].
  cbn [forallb] in H. apply andb_prop in H as [He Hes].
  cbn [run fold_left]. apply IH; [ exact Hes | ].
  apply quiescent_handle; [ | exact Q ].
  apply negb_true_iff. exact He.
Qed.

Lemma quiescent_reset (s : Sim) :
  wellFormed s = true -> quiescent (reset s).
Proof.
  intros H. split; [ apply reset_pending; exact H | ].
  unfold reset. rewrite cancelCurrentFrame_state. reflexivity.
Qed.

Lemma quiescent_commit_pause (s : Sim) :
  wellFormed s = true -> quiescent (commit (pause s)).
Proof.
  intros H.
  assert (Q : loopActive (state (pause s)) = false).
  { unfold loopActive; simpl. apply andb_false_r. }
  unfold commit. rewrite Q, andb_false_r.
  destruct (wellFormed_cases s H) as [E | (h & E & R & A & I)].
  - destruct (_ && loopActive (stateRef (pause s))); split;
      cbn [rafPending state setStateRef];
      rewrite ?cancelCurrentFrame_state; auto.
    apply cancelCurrentFrame_pending. left. exact E.
  - assert (D : negb (Bool.eqb (SimulationState.isPaused (stateRef (pause s)))
                        (SimulationState.isPaused (state (pause s)))) = true).
    { cbn. unfold loopActive in A. apply andb_prop in A as [_ A].
      apply negb_true_iff in A. rewrite A. reflexivity. }
    rewrite D, orb_true_r. cbn [stateRef pause setState]. rewrite A. cbn [andb].
    split; cbn [rafPending state setStateRef];
      rewrite ?cancelCurrentFrame_state; auto.
    apply cancelCurrentFrame_pending. right. exists h. auto.
Qed.

End Quiescence.

(** ** Runs that differ only in their handles *)

Section SameRun.

Import UseSimulation UsePhysicsEngine SimRun.

Variable engine : PhysicsEngine.

Lemma sameRun_refl (s : Sim) : sameRun s s.
Proof. repeat split. Qed.

Lemma sameRun_trans (s1 s2 s3 : Sim) :
  sameRun s1 s2 -> sameRun s2 s3 -> sameRun s1 s3.
Proof.
  intros (A1 & A2 & A3 & A4 & A5) (B1 & B2 & B3 & B4 & B5).
  repeat split; congruence.
Qed.

Lemma sameRun_sym (s1 s2 : Sim) : sameRun s1 s2 -> sameRun s2 s1.
Proof.
  intros (A1 & A2 & A3 & A4 & A5). repeat split; congruence.
Qed.

(** [animate] does not read the handles. *)
Lemma sameRun_animate (s1 s2 : Sim) :
  sameRun s1 s2 -> sameRun (animate engine s1) (animate engine s2).
Proof.
  destruct s1 as [st1 sr1 d1 r1 l1 p1 n1], s2 as [st2 sr2 d2 r2 l2 p2 n2].
  intros (A1 & A2 & A3 & A4 & A5). cbn in A1, A2, A3, A4, A5. subst.
  unfold animate; cbn [stateRef].
  destruct (negb _ || _); [ repeat split; assumption | ].
  destruct (computeNextState engine _ _) as [ nextState | msg ];
    [ | repeat split; assumption ].
  unfold animateTry; cbn [lastDataUpdateRef setState].
  destruct (Number_ge _ _);
    [ destruct (computeTotalEnergy engine _ _) | ];
    repeat split; cbn; rewrite ?length_app; cbn; congruence.
Qed.

Lemma sameRun_taken (s1 s2 : Sim) :
  sameRun s1 s2 -> sameRun (taken s1) (taken s2).
Proof.
  intros (A1 & A2 & A3 & A4 & A5). repeat split; assumption.
Qed.

Lemma sameRun_frame (s1 s2 : Sim) :
  wellFormed s1 = true -> wellFormed s2 = true ->
  sameRun s1 s2 -> sameRun (frame engine s1) (frame engine s2).
Proof.
  intros W1 W2 H.
  assert (L : List.length (rafPending s1) = List.length (rafPending s2))
    by apply H.
  destruct (wellFormed_cases s1 W1) as [E1 | (h1 & E1 & _)],
           (wellFormed_cases s2 W2) as [E2 | (h2 & E2 & _)];
    rewrite E1, E2 in L; try discriminate.
  - rewrite (frame_nothing_pending engine s1 E1),
            (frame_nothing_pending engine s2 E2). exact H.
  - rewrite (frame_one_pending engine s1 E1), (frame_one_pending engine s2 E2).
    apply sameRun_animate, sameRun_taken, H.
Qed.

Lemma sameRun_commit (s1 s2 : Sim) :
  wellFormed s1 = true -> wellFormed s2 = true ->
  sameRun s1 s2 -> sameRun (commit s1) (commit s2).
Proof.
  intros W1 W2 (A1 & A2 & A3 & A4 & A5). unfold commit.
  rewrite A1, A2.
  destruct (_ && loopActive (stateRef s2)).
  - pose proof (cancelCurrentFrame_pending s1 (wellFormed_tracked s1 W1)) as C1.
    pose proof (cancelCurrentFrame_pending s2 (wellFormed_tracked s2 W2)) as C2.
    destruct (_ && loopActive (state s2)); repeat split; cbn;
      rewrite ?cancelCurrentFrame_state, ?cancelCurrentFrame_timeSeriesData,
        ?cancelCurrentFrame_lastDataUpdateRef, ?C1, ?C2; auto.
  - destruct (_ && loopActive (state s2)); repeat split; cbn;
      rewrite ?length_app; cbn; auto.
Qed.

Lemma sameRun_tick (s1 s2 : Sim) :
  wellFormed s1 = true -> wellFormed s2 = true ->
  sameRun s1 s2 -> sameRun (tick engine s1) (tick engine s2).
Proof.
  intros W1 W2 H. unfold tick.
  apply sameRun_commit; try apply wellFormed_frame; try assumption.
  apply sameRun_frame; assumption.
Qed.

Lemma wellFormed_tick (s : Sim) :
  wellFormed s = true -> wellFormed (tick engine s) = true.
Proof.
  intros W. unfold tick. apply wellFormed_commit, wellFormed_frame, W.
Qed.

Lemma sameRun_ticks (n : nat) (s1 s2 : Sim) :
  wellFormed s1 = true -> wellFormed s2 = true ->
  sameRun s1 s2 -> sameRun (ticks engine n s1) (ticks engine n s2).
Proof.
  revert s1 s2. induction n as [ | n IH ]; intros s1 s2 W1 W2 H; [ exact H | ].
  cbn [ticks]. apply IH; try apply wellFormed_tick; try assumption.
  apply sameRun_tick; assumption.
Qed.

Lemma ticks_add (n m : nat) (s : Sim) :
  ticks engine (n + m) s = ticks engine m (ticks engine n s).
Proof.
  revert s. induction n as [ | n IH ]; intros s; [ reflexivity | ].
  cbn [Nat.add ticks]. apply IH.
Qed.

End SameRun.

(** ** Pausing and resuming a run *)

Section PauseResume.

Import UseSimulation UsePhysicsEngine SimRun.

Variable engine : PhysicsEngine.

(** Sampling never throws after a step that succeeded. *)
Hypothesis energy_after_step :
  forall st dt nextState,
    computeNextState engine st dt = Ok nextState ->
    is_ok (computeTotalEnergy engine (position nextState) (velocity nextState))
    = true.

Lemma runningCommitted_wellFormed (s : Sim) :
  runningCommitted s -> wellFormed s = true.
Proof.
  intros (E & A & h & P & R). unfold wellFormed. rewrite P, R, <- E, A.
  rewrite Nat.eqb_refl, (loopActive_isRunning _ A). reflexivity.
Qed.

Lemma halted_wellFormed (s : Sim) :
  halted engine s -> wellFormed s = true.
Proof.
  intros (_ & _ & _ & P & _). unfold wellFormed. rewrite P. reflexivity.
Qed.

(** A commit with nothing new to render changes nothing. *)
Lemma commit_synced (s : Sim) :
  state s = stateRef s -> commit s = s.
Proof.
  destruct s as [st sr d r l p n]. cbn. intros <-.
  unfold commit; cbn. rewrite !eqb_reflx. reflexivity.
Qed.

Lemma tick_halted (s : Sim) :
  halted engine s -> tick engine s = s.
Proof.
  intros (E & _ & _ & P & _). unfold tick.
  rewrite (frame_nothing_pending engine s P). apply commit_synced, E.
Qed.

Lemma ticks_halted (n : nat) (s : Sim) :
  halted engine s -> ticks engine n s = s.
Proof.
  intros H. induction n as [ | n IH ]; [ reflexivity | ].
  cbn [ticks]. rewrite (tick_halted H). exact IH.
Qed.

Lemma loopActive_flags (st : SimulationState.t) :
  loopActive st = true ->
  SimulationState.isRunning st = true /\ SimulationState.isPaused st = false.
Proof.
  unfold loopActive. intros H. apply andb_prop in H as [H1 H2].
  apply negb_true_iff in H2. auto.
Qed.

(** One turn of a running, committed simulation: either the step succeeds
    and the simulation is running and committed again, or the step fails
    and the simulation is halted. *)
Lemma tick_runningCommitted (s : Sim) :
  runningCommitted s ->
  runningCommitted (tick engine s) \/ halted engine (tick engine s).
Proof.
  intros (E & A & h & P & R). unfold tick.
  rewrite (frame_one_pending engine s P).
  destruct s as [st sr d r l p n]. cbn in E, A, P, R. subst sr p r.
  destruct st as [x v a t run pz].
  destruct (loopActive_flags _ A) as [F1 F2]. cbn in F1, F2. subst run pz.
  unfold animate, taken; cbn.
  destruct (computeNextState engine _ _) as [ nextState | msg ] eqn:C.
  - left. unfold animateTry; cbn.
    pose proof (energy_after_step _ _ C) as En.
    match goal with
    | |- context [ if ?c then _ else _ ] => destruct c
    end;
      [ destruct (computeTotalEnergy engine _ _); [ | discriminate ] | ];
      unfold commit; cbn; (split; [ reflexivity | split; [ reflexivity | ] ]);
      exists n; split; reflexivity.
  - right. unfold commit; cbn. rewrite ?Nat.eqb_refl; cbn.
    unfold halted; cbn. cbn in C. rewrite C. repeat split.
Qed.

(** After [pause()], [resume()] and their commits a running simulation
    is as it was, up to the handle of its pending callback. *)
Lemma pauseThenResume_running (s : Sim) :
  runningCommitted s ->
  sameRun (pauseThenResume s) s /\ runningCommitted (pauseThenResume s).
Proof.
  intros (E & A & h & P & R).
  destruct s as [st sr d r l p n]. cbn in E, A, P, R. subst sr p r.
  destruct st as [x v a t run pz].
  destruct (loopActive_flags _ A) as [F1 F2]. cbn in F1, F2. subst run pz.
  unfold pauseThenResume, pause, resume, commit; cbn.
  rewrite ?Nat.eqb_refl; cbn.
  split; [ repeat split | ].
  split; [ reflexivity | split; [ reflexivity | ] ].
  exists n; split; reflexivity.
Qed.

(** When the step from its state fails, a running simulation halts at its
    next turn, where it is. *)
Lemma tick_failing (s : Sim) :
  runningCommitted s ->
  is_ok (computeNextState engine
           {| Integration.position := SimulationState.position (state s);
              Integration.velocity := SimulationState.velocity (state s) |}
           Constants.TIMESTEP) = false ->
  halted engine (tick engine s)
  /\ sameMotion (state (tick engine s)) (state s).
Proof.
  intros (E & A & h & P & R) F. unfold tick.
  rewrite (frame_one_pending engine s P).
  destruct s as [st sr d r l p n]. cbn in E, A, P, R, F. subst sr p r.
  destruct st as [x v a t run pz].
  destruct (loopActive_flags _ A) as [F1 F2]. cbn in F1, F2. subst run pz.
  unfold animate, taken; cbn.
  destruct (computeNextState engine _ _) as [ nextState | msg ] eqn:C;
    [ discriminate | ].
  unfold commit; cbn. rewrite ?Nat.eqb_refl; cbn.
  unfold halted, sameMotion; cbn. cbn in C. rewrite C. repeat split.
Qed.

(** [resume()] sets a halted simulation running again, where it is. *)
Lemma pauseThenResume_halted (s : Sim) :
  halted engine s ->
  runningCommitted (pauseThenResume s)
  /\ sameMotion (state (pauseThenResume s)) (state s)
  /\ is_ok (computeNextState engine
              {| Integration.position :=
                   SimulationState.position (state (pauseThenResume s));
                 Integration.velocity :=
                   SimulationState.velocity (state (pauseThenResume s)) |}
              Constants.TIMESTEP) = false.
Proof.
  intros (E & I & Z & P & F).
  destruct s as [st sr d r l p n]. cbn in E, I, Z, P, F. subst sr p.
  destruct st as [x v a t run pz]. cbn in I, Z, F. subst run pz.
  unfold pauseThenResume, pause, resume, commit; cbn.
  split; [ | split; [ repeat split | exact F ] ].
  split; [ reflexivity | split; [ reflexivity | ] ].
  exists n; split; reflexivity.
Qed.

Lemma sameMotion_trans (a b c : SimulationState.t) :
  sameMotion a b -> sameMotion b c -> sameMotion a c.
Proof.
  intros (A1 & A2 & A3 & A4) (B1 & B2 & B3 & B4). repeat split; congruence.
Qed.

Lemma sameRun_sameMotion (s1 s2 : Sim) :
  sameRun s1 s2 -> sameMotion (state s1) (state s2).
Proof.
  intros (A & _). rewrite A. repeat split.
Qed.

Lemma pause_resume_halted (s : Sim) (M : nat) :
  halted engine s ->
  sameMotion (state (ticks engine M (pauseThenResume s))) (state s).
Proof.
  intros H. destruct (pauseThenResume_halted H) as (R & S & F).
  destruct M as [ | M ]; [ exact S | ].
  cbn [ticks]. destruct (tick_failing R F) as (H' & S').
  rewrite (ticks_halted M H'). exact (sameMotion_trans S' S).
Qed.

Lemma pause_resume_running (N M : nat) (s : Sim) :
  runningCommitted s ->
  sameMotion (state (ticks engine M (pauseThenResume (ticks engine N s))))
             (state (ticks engine (N + M) s)).
Proof.
  revert s. induction N as [ | N IH ]; intros s H.
  - cbn [ticks Nat.add].
    destruct (pauseThenResume_running H) as (S & R).
    apply sameRun_sameMotion, sameRun_ticks;
      auto using runningCommitted_wellFormed.
  - cbn [ticks Nat.add].
    destruct (tick_runningCommitted H) as [ R | Hh ]; [ apply IH, R | ].
    rewrite (ticks_halted N Hh), (ticks_halted (N + M) Hh).
    apply pause_resume_halted, Hh.
Qed.

End PauseResume.

(** ** The physics engine *)

Section Engine.

Import Integration Physics SimRun.
Local Open Scope string_scope.
Local Open Scope float_scope.

(** The final check of [rk4Step]: a returned state is finite. *)
Lemma rk4Step_ok_finite (st st' : State) (dt : number)
    (f : number -> number -> result number) :
  rk4Step st dt f = Ok st' ->
  Number_isFinite (position st') = true
  /\ Number_isFinite (velocity st') = true.
Proof.
  unfold rk4Step, bind.
  repeat match goal with
         | |- context [ if ?c then _ else _ ] => destruct c eqn:?
         | |- context [ match f ?u ?w with _ => _ end ] => destruct (f u w)
         end; try discriminate.
  intros [= <-]. cbn [position velocity].
  match goal with
  | H : negb _ || negb _ = false |- _ =>
      apply orb_false_elim in H as [H1 H2];
      apply negb_false_iff in H1, H2; auto
  end.
Qed.

(** The input check of [rk4Step]. *)
Lemma rk4Step_invalid_input (st : State) (dt : number)
    (f : number -> number -> result number) :
  Number_isFinite (position st) = false ->
  rk4Step st dt f =
    Throw "Invalid input: position, velocity, and dt must be finite numbers".
Proof.
  intros H. unfold rk4Step. rewrite H. reflexivity.
Qed.

Lemma computeNextStateFrom_rk4Step_throws
    (f : number -> number -> result number) (st : State) (dt : number) :
  is_ok (rk4Step st dt f) = false ->
  is_ok (UsePhysicsEngine.computeNextStateFrom f st dt) = false.
Proof.
  unfold UsePhysicsEngine.computeNextStateFrom. destruct st as [x v]. cbn [position velocity].
  destruct (rk4Step _ _ _); [ discriminate | reflexivity ].
Qed.

Lemma computeNextStateFrom_ok_finite
    (f : number -> number -> result number) (st : State) (dt : number)
    (nextState : UsePhysicsEngine.NextState) :
  UsePhysicsEngine.computeNextStateFrom f st dt = Ok nextState ->
  Number_isFinite (UsePhysicsEngine.position nextState) = true
  /\ Number_isFinite (UsePhysicsEngine.velocity nextState) = true.
Proof.
  unfold UsePhysicsEngine.computeNextStateFrom, bind.
  destruct (rk4Step _ _ _) as [ st' | ] eqn:R; [ | discriminate ].
  destruct (f _ _); [ | discriminate ].
  intros [= <-]. cbn. exact (rk4Step_ok_finite _ _ _ R).
Qed.

(** The composite acceleration, when the total force is finite: it needs a
    finite positive mass, a finite spring constant and a finite
    non-negative damping coefficient. *)
Lemma computeAccelerationFromState_finite_force
    (p : SpringParameters.t) (x v : number) :
  Number_isFinite (SpringParameters.mass p) = true ->
  (0 <? SpringParameters.mass p) = true ->
  Number_isFinite (SpringParameters.springConstant p) = true ->
  Number_isFinite (SpringParameters.dampingCoefficient p) = true ->
  (0 <=? SpringParameters.dampingCoefficient p) = true ->
  Number_isFinite x = true -> Number_isFinite v = true ->
  Number_isFinite
    ((- SpringParameters.springConstant p) * x
     + (- SpringParameters.dampingCoefficient p) * v) = true ->
  UsePhysicsEngine.computeAccelerationFromState p x v =
    Ok (((- SpringParameters.springConstant p) * x
         + (- SpringParameters.dampingCoefficient p) * v)
        / SpringParameters.mass p).
Proof.
  intros M1 M2 K1 C1 C2 Hx Hv Hf.
  apply Number_lt_not_ge in M2. apply Number_le_not_gt in C2.
  unfold UsePhysicsEngine.computeAccelerationFromState, computeSpringForce,
    computeDampingForce, computeAcceleration, bind.
  rewrite Hx, Hv, K1, C1, C2. cbn [negb orb].
  rewrite Hf, M1, M2. reflexivity.
Qed.

Variable parameters : SpringParameters.t.

Hypothesis parameters_valid : validParameters parameters = true.

Lemma validParameters_fields :
  Number_isFinite (SpringParameters.mass parameters) = true
  /\ (SpringParameters.mass parameters <=? 0) = false
  /\ Number_isFinite (SpringParameters.springConstant parameters) = true
  /\ (SpringParameters.springConstant parameters <=? 0) = false
  /\ Number_isFinite (SpringParameters.dampingCoefficient parameters) = true
  /\ (SpringParameters.dampingCoefficient parameters <? 0) = false.
Proof.
  pose proof parameters_valid as H. unfold validParameters in H.
  repeat match type of H with
         | _ && _ = true => let H' := fresh in apply andb_prop in H as [H H']
         end.
  repeat split; auto using Number_lt_not_ge, Number_le_not_gt.
Qed.

(** With valid parameters the energy of a finite state is computed. *)
Lemma computeEnergy_ok (x v : number) :
  Number_isFinite x = true -> Number_isFinite v = true ->
  is_ok (UsePhysicsEngine.computeEnergy parameters x v) = true.
Proof.
  intros Hx Hv. destruct validParameters_fields as (M1 & M2 & K1 & K2 & _).
  unfold UsePhysicsEngine.computeEnergy, computeTotalEnergy, computeKineticEnergy,
    computePotentialEnergy, bind.
  rewrite M1, M2, K1, K2, Hx, Hv. reflexivity.
Qed.

Lemma usePhysicsEngine_energy_after_step :
  forall st dt nextState,
    UsePhysicsEngine.computeNextState
      (UsePhysicsEngine.usePhysicsEngine parameters) st dt = Ok nextState ->
    is_ok (UsePhysicsEngine.computeTotalEnergy
             (UsePhysicsEngine.usePhysicsEngine parameters)
             (UsePhysicsEngine.position nextState)
             (UsePhysicsEngine.velocity nextState)) = true.
Proof.
  intros st dt nextState H. cbn in H |- *.
  destruct (computeNextStateFrom_ok_finite _ _ _ H) as [Hx Hv].
  apply computeEnergy_ok; assumption.
Qed.

End Engine.
(** ** Rounding and order

    [SpecFloat] specifies every operation on binary64 values as an exact
    computation on integers followed by a rounding to nearest, ties to
    even.  What follows shows that this rounding is monotone with respect
    to the representable values, which is what the window of the buffer
    needs: subtracting the window's duration from a time gives at most
    that time. *)

Unset Implicit Arguments.

Section RoundingOrder.

Import Rounding.
Local Open Scope Z_scope.

Section PowersOfTwo.

Lemma pow2_pos (n : Z) : 0 <= n -> 0 < 2 ^ n.
Proof. intros H. apply Z.pow_pos_nonneg; lia. Qed.

Lemma pow2_succ (n : Z) : 0 <= n -> 2 ^ (n + 1) = 2 * 2 ^ n.
Proof. intros H. rewrite Z.pow_add_r by lia. lia. Qed.

Lemma pow2_add (a b : Z) : 0 <= a -> 0 <= b -> 2 ^ (a + b) = 2 ^ a * 2 ^ b.
Proof. intros. apply Z.pow_add_r; assumption. Qed.

Lemma pow2_le (a b : Z) : 0 <= a <= b -> 2 ^ a <= 2 ^ b.
Proof. intros H. apply Z.pow_le_mono_r; lia. Qed.

Lemma pow2_lt (a b : Z) : 0 <= a < b -> 2 ^ a < 2 ^ b.
Proof. intros H. apply Z.pow_lt_mono_r; lia. Qed.

(** Multiples of a power of two compare as their factors do. *)
Lemma pow2_mul_le (a b n : Z) : 0 <= n -> a * 2 ^ n <= b * 2 ^ n -> a <= b.
Proof.
  intros Hn H. pose proof (pow2_pos n Hn).
  apply Z.mul_le_mono_pos_r with (p := 2 ^ n); assumption.
Qed.

Lemma pow2_mul_lt (a b n : Z) : 0 <= n -> a * 2 ^ n < b * 2 ^ n -> a < b.
Proof.
  intros Hn H. pose proof (pow2_pos n Hn).
  apply Z.mul_lt_mono_pos_r with (p := 2 ^ n); assumption.
Qed.

End PowersOfTwo.

Section Digits.

Lemma digits2_pos_bounds (m : positive) :
  2 ^ (Zpos (digits2_pos m) - 1) <= Zpos m < 2 ^ Zpos (digits2_pos m).
Proof.
  induction m as [ p IH | p IH | ]; cbn [digits2_pos].
  - rewrite Pos2Z.inj_succ, Pos2Z.inj_xI.
    replace (Z.succ (Zpos (digits2_pos p)) - 1)
      with (Zpos (digits2_pos p) - 1 + 1) by lia.
    replace (Z.succ (Zpos (digits2_pos p)))
      with (Zpos (digits2_pos p) + 1) by lia.
    rewrite !pow2_succ by lia. lia.
  - rewrite Pos2Z.inj_succ, Pos2Z.inj_xO.
    replace (Z.succ (Zpos (digits2_pos p)) - 1)
      with (Zpos (digits2_pos p) - 1 + 1) by lia.
    replace (Z.succ (Zpos (digits2_pos p)))
      with (Zpos (digits2_pos p) + 1) by lia.
    rewrite !pow2_succ by lia. lia.
  - cbn. lia.
Qed.

Lemma digits2_pos_unique (m : positive) (d : Z) :
  2 ^ (d - 1) <= Zpos m < 2 ^ d -> 0 < d -> Zpos (digits2_pos m) = d.
Proof.
  intros H Hd. pose proof (digits2_pos_bounds m) as B.
  set (d' := Zpos (digits2_pos m)) in *.
  assert (0 < d') by (unfold d'; lia).
  destruct (Z.lt_trichotomy d' d) as [ L | [ E | G ] ]; [ | exact E | ].
  - assert (2 ^ d' <= 2 ^ (d - 1)) by (apply pow2_le; lia). lia.
  - assert (2 ^ d <= 2 ^ (d' - 1)) by (apply pow2_le; lia). lia.
Qed.

End Digits.

Section Shift.

(** A property indexed by a count of steps holds after [iter_pos f p]
    once it holds before and each step keeps it. *)
Lemma iter_pos_counted (A : Type) (f : A -> A) (P : Z -> A -> Prop) :
  (forall n x, 0 <= n -> P n x -> P (n + 1) (f x)) ->
  forall (p : positive) (n : Z) (x : A),
    0 <= n -> P n x -> P (n + Zpos p) (@SpecFloat.iter_pos A f p x).
Proof.
  intros step p. induction p as [ p IH | p IH | ]; intros n x Hn H;
    cbn [SpecFloat.iter_pos].
  - replace (n + Zpos p~1) with (n + 1 + Zpos p + Zpos p) by lia.
    apply IH; [ lia | ]. apply IH; [ lia | ]. apply step; assumption.
  - replace (n + Zpos p~0) with (n + Zpos p + Zpos p) by lia.
    apply IH; [ lia | ]. apply IH; assumption.
  - apply step; assumption.
Qed.

Lemma shifted_shr_1 (M n : Z) (mrs : shr_record) :
  0 <= n -> shifted M n mrs -> shifted M (n + 1) (shr_1 mrs).
Proof.
  intros Hn (H0 & H1 & H2). unfold shifted.
  rewrite pow2_succ by exact Hn. pose proof (pow2_pos n Hn) as P.
  destruct mrs as [m r s]; cbn [shr_m shr_r shr_s] in *.
  destruct m as [ | [ p | p | ] | p ]; cbn [shr_1 shr_m shr_r shr_s];
    (split; [ lia | ]); (split; [ lia | ]);
    try (intros _; lia);
    rewrite orb_false_l; intros R; specialize (H2 R); lia.
Qed.

Lemma shifted_shr (M E k : Z) :
  0 <= M -> 0 < k ->
  exists mrs,
    shr (shr_record_of_loc M loc_Exact) E k = (mrs, E + k)
    /\ shifted M k mrs.
Proof.
  intros HM Hk. destruct k as [ | p | p ]; try lia.
  cbn [shr shr_record_of_loc]. eexists. split; [ reflexivity | ].
  change (Zpos p) with (0 + Zpos p).
  apply (iter_pos_counted _ shr_1 (shifted M)).
  - intros n x Hn. apply shifted_shr_1. exact Hn.
  - lia.
  - unfold shifted; cbn. split; [ exact HM | ]. split; [ lia | ].
    discriminate.
Qed.

(** Rounding to nearest even at the granularity [2^n] is monotone with
    respect to the multiples of [2^n]. *)
Lemma round_nearest_even_sandwich (M n : Z) (mrs : shr_record) :
  0 <= n -> shifted M n mrs ->
  let mr := round_nearest_even (shr_m mrs) (loc_of_shr_record mrs) in
  forall T : Z,
    (M <= T * 2 ^ n -> mr <= T) /\ (T * 2 ^ n <= M -> T <= mr).
Proof.
  intros Hn (H0 & H1 & H2) mr T. pose proof (pow2_pos n Hn) as P.
  assert (Q : (mr = shr_m mrs)
              \/ (mr = shr_m mrs + 1 /\ shr_m mrs * 2 ^ n < M)).
  { unfold mr. destruct mrs as [m r s]; cbn [shr_m shr_r shr_s] in *.
    destruct r, s; cbn [loc_of_shr_record round_nearest_even];
      try (left; reflexivity);
      try (right; split; [ reflexivity | apply H2; reflexivity ]).
    destruct (Z.even m); [ left; reflexivity | ].
    right; split; [ reflexivity | apply H2; reflexivity ]. }
  split; intros H.
  - destruct Q as [ -> | [ -> Q ] ].
    + apply (pow2_mul_le _ _ n Hn). lia.
    + assert (shr_m mrs < T) by (apply (pow2_mul_lt _ _ n Hn); lia). lia.
  - assert (T < shr_m mrs + 1) by (apply (pow2_mul_lt _ _ n Hn); lia).
    destruct Q as [ -> | [ -> Q ] ]; lia.
Qed.

End Shift.

Section Alignment.

Variables prec emax : Z.
Hypothesis prec_pos : 0 < prec.

Local Notation "'emin'" := (SpecFloat.emin prec emax).
Local Notation "'fexp'" := (SpecFloat.fexp prec emax).

Lemma fexp_eq (e : Z) : fexp e = Z.max (e - prec) emin.
Proof. reflexivity. Qed.

Lemma pos_iter_xO (m d : positive) :
  Zpos (Pos.iter xO m d) = Zpos m * 2 ^ Zpos d.
Proof.
  induction d as [ | d IH ] using Pos.peano_ind.
  - cbn [Pos.iter]. rewrite Pos2Z.inj_xO. cbn. lia.
  - rewrite Pos.iter_succ, Pos2Z.inj_xO, IH, Pos2Z.inj_succ.
    replace (Z.succ (Zpos d)) with (Zpos d + 1) by lia.
    rewrite pow2_succ by lia. lia.
Qed.

Lemma shl_align_spec (m : positive) (e e' : Z) :
  e' <= e ->
  Zpos (fst (shl_align m e e')) = Zpos m * 2 ^ (e - e')
  /\ snd (shl_align m e e') = e'.
Proof.
  intros H. unfold shl_align. destruct (e' - e) as [ | d | d ] eqn:D.
  - cbn [fst snd]. replace (e - e') with 0 by lia. cbn. lia.
  - lia.
  - cbn [fst snd]. rewrite pos_iter_xO.
    replace (e - e') with (Zpos d) by lia. split; reflexivity.
Qed.

Lemma shl_align_none (m : positive) (e e' : Z) :
  e <= e' -> shl_align m e e' = (m, e).
Proof.
  intros H. unfold shl_align. destruct (e' - e) as [ | d | d ] eqn:D;
    [ reflexivity | reflexivity | lia ].
Qed.

(** The digits of a mantissa shifted left. *)
Lemma digits2_pos_shift (m m' : positive) (n : Z) :
  0 <= n -> Zpos m' = Zpos m * 2 ^ n ->
  Zpos (digits2_pos m') = Zpos (digits2_pos m) + n.
Proof.
  intros Hn E. pose proof (digits2_pos_bounds m) as B.
  pose proof (pow2_pos n Hn) as P.
  apply digits2_pos_unique; [ | lia ]. rewrite E.
  replace (Zpos (digits2_pos m) + n - 1)
    with (Zpos (digits2_pos m) - 1 + n) by lia.
  rewrite !pow2_add by lia. nia.
Qed.

(** A shift of zero bits. *)
Lemma shr_fexp_canonical (m : positive) (e : Z) (l : location) :
  fexp (Zpos (digits2_pos m) + e) = e ->
  shr_fexp prec emax (Zpos m) e l = (shr_record_of_loc (Zpos m) l, e).
Proof.
  intros H. unfold shr_fexp. cbn [Zdigits2]. rewrite H, Z.sub_diag.
  reflexivity.
Qed.

Lemma binary_round_aux_canonical (sx : bool) (m : positive) (e : Z) :
  fexp (Zpos (digits2_pos m) + e) = e ->
  binary_round_aux prec emax sx (Zpos m) e loc_Exact
  = finite_or_infinity prec emax sx m e.
Proof.
  intros H. unfold binary_round_aux.
  rewrite (shr_fexp_canonical m e loc_Exact H).
  cbn [shr_record_of_loc shr_m loc_of_shr_record round_nearest_even].
  rewrite (shr_fexp_canonical m e loc_Exact H).
  reflexivity.
Qed.

End Alignment.

Section RoundToNearest.

Variables prec emax : Z.
Hypothesis prec_pos : 0 < prec.

Local Notation "'emin'" := (SpecFloat.emin prec emax).
Local Notation "'fexp'" := (SpecFloat.fexp prec emax).

Lemma binary_round_exact (sx : bool) (M : positive) (E : Z) :
  emin <= E ->
  fexp (Zpos (digits2_pos M) + E) <= E ->
  exists mr f,
    rounds_to prec emax M E mr f
    /\ binary_round prec emax sx M E = rounded prec emax sx mr f.
Proof.
  intros HE Hf. set (d := Zpos (digits2_pos M)) in *.
  set (f := fexp (d + E)) in *.
  assert (Hfmin : emin <= f) by (unfold f; rewrite fexp_eq; lia).
  destruct (shl_align_spec M E f Hf) as [A1 A2].
  unfold binary_round. fold d. fold f.
  destruct (shl_align M E f) as [M1 E1] eqn:S. cbn [fst snd] in A1, A2.
  subst E1.
  assert (D1 : Zpos (digits2_pos M1) = d + (E - f)).
  { apply (digits2_pos_shift M); [ lia | exact A1 ]. }
  assert (C : fexp (Zpos (digits2_pos M1) + f) = f).
  { rewrite D1. replace (d + (E - f) + f) with (d + E) by lia. reflexivity. }
  rewrite (binary_round_aux_canonical prec emax sx M1 f C).
  pose proof (digits2_pos_bounds M1) as B1.
  assert (D1' : Zpos (digits2_pos M1) <= prec).
  { rewrite fexp_eq in C. lia. }
  assert (L : Zpos M1 < 2 ^ prec).
  { assert (2 ^ Zpos (digits2_pos M1) <= 2 ^ prec) by (apply pow2_le; lia).
    lia. }
  assert (V : Zpos M * 2 ^ (E - emin) = Zpos M1 * 2 ^ (f - emin)).
  { rewrite A1. replace (E - emin) with ((E - f) + (f - emin)) by lia.
    rewrite pow2_add by lia. lia. }
  exists M1, f. split.
  - split; [ exact Hfmin | ]. split; [ lia | ]. split; [ | split ].
    + intros G. assert (Zpos (digits2_pos M1) = prec).
      { rewrite fexp_eq in C. lia. }
      assert (2 ^ (prec - 1) <= Zpos M1) by (rewrite <- H; apply B1).
      split; [ assumption | ]. rewrite V.
      pose proof (pow2_pos (f - emin)). nia.
    + intros _. exact C.
    + intros T. rewrite V. split; intros H.
      * apply (pow2_mul_le _ _ (f - emin)); [ lia | exact H ].
      * apply (pow2_mul_le _ _ (f - emin)); [ lia | exact H ].
  - unfold rounded. apply Z.ltb_lt in L. rewrite L. reflexivity.
Qed.

Lemma binary_round_inexact (sx : bool) (M : positive) (E : Z) :
  emin <= E ->
  E < fexp (Zpos (digits2_pos M) + E) ->
  exists mr f,
    rounds_to prec emax M E mr f
    /\ binary_round prec emax sx M E = rounded prec emax sx mr f.
Proof.
  intros HE Hf. set (d := Zpos (digits2_pos M)) in *.
  set (f := fexp (d + E)) in *.
  assert (F : f = d + E - prec) by (unfold f in *; rewrite fexp_eq in *; lia).
  assert (G : emin < f) by lia.
  set (k := f - E). assert (Hk : 0 < k) by (unfold k; lia).
  pose proof (digits2_pos_bounds M) as B. fold d in B.
  unfold binary_round. fold d. fold f.
  rewrite (shl_align_none M E f) by lia.
  unfold binary_round_aux, shr_fexp at 1. cbn [Zdigits2]. fold d. fold f.
  fold k.
  destruct (shifted_shr (Zpos M) E k) as (mrs & S & I); [ lia | exact Hk | ].
  rewrite S. replace (E + k) with f by (unfold k; lia).
  pose proof (round_nearest_even_sandwich (Zpos M) k mrs (Z.lt_le_incl _ _ Hk) I)
    as W. cbn zeta in W.
  set (mr := round_nearest_even (shr_m mrs) (loc_of_shr_record mrs)) in *.
  assert (Lo : 2 ^ (prec - 1) <= mr).
  { apply (W (2 ^ (prec - 1))). rewrite <- pow2_add by lia.
    replace (prec - 1 + k) with (d - 1) by (unfold k; lia). apply B. }
  assert (Hi : mr <= 2 ^ prec).
  { apply (W (2 ^ prec)). rewrite <- pow2_add by lia.
    replace (prec + k) with d by (unfold k; lia). lia. }
  pose proof (pow2_pos (prec - 1)) as P1.
  destruct mr as [ | pr | pr ] eqn:Emr; try lia.
  assert (V : forall T : Z,
             (Zpos M * 2 ^ (E - emin) <= T * 2 ^ (f - emin) -> Zpos pr <= T)
             /\ (T * 2 ^ (f - emin) <= Zpos M * 2 ^ (E - emin) -> T <= Zpos pr)).
  { intros T. replace (f - emin) with (k + (E - emin)) by (unfold k; lia).
    rewrite pow2_add by lia. rewrite Z.mul_assoc.
    split; intros H; apply (W T);
      apply (pow2_mul_le _ _ (E - emin)); try lia. }
  assert (A : 2 ^ (prec - 1) * 2 ^ (f - emin) <= Zpos M * 2 ^ (E - emin)).
  { replace (f - emin) with (k + (E - emin)) by (unfold k; lia).
    rewrite pow2_add by lia. rewrite Z.mul_assoc.
    apply Z.mul_le_mono_nonneg_r; [ pose proof (pow2_pos (E - emin)); lia | ].
    rewrite <- pow2_add by lia.
    replace (prec - 1 + k) with (d - 1) by (unfold k; lia). apply B. }
  exists pr, f. split.
  - split; [ lia | ]. split; [ exact Hi | ]. split; [ | split ].
    + intros _. split; [ exact Lo | exact A ].
    + intros L. rewrite (digits2_pos_unique pr prec); [ | lia | lia ].
      rewrite fexp_eq. lia.
    + exact V.
  - unfold rounded. destruct (Zpos pr <? 2 ^ prec) eqn:L.
    + apply Z.ltb_lt in L.
      assert (C : fexp (Zpos (digits2_pos pr) + f) = f).
      { rewrite (digits2_pos_unique pr prec); [ | lia | lia ].
        rewrite fexp_eq. lia. }
      rewrite (shr_fexp_canonical prec emax pr f loc_Exact C).
      reflexivity.
    + apply Z.ltb_ge in L. assert (Epr : Zpos pr = 2 ^ prec) by lia.
      assert (Dpr : Zpos (digits2_pos pr) = prec + 1).
      { apply digits2_pos_unique; [ | lia ].
        replace (prec + 1 - 1) with prec by lia.
        rewrite pow2_succ by lia. lia. }
      unfold shr_fexp. cbn [Zdigits2]. rewrite Dpr.
      replace (fexp (prec + 1 + f) - f) with 1 by (rewrite fexp_eq; lia).
      destruct (shifted_shr (Zpos pr) f 1) as (mrs2 & S2 & I2); try lia.
      rewrite S2. destruct I2 as (I0 & I1 & _).
      assert (Q : shr_m mrs2 = 2 ^ (prec - 1)).
      { replace prec with (prec - 1 + 1) in Epr by lia.
        rewrite pow2_succ in Epr by lia. change (2 ^ 1) with 2 in I1. lia. }
      rewrite Q. destruct (2 ^ (prec - 1)) as [ | q | q ] eqn:Eq; try lia.
      reflexivity.
Qed.

(** Every rounding of a mantissa at an exponent that is at least [emin]. *)
Lemma binary_round_rounds (sx : bool) (M : positive) (E : Z) :
  emin <= E ->
  exists mr f,
    rounds_to prec emax M E mr f
    /\ binary_round prec emax sx M E = rounded prec emax sx mr f.
Proof.
  intros HE.
  destruct (Z_le_gt_dec (fexp (Zpos (digits2_pos M) + E)) E) as [ H | H ].
  - apply binary_round_exact; assumption.
  - apply binary_round_inexact; [ assumption | lia ].
Qed.

End RoundToNearest.

Section RoundedOrder.

Variables prec emax : Z.
Hypothesis prec_pos : 0 < prec.

Local Notation "'emin'" := (SpecFloat.emin prec emax).
Local Notation "'fexp'" := (SpecFloat.fexp prec emax).

Lemma bounded_spec (m : positive) (e : Z) :
  bounded prec emax m e = true ->
  fexp (Zpos (digits2_pos m) + e) = e /\ e <= emax - prec.
Proof.
  unfold bounded, canonical_mantissa. intros H.
  apply andb_prop in H as [H1 H2].
  apply Z.eqb_eq in H1. apply Z.leb_le in H2. split; assumption.
Qed.

Lemma pos_compare_le (a b : positive) :
  Zpos a <= Zpos b -> Pos.compare_cont Eq a b = Lt \/ Pos.compare_cont Eq a b = Eq.
Proof.
  intros H. change (Pos.compare_cont Eq a b) with (Pos.compare a b).
  destruct (Pos.compare_spec a b); [ right | left | ]; try reflexivity.
  lia.
Qed.

Lemma pos_compare_ge (a b : positive) :
  Zpos b <= Zpos a ->
  CompOpp (Pos.compare_cont Eq a b) = Lt \/ CompOpp (Pos.compare_cont Eq a b) = Eq.
Proof.
  intros H. change (Pos.compare_cont Eq a b) with (Pos.compare a b).
  destruct (Pos.compare_spec a b); [ right | | left ]; try reflexivity.
  lia.
Qed.

Section Against.

(** A canonical value [m * 2^e] to compare with. *)
Variables (m : positive) (e : Z).
Hypothesis canonical : fexp (Zpos (digits2_pos m) + e) = e.
Hypothesis below_emax : e <= emax - prec.

Variables (M : positive) (E : Z) (mr : positive) (f : Z).
Hypothesis R : rounds_to prec emax M E mr f.

Lemma canonical_facts :
  emin <= e /\ Zpos m < 2 ^ prec /\ (emin < e -> 2 ^ (prec - 1) <= Zpos m).
Proof.
  pose proof (digits2_pos_bounds m) as B. rewrite fexp_eq in canonical.
  split; [ lia | ]. split.
  - assert (2 ^ Zpos (digits2_pos m) <= 2 ^ prec) by (apply pow2_le; lia).
    lia.
  - intros G. replace prec with (Zpos (digits2_pos m)) by lia. apply B.
Qed.

(** Rounding a positive value that is at most [m * 2^e] gives at most
    [m * 2^e]. *)
Lemma rounded_le :
  Zpos M * 2 ^ (E - emin) <= Zpos m * 2 ^ (e - emin) ->
  notAbove (SFcompare (rounded prec emax false mr f) (S754_finite false m e)).
Proof.
  intros H. destruct R as (R1 & R2 & R3 & R4 & R5).
  destruct canonical_facts as (C1 & C2 & C3).
  assert (Hfe : f <= e).
  { destruct (Z_le_gt_dec f e) as [ L | G ]; [ exact L | exfalso ].
    destruct R3 as [_ A]; [ lia | ].
    assert (2 ^ (e - emin + 1) <= 2 ^ (f - emin)) by (apply pow2_le; lia).
    rewrite pow2_succ in H0 by lia.
    pose proof (pow2_pos (e - emin)). pose proof (pow2_pos (prec - 1)).
    assert (2 ^ prec = 2 * 2 ^ (prec - 1)).
    { replace prec with (prec - 1 + 1) at 1 by lia. apply pow2_succ. lia. }
    nia. }
  assert (B : Zpos mr <= Zpos m * 2 ^ (e - f)).
  { apply (R5 (Zpos m * 2 ^ (e - f))).
    rewrite <- Z.mul_assoc, <- pow2_add by lia.
    replace (e - f + (f - emin)) with (e - emin) by lia. exact H. }
  unfold rounded, finite_or_infinity.
  destruct (Zpos mr <? 2 ^ prec) eqn:L.
  - replace (f <=? emax - prec) with true by (symmetry; apply Z.leb_le; lia).
    cbn [SFcompare]. destruct (Z.compare_spec f e) as [ Q | Q | Q ].
    + subst f. rewrite Z.sub_diag in B. change (2 ^ 0) with 1 in B.
      destruct (pos_compare_le mr m) as [ -> | -> ]; [ lia | left | right ];
        reflexivity.
    + left; reflexivity.
    + lia.
  - apply Z.ltb_ge in L.
    assert (f < e).
    { destruct (Z.eq_dec f e) as [ Q | Q ]; [ | lia ].
      subst f. rewrite Z.sub_diag in B. change (2 ^ 0) with 1 in B. lia. }
    replace (f + 1 <=? emax - prec) with true
      by (symmetry; apply Z.leb_le; lia).
    cbn [SFcompare]. destruct (Z.compare_spec (f + 1) e) as [ Q | Q | Q ].
    + assert (Zpos (Z.to_pos (2 ^ (prec - 1))) <= Zpos m).
      { pose proof (pow2_pos (prec - 1)). rewrite Z2Pos.id by lia.
        replace (e - f) with 1 in B by lia. change (2 ^ 1) with 2 in B.
        assert (2 ^ prec = 2 * 2 ^ (prec - 1)).
        { replace prec with (prec - 1 + 1) at 1 by lia. apply pow2_succ. lia. }
        lia. }
      destruct (pos_compare_le (Z.to_pos (2 ^ (prec - 1))) m) as [ -> | -> ];
        [ assumption | left | right ]; reflexivity.
    + left; reflexivity.
    + lia.
Qed.

(** Rounding a negative value whose magnitude is at least [m * 2^e] gives
    at most [- m * 2^e]. *)
Lemma rounded_ge :
  Zpos m * 2 ^ (e - emin) <= Zpos M * 2 ^ (E - emin) ->
  notAbove (SFcompare (rounded prec emax true mr f) (S754_finite true m e)).
Proof.
  intros H. destruct R as (R1 & R2 & R3 & R4 & R5).
  destruct canonical_facts as (C1 & C2 & C3).
  assert (P2 : 2 ^ prec = 2 * 2 ^ (prec - 1)).
  { replace prec with (prec - 1 + 1) at 1 by lia. apply pow2_succ. lia. }
  pose proof (pow2_pos (prec - 1)) as P1.
  assert (B : f <= e -> Zpos m * 2 ^ (e - f) <= Zpos mr).
  { intros Hfe. apply (R5 (Zpos m * 2 ^ (e - f))).
    rewrite <- Z.mul_assoc, <- pow2_add by lia.
    replace (e - f + (f - emin)) with (e - emin) by lia. exact H. }
  assert (B' : forall n, f + n <= e -> 1 <= n ->
               2 ^ (prec - 1) * 2 ^ n <= Zpos mr).
  { intros n Hn Hn0. specialize (B ltac:(lia)). specialize (C3 ltac:(lia)).
    assert (2 ^ n <= 2 ^ (e - f)) by (apply pow2_le; lia).
    pose proof (pow2_pos n ltac:(lia)). nia. }
  unfold rounded, finite_or_infinity.
  destruct (Zpos mr <? 2 ^ prec) eqn:L.
  - apply Z.ltb_lt in L. destruct (f <=? emax - prec); [ | left; reflexivity ].
    cbn [SFcompare]. destruct (Z.compare_spec f e) as [ Q | Q | Q ].
    + subst f. specialize (B ltac:(lia)).
      rewrite Z.sub_diag in B. change (2 ^ 0) with 1 in B.
      destruct (pos_compare_ge mr m) as [ -> | -> ]; [ lia | left | right ];
        reflexivity.
    + exfalso. specialize (B' 1 ltac:(lia) ltac:(lia)).
      change (2 ^ 1) with 2 in B'. lia.
    + left; reflexivity.
  - apply Z.ltb_ge in L. assert (Emr : Zpos mr = 2 ^ prec) by lia.
    destruct (f + 1 <=? emax - prec); [ | left; reflexivity ].
    cbn [SFcompare]. destruct (Z.compare_spec (f + 1) e) as [ Q | Q | Q ].
    + specialize (B ltac:(lia)). replace (e - f) with 1 in B by lia.
      change (2 ^ 1) with 2 in B.
      assert (Zpos m <= Zpos (Z.to_pos (2 ^ (prec - 1)))).
      { rewrite Z2Pos.id by lia. lia. }
      destruct (pos_compare_ge (Z.to_pos (2 ^ (prec - 1))) m) as [ -> | -> ];
        [ assumption | left | right ]; reflexivity.
    + exfalso. specialize (B' 2 ltac:(lia) ltac:(lia)).
      change (2 ^ 2) with 4 in B'. lia.
    + left; reflexivity.
Qed.

End Against.

End RoundedOrder.

Section Subtraction.

Variables prec emax : Z.
Hypothesis prec_pos : 0 < prec.

Local Notation "'emin'" := (SpecFloat.emin prec emax).
Local Notation "'fexp'" := (SpecFloat.fexp prec emax).

Lemma rounded_sign (sx : bool) (mr : positive) (f : Z) :
  (exists m e, rounded prec emax sx mr f = S754_finite sx m e)
  \/ rounded prec emax sx mr f = S754_infinity sx.
Proof.
  unfold rounded, finite_or_infinity.
  destruct (Zpos mr <? 2 ^ prec);
    [ destruct (f <=? emax - prec) | destruct (f + 1 <=? emax - prec) ];
    try (right; reflexivity); left; eexists; eexists; reflexivity.
Qed.

(** Subtracting a positive value from a value gives at most that value. *)
Lemma SFsub_positive_le (s : bool) (m : positive) (e : Z)
    (mc : positive) (ec : Z) :
  bounded prec emax m e = true ->
  bounded prec emax mc ec = true ->
  SFleb (SFsub prec emax (S754_finite s m e) (S754_finite false mc ec))
        (S754_finite s m e) = true.
Proof.
  intros Bt Bc.
  destruct (bounded_spec prec emax m e Bt) as [Ct Lt].
  destruct (bounded_spec prec emax mc ec Bc) as [Cc _].
  assert (Ht : emin <= e) by (rewrite fexp_eq in Ct; lia).
  assert (Hc : emin <= ec) by (rewrite fexp_eq in Cc; lia).
  cbn [SFsub]. set (ez := Z.min e ec).
  destruct (shl_align_spec m e ez ltac:(unfold ez; lia)) as [At _].
  destruct (shl_align_spec mc ec ez ltac:(unfold ez; lia)) as [Ac _].
  set (Mt := fst (shl_align m e ez)) in *.
  set (Mc := fst (shl_align mc ec ez)) in *.
  assert (Hez : emin <= ez) by (unfold ez; lia).
  assert (V : Zpos m * 2 ^ (e - emin) = Zpos Mt * 2 ^ (ez - emin)).
  { rewrite At. replace (e - emin) with (e - ez + (ez - emin)) by lia.
    rewrite pow2_add by (unfold ez; lia). lia. }
  pose proof (pow2_pos (ez - emin) ltac:(lia)) as P.
  assert (goal_of : forall c, notAbove c ->
            match c with Some (Lt | Eq) => true | _ => false end = true).
  { intros c [ -> | -> ]; reflexivity. }
  unfold SFleb. apply goal_of.
  destruct s; cbn [cond_Zopp].
  - (* a negative value: the magnitude grows *)
    replace (- Zpos Mt - Zpos Mc) with (Zneg (Mt + Mc)) by lia.
    cbn [binary_normalize].
    destruct (binary_round_rounds prec emax prec_pos true (Mt + Mc) ez Hez)
      as (mr & f & R & ->).
    apply (rounded_ge prec emax prec_pos m e Ct (Mt + Mc)%positive ez mr f R).
    rewrite V. nia.
  - destruct (Zpos Mt - Zpos Mc) as [ | M | M ] eqn:D; cbn [binary_normalize].
    + left. reflexivity.
    + destruct (binary_round_rounds prec emax prec_pos false M ez Hez)
        as (mr & f & R & ->).
      apply (rounded_le prec emax prec_pos m e Ct Lt M ez mr f R).
      rewrite V. nia.
    + destruct (binary_round_rounds prec emax prec_pos true M ez Hez)
        as (mr & f & _ & ->).
      destruct (rounded_sign true mr f) as [ (m' & e' & ->) | -> ];
        left; reflexivity.
Qed.

(** Adding a finite value to a value that is not NaN does not give NaN. *)
Lemma SFadd_finite_not_nan (x : spec_float) (sc : bool) (mc : positive)
    (ec : Z) :
  x <> S754_nan ->
  SpecFloat.valid_binary prec emax x = true ->
  bounded prec emax mc ec = true ->
  SFadd prec emax x (S754_finite sc mc ec) <> S754_nan.
Proof.
  intros N Vx Bc. destruct x as [ s | s | | s m e ]; cbn [SFadd];
    try discriminate; try (exfalso; apply N; reflexivity).
  cbn [SpecFloat.valid_binary] in Vx.
  destruct (bounded_spec prec emax m e Vx) as [Ct _].
  destruct (bounded_spec prec emax mc ec Bc) as [Cc _].
  assert (Hez : emin <= Z.min e ec) by (rewrite fexp_eq in Ct, Cc; lia).
  match goal with
  | |- binary_normalize _ _ ?D _ _ <> _ => destruct D as [ | M | M ]
  end; cbn [binary_normalize]; try discriminate.
  - destruct (binary_round_rounds prec emax prec_pos false M _ Hez)
      as (mr & f & _ & ->).
    destruct (rounded_sign false mr f) as [ (m' & e' & ->) | -> ];
      discriminate.
  - destruct (binary_round_rounds prec emax prec_pos true M _ Hez)
      as (mr & f & _ & ->).
    destruct (rounded_sign true mr f) as [ (m' & e' & ->) | -> ];
      discriminate.
Qed.

Lemma SFeqb_refl (x : spec_float) : x <> S754_nan -> SFeqb x x = true.
Proof.
  intros N. destruct x as [ s | s | | s m e ]; unfold SFeqb; cbn [SFcompare].
  - reflexivity.
  - destruct s; reflexivity.
  - exfalso. apply N. reflexivity.
  - rewrite Z.compare_refl.
    change (Pos.compare_cont Eq m m) with (Pos.compare m m).
    rewrite Pos.compare_refl. destruct s; reflexivity.
Qed.

End Subtraction.

End RoundingOrder.

Section NumberWindow.

Local Open Scope float_scope.

(** [t - c <= t] for every [t] that is not NaN and every finite [c > 0]. *)
Lemma sub_positive_le (t c : float) (mc : positive) (ec : Z) :
  PrimFloat.is_nan t = false ->
  Prim2SF c = S754_finite false mc ec ->
  (t - c <=? t) = true.
Proof.
  intros N C. rewrite FloatAxioms.leb_spec, FloatAxioms.sub_spec, C.
  pose proof (Prim2SF_valid t) as Vt. pose proof (Prim2SF_valid c) as Vc.
  rewrite C in Vc. cbn [valid_binary] in Vc.
  unfold PrimFloat.is_nan in N. apply negb_false_iff in N.
  rewrite FloatAxioms.eqb_spec in N.
  destruct (Prim2SF t) as [ s | s | | s m e ].
  - reflexivity.
  - destruct s; reflexivity.
  - discriminate.
  - cbn [valid_binary] in Vt.
    apply (SFsub_positive_le prec emax ltac:(reflexivity) s m e mc ec Vt Vc).
Qed.

(** The start of the window that ends at a time is at most that time. *)
Lemma sub_window_le (t : number) :
  PrimFloat.is_nan t = false ->
  (t - Constants.GRAPH_WINDOW_DURATION <=? t) = true.
Proof.
  intros N.
  apply (sub_positive_le t Constants.GRAPH_WINDOW_DURATION
           8444249301319680%positive (-49)%Z N).
  reflexivity.
Qed.

Lemma is_nan_shape (x : number) :
  PrimFloat.is_nan x = false <-> Prim2SF x <> S754_nan.
Proof.
  unfold PrimFloat.is_nan. rewrite negb_false_iff, FloatAxioms.eqb_spec.
  split.
  - intros H E. rewrite E in H. discriminate.
  - apply SFeqb_refl.
Qed.

(** [t + c] is a number for every number [t] and every finite [c] other
    than zero. *)
Lemma add_finite_not_nan (t c : number) (sc : bool) (mc : positive)
    (ec : Z) :
  PrimFloat.is_nan t = false ->
  Prim2SF c = S754_finite sc mc ec ->
  PrimFloat.is_nan (t + c) = false.
Proof.
  intros N C. apply is_nan_shape. apply is_nan_shape in N.
  rewrite FloatAxioms.add_spec, C.
  pose proof (Prim2SF_valid c) as Vc. rewrite C in Vc.
  apply (SFadd_finite_not_nan prec emax ltac:(reflexivity));
    [ exact N | apply Prim2SF_valid | exact Vc ].
Qed.

(** The time one timestep later is a number. *)
Lemma add_timestep_not_nan (t : number) :
  PrimFloat.is_nan t = false ->
  PrimFloat.is_nan (t + Constants.TIMESTEP) = false.
Proof.
  intros N.
  apply (add_finite_not_nan t Constants.TIMESTEP false
           4803839602528529%positive (-58)%Z N).
  vm_compute. reflexivity.
Qed.

End NumberWindow.

Set Implicit Arguments.

(** ** The rolling window *)

Section Buffer.

Import UseGraphData BufferSpec.
Local Open Scope float_scope.

Lemma pruneAndAdd_appendedWithin (time value : number)
    (data : list DataPoint.t) :
  (time - Constants.GRAPH_WINDOW_DURATION <=? time) = true ->
  appendedWithin time value data
    (pruneAndAdd time (time - Constants.GRAPH_WINDOW_DURATION) data value).
Proof.
  intros Ht. unfold appendedWithin, pruneAndAdd.
  fold (withinWindow time).
  set (new := {| DataPoint.time := time; DataPoint.value := value |}).
  assert (Hnew : withinWindow time new = true) by exact Ht.
  assert (Hall : Forall (fun p => withinWindow time p = true)
                   (filter (withinWindow time) data ++ [new])).
  { apply Forall_app. split.
    - apply Forall_forall. intros p Hp. apply filter_In in Hp. tauto.
    - constructor; [ exact Hnew | constructor ]. }
  split; [ reflexivity | ]. split; [ | split ].
  - unfold newest. rewrite rev_app_distr. reflexivity.
  - revert Hall. apply Forall_impl. intros p Hp. split; [ exact Hp | ].
    apply Number_le_not_gt. exact Hp.
  - intros p Hp. unfold oldest in Hp.
    rewrite Forall_forall in Hall. apply Hall.
    destruct (filter (withinWindow time) data ++ [new]) as [ | q l ];
      [ discriminate | ].
    injection Hp as ->. left. reflexivity.
Qed.

End Buffer.

(** ** Commits *)

Section Commit.

Import UseSimulation.

Lemma commit_state (s : Sim) : state (commit s) = state s.
Proof.
  unfold commit.
  destruct (_ && loopActive (stateRef s)), (_ && loopActive (state s));
    cbn; rewrite ?cancelCurrentFrame_state; reflexivity.
Qed.

Lemma commit_stateRef (s : Sim) : stateRef (commit s) = state s.
Proof.
  unfold commit.
  destruct (_ && loopActive (stateRef s)), (_ && loopActive (state s));
    cbn; rewrite ?cancelCurrentFrame_state; reflexivity.
Qed.

Lemma commit_timeSeriesData (s : Sim) :
  timeSeriesData (commit s) = timeSeriesData s.
Proof.
  unfold commit.
  destruct (_ && loopActive (stateRef s)), (_ && loopActive (state s));
    cbn; rewrite ?cancelCurrentFrame_timeSeriesData; reflexivity.
Qed.

End Commit.

(** * The properties of the specification *)

Import UseSimulation SimRun.
Local Open Scope string_scope.
Local Open Scope float_scope.

(** C1, as stated, fails on two counts.  With finite inputs [rk4Step] throws
    instead of returning a state when the acceleration function returns
    [Infinity]; and when it returns a state, the state is
    [x + ((k1x+2*k2x+2*k3x+k4x)/6)*dt], which rounds differently from the
    [x + dt/6*(k1x+2*k2x+2*k3x+k4x)] of the specification: for [a(x,v) = -x]
    from [(1, 0)] with [dt = 0.5] the two velocities differ. *)
Lemma rk4Step_not_the_spec_update :
  Integration.rk4Step (Integration.mkState 1 0) 0.5
    (returns2 (fun _ _ => infinity))
  = Throw "Acceleration function returned non-finite value"
  /\ Integration.rk4Step (Integration.mkState 1 0) 0.5
       (returns2 (fun x _ => - x))
     <> Ok (Rk4Spec.update (fun x _ => - x) 1 0 0.5).
Proof.
  split; [ vm_compute; reflexivity | ].
  intros H.
  apply (f_equal (fun r =>
           match r with
           | Ok st => Integration.velocity st <? -0.47916666666666663
           | Throw _ => false
           end)) in H.
  vm_compute in H. discriminate.
Qed.

(** C1 (amended): for finite [x], [v], [dt] and an acceleration function
    [a] whose four slopes [k1v] ... [k4v] (those of the specification) are
    finite, [rk4Step] returns, when the two results are finite, the
    position [x + ((k1x+2*k2x+2*k3x+k4x)/6)*dt] and the velocity
    [v + ((k1v+2*k2v+2*k3v+k4v)/6)*dt]; otherwise it throws. *)
Theorem rk4Step_classical_update :
  forall (a : number -> number -> number) (x v dt : number),
    Number_isFinite x = true ->
    Number_isFinite v = true ->
    Number_isFinite dt = true ->
    Rk4Spec.slopesFinite a x v dt = true ->
    let newPosition :=
      x + (Rk4Spec.k1x v + 2 * Rk4Spec.k2x a x v dt
           + 2 * Rk4Spec.k3x a x v dt + Rk4Spec.k4x a x v dt) / 6 * dt in
    let newVelocity :=
      v + (Rk4Spec.k1v a x v + 2 * Rk4Spec.k2v a x v dt
           + 2 * Rk4Spec.k3v a x v dt + Rk4Spec.k4v a x v dt) / 6 * dt in
    Integration.rk4Step (Integration.mkState x v) dt (returns2 a)
    = if Number_isFinite newPosition && Number_isFinite newVelocity
      then Ok {| Integration.position := newPosition;
                 Integration.velocity := newVelocity |}
      else Throw "RK4 integration produced non-finite values".
Proof.
  intros a x v dt Hx Hv Hdt Hs newPosition newVelocity.
  rewrite (@rk4Step_slopes_finite a x v dt Hx Hv Hdt Hs).
  fold newPosition newVelocity.
  change (Rk4Spec.steppedPosition a x v dt) with newPosition.
  change (Rk4Spec.steppedVelocity a x v dt) with newVelocity.
  destruct (Number_isFinite newPosition), (Number_isFinite newVelocity);
    reflexivity.
Qed.

(** The update for [a(x,v) = -x] from [(1, 0)] with [dt = 0.5], which
    returns; and the one for [a(x,v) = 0] from [(0, Number.MAX_VALUE)] with
    [dt = 1], whose slopes are finite and whose position is not, which
    throws. *)
Lemma rk4Step_classical_update_witness :
  Integration.rk4Step (Integration.mkState 1 0) 0.5 (returns2 (fun x _ => - x))
  = Ok {| Integration.position :=
            1 + (Rk4Spec.k1x 0 + 2 * Rk4Spec.k2x (fun x _ => - x) 1 0 0.5
                 + 2 * Rk4Spec.k3x (fun x _ => - x) 1 0 0.5
                 + Rk4Spec.k4x (fun x _ => - x) 1 0 0.5) / 6 * 0.5;
          Integration.velocity :=
            0 + (Rk4Spec.k1v (fun x _ => - x) 1 0
                 + 2 * Rk4Spec.k2v (fun x _ => - x) 1 0 0.5
                 + 2 * Rk4Spec.k3v (fun x _ => - x) 1 0 0.5
                 + Rk4Spec.k4v (fun x _ => - x) 1 0 0.5) / 6 * 0.5 |}
  /\ Integration.rk4Step (Integration.mkState 0 0x1.fffffffffffffp+1023) 1
       (returns2 (fun _ _ => 0))
     = Throw "RK4 integration produced non-finite values".
Proof.
  split.
  - rewrite (rk4Step_classical_update (fun x _ => - x) 1 0 0.5);
      vm_compute; reflexivity.
  - rewrite (rk4Step_classical_update (fun _ _ => 0) 0
               0x1.fffffffffffffp+1023 1);
      vm_compute; reflexivity.
Defined.

(** C2: with finite inputs, as soon as one of the four slope evaluations of
    [rk4Step] returns a value that is not finite (the ones before it having
    returned finite values), [rk4Step] throws with the message of that
    evaluation and returns no state; and when such a step, or any step on
    which [rk4Step] throws, is the one the pending callback of the loop
    takes, the frame leaves the run Paused, with the position, velocity,
    acceleration and elapsed time it had, appends no sample and schedules
    no further callback.  The acceleration function is any callback, the
    one of the hook included. *)
Theorem divergence_pauses_run :
  forall (accelerationFunc computeAcceleration energyOf
            : number -> number -> result number)
         (x v dt : number) (s : Sim),
    Number_isFinite x = true ->
    Number_isFinite v = true ->
    Number_isFinite dt = true ->
    let thrown := Integration.rk4Step (Integration.mkState x v) dt accelerationFunc in
    let engine :=
      UsePhysicsEngine.mkPhysicsEngine
        (UsePhysicsEngine.computeNextStateFrom accelerationFunc)
        computeAcceleration energyOf in
    let loopPauses :=
      wellFormed s = true ->
      rafPending s <> [] ->
      SimulationState.position (stateRef s) = x ->
      SimulationState.velocity (stateRef s) = v ->
      dt = Constants.TIMESTEP ->
      runMode (state (frame engine s)) = Paused
      /\ sameMotion (state (frame engine s)) (state s)
      /\ timeSeriesData (frame engine s) = timeSeriesData s
      /\ rafPending (frame engine s) = [] in
    (forall k1,
       accelerationFunc x v = Ok k1 ->
       Number_isFinite k1 = false ->
       thrown = Throw "Acceleration function returned non-finite value"
       /\ loopPauses)
    /\ (forall k1 k2,
         accelerationFunc x v = Ok k1 ->
         Number_isFinite k1 = true ->
         accelerationFunc (x + v * dt / 2) (v + k1 * dt / 2) = Ok k2 ->
         Number_isFinite k2 = false ->
         thrown = Throw "Acceleration function returned non-finite value at k2"
         /\ loopPauses)
    /\ (forall k1 k2 k3,
         accelerationFunc x v = Ok k1 ->
         Number_isFinite k1 = true ->
         accelerationFunc (x + v * dt / 2) (v + k1 * dt / 2) = Ok k2 ->
         Number_isFinite k2 = true ->
         accelerationFunc (x + (v + k1 * dt / 2) * dt / 2) (v + k2 * dt / 2)
         = Ok k3 ->
         Number_isFinite k3 = false ->
         thrown = Throw "Acceleration function returned non-finite value at k3"
         /\ loopPauses)
    /\ (forall k1 k2 k3 k4,
         accelerationFunc x v = Ok k1 ->
         Number_isFinite k1 = true ->
         accelerationFunc (x + v * dt / 2) (v + k1 * dt / 2) = Ok k2 ->
         Number_isFinite k2 = true ->
         accelerationFunc (x + (v + k1 * dt / 2) * dt / 2) (v + k2 * dt / 2)
         = Ok k3 ->
         Number_isFinite k3 = true ->
         accelerationFunc (x + (v + k2 * dt / 2) * dt) (v + k3 * dt) = Ok k4 ->
         Number_isFinite k4 = false ->
         thrown = Throw "Acceleration function returned non-finite value at k4"
         /\ loopPauses)
    /\ (is_ok thrown = false -> loopPauses).
Proof.
  intros f acc energyOf x v dt s Hx Hv Hdt thrown engine loopPauses.
  assert (L : is_ok thrown = false -> loopPauses).
  { intros T W P Ex Ev Et.
    destruct (wellFormed_cases s W) as [ E | (h & E & R & A & I) ];
      [ contradiction | ].
    rewrite (frame_one_pending engine s E).
    assert (F : animate engine (taken s) = setState (withPaused true) (taken s)).
    { apply animate_throw; [ exact A | ].
      cbn [stateRef taken]. rewrite Ex, Ev, <- Et.
      apply computeNextStateFrom_rk4Step_throws. exact T. }
    rewrite F. cbn [state setState taken timeSeriesData rafPending].
    unfold runMode, sameMotion, withPaused; cbn. rewrite I.
    repeat split. }
  assert (M : forall msg, thrown = Throw msg -> thrown = Throw msg /\ loopPauses).
  { intros msg T. split; [ exact T | ]. apply L. rewrite T. reflexivity. }
  split; [ | split; [ | split; [ | split; [ | exact L ] ] ] ];
    intros; apply M;
    unfold thrown, Integration.rk4Step, bind;
    cbn [Integration.position Integration.velocity];
    rewrite Hx, Hv, Hdt; cbn [negb orb];
    repeat match goal with
           | H : f _ _ = Ok _ |- _ => rewrite H; clear H
           | H : Number_isFinite _ = _ |- _ => rewrite H; clear H; cbn [negb]
           end; reflexivity.
Qed.

(** The hook's own engine for a stiff spring the validation accepts (mass
    0.01, spring constant 1000, damping 0.01), running at position 1e304:
    the force is finite, the first slope [force / mass] is [-Infinity],
    [rk4Step] throws and the frame pauses the run where it was. *)
Lemma divergence_pauses_run_witness :
  let parameters :=
    {| SpringParameters.mass := 0.01;
       SpringParameters.springConstant := 1000;
       SpringParameters.initialLength := 1;
       SpringParameters.dampingCoefficient := 0.01 |} in
  let engine := UsePhysicsEngine.usePhysicsEngine parameters in
  UsePhysicsEngine.computeAccelerationFromState parameters 1e304 0
  = Ok neg_infinity
  /\ Integration.rk4Step (Integration.mkState 1e304 0) Constants.TIMESTEP
       (UsePhysicsEngine.computeAccelerationFromState parameters)
     = Throw "Acceleration function returned non-finite value"
  /\ runMode (state (frame engine (seeded 1e304))) = Paused
  /\ sameMotion (state (frame engine (seeded 1e304))) (state (seeded 1e304))
  /\ timeSeriesData (frame engine (seeded 1e304))
     = timeSeriesData (seeded 1e304)
  /\ rafPending (frame engine (seeded 1e304)) = [].
Proof.
  intros parameters engine.
  destruct (@divergence_pauses_run
              (UsePhysicsEngine.computeAccelerationFromState parameters)
              (UsePhysicsEngine.computeAccelerationFromState parameters)
              (UsePhysicsEngine.computeEnergy parameters)
              1e304 0 Constants.TIMESTEP (seeded 1e304))
    as (K1 & _); try (vm_compute; reflexivity).
  destruct (K1 neg_infinity) as [T L]; try (vm_compute; reflexivity).
  split; [ vm_compute; reflexivity | ].
  split; [ exact T | ].
  apply L; try (vm_compute; reflexivity).
  vm_compute. discriminate.
Defined.

(** X16: [reset()] cancels the pending handle synchronously, and
    the commit that follows [pause()] cancels it; from then on, whatever the
    host and the user do other than [start()] and [resume()] (frames,
    commits, further calls of [pause], [reset] and [setDisplacement]),
    no callback is pending, so a frame takes no physics step. *)
Theorem no_step_after_reset_or_committed_pause :
  forall (engine : UsePhysicsEngine.PhysicsEngine) (s : Sim) (es : list Event),
    wellFormed s = true ->
    forallb (fun e => negb (restarts e)) es = true ->
    (rafIdRef (reset s) = None /\ rafPending (reset s) = [])
    /\ (rafPending (run engine es (reset s)) = []
        /\ frame engine (run engine es (reset s)) = run engine es (reset s))
    /\ (rafPending (run engine es (commit (pause s))) = []
        /\ frame engine (run engine es (commit (pause s)))
           = run engine es (commit (pause s))).
Proof.
  intros engine s es W Hes.
  pose proof (@quiescent_run engine es _ Hes (quiescent_reset s W)) as Q1.
  pose proof (@quiescent_run engine es _ Hes (quiescent_commit_pause s W)) as Q2.
  split; [ split; [ | apply reset_pending, W ] | split ].
  - unfold reset, cancelCurrentFrame. destruct s as [st sr d r l p n]; cbn.
    destruct r; reflexivity.
  - split; [ apply Q1 | apply quiescent_frame, Q1 ].
  - split; [ apply Q2 | apply quiescent_frame, Q2 ].
Qed.

(** The seeded run: after [reset()], and after [pause()] and its commit,
    frames, commits and a further injection take no physics step. *)
Lemma no_step_after_reset_or_committed_pause_witness :
  let engine := UsePhysicsEngine.usePhysicsEngine defaultParameters in
  let es := [EvFrame; EvSetDisplacement 1; EvCommit; EvFrame; EvPause; EvFrame] in
  (rafIdRef (reset (seeded 0.5)) = None /\ rafPending (reset (seeded 0.5)) = [])
  /\ (rafPending (run engine es (reset (seeded 0.5))) = []
      /\ frame engine (run engine es (reset (seeded 0.5)))
         = run engine es (reset (seeded 0.5)))
  /\ (rafPending (run engine es (commit (pause (seeded 0.5)))) = []
      /\ frame engine (run engine es (commit (pause (seeded 0.5))))
         = run engine es (commit (pause (seeded 0.5)))).
Proof.
  intros engine es.
  apply (no_step_after_reset_or_committed_pause engine (seeded 0.5) es);
    vm_compute; reflexivity.
Defined.

(** C4, as stated, fails when the total force overflows: with the valid
    parameters [mass = 1], [springConstant = 1000], [dampingCoefficient = 0]
    and the finite position [2^1023], [computeSpringForce] returns
    [-Infinity] and [computeAcceleration] throws on it. *)
Lemma acceleration_throws_on_overflow :
  let parameters :=
    {| SpringParameters.mass := 1;
       SpringParameters.springConstant := 1000;
       SpringParameters.initialLength := 1;
       SpringParameters.dampingCoefficient := 0 |} in
  let x := 0x1p+1023 in
  let v := 0 in
  validParameters parameters = true
  /\ Validation.isValid parameters = true
  /\ (0 <=? SpringParameters.dampingCoefficient parameters) = true
  /\ Number_isFinite x = true
  /\ Number_isFinite v = true
  /\ UsePhysicsEngine.computeAccelerationFromState parameters x v
     = Throw "Invalid input: force and mass must be finite numbers"
  /\ UsePhysicsEngine.computeAccelerationFromState parameters x v
     <> Ok (((- 1000) * x + (- 0) * v) / 1).
Proof.
  vm_compute. repeat split. discriminate.
Qed.

(** C4 (amended): for finite [x] and [v] and parameters with finite
    positive [mass], finite [springConstant] and finite non-negative
    [dampingCoefficient], the composite acceleration is
    [computeAcceleration(computeSpringForce(x,k) + computeDampingForce(v,c),
    mass)] with [computeSpringForce(x,k) = -k*x] and
    [computeDampingForce(v,c) = -c*v], and it returns [(-k*x + -c*v) / mass]
    provided the total force [-k*x + -c*v] is finite. *)
Theorem acceleration_composite :
  forall (parameters : SpringParameters.t) (x v : number),
    let k := SpringParameters.springConstant parameters in
    let c := SpringParameters.dampingCoefficient parameters in
    let mass := SpringParameters.mass parameters in
    Number_isFinite x = true ->
    Number_isFinite v = true ->
    Number_isFinite mass = true ->
    (0 <? mass) = true ->
    Number_isFinite k = true ->
    Number_isFinite c = true ->
    (0 <=? c) = true ->
    UsePhysicsEngine.computeAccelerationFromState parameters x v
    = (springForce <- Physics.computeSpringForce x k ;;
       dampingForce <- Physics.computeDampingForce v c ;;
       Physics.computeAcceleration (springForce + dampingForce) mass)
    /\ Physics.computeSpringForce x k = Ok ((- k) * x)
    /\ Physics.computeDampingForce v c = Ok ((- c) * v)
    /\ (Number_isFinite ((- k) * x + (- c) * v) = true ->
        UsePhysicsEngine.computeAccelerationFromState parameters x v
        = Ok (((- k) * x + (- c) * v) / mass)).
Proof.
  intros parameters x v k c mass Hx Hv M1 M2 K1 C1 C2. subst k c mass.
  split; [ reflexivity | ].
  split; [ | split ].
  - unfold Physics.computeSpringForce. rewrite Hx, K1. reflexivity.
  - unfold Physics.computeDampingForce.
    rewrite Hv, C1, (@Number_le_not_gt _ _ C2). reflexivity.
  - intros Hf. apply computeAccelerationFromState_finite_force; assumption.
Qed.

(** The composite acceleration of [App.tsx]'s parameters at
    [(0.5, -0.25)]. *)
Lemma acceleration_composite_witness :
  UsePhysicsEngine.computeAccelerationFromState defaultParameters 0.5 (- 0.25)
  = Ok (((- 100) * 0.5 + (- 0.5) * (- 0.25)) / 10).
Proof.
  apply (acceleration_composite defaultParameters 0.5 (- 0.25));
    vm_compute; reflexivity.
Defined.

(** C5: from a running, committed simulation with valid parameters,
    [N] turns of the loop, [pause()], [resume()], then [M] more turns leave
    the same position, velocity, acceleration and elapsed time as [N + M]
    turns without pausing (a turn is one animation frame followed by React's
    commit; no frame runs between [pause()] and [resume()]). *)
Theorem pause_resume_identity :
  forall (parameters : SpringParameters.t) (s : Sim) (N M : nat),
    validParameters parameters = true ->
    runningCommitted s ->
    let engine := UsePhysicsEngine.usePhysicsEngine parameters in
    sameMotion
      (state (ticks engine M (pauseThenResume (ticks engine N s))))
      (state (ticks engine (N + M) s)).
Proof.
  intros parameters s N M Hp Hs engine.
  apply pause_resume_running; [ | exact Hs ].
  apply usePhysicsEngine_energy_after_step. exact Hp.
Qed.

(** The seeded run of [App.tsx]'s parameters, paused after 8 turns and run
    9 more, against 17 turns. *)
Lemma pause_resume_identity_witness :
  let engine := UsePhysicsEngine.usePhysicsEngine defaultParameters in
  sameMotion
    (state (ticks engine 9 (pauseThenResume (ticks engine 8 (seeded 0.5)))))
    (state (ticks engine (8 + 9) (seeded 0.5))).
Proof.
  apply (@pause_resume_identity defaultParameters (seeded 0.5) 8 9).
  - vm_compute; reflexivity.
  - split; [ vm_compute; reflexivity | ].
    split; [ vm_compute; reflexivity | ].
    exists 1%nat. split; vm_compute; reflexivity.
Defined.

(** C6: whatever the hook holds, [reset()] sets the state to position 0,
    velocity 0, acceleration 0, time 0, not running and not paused (the
    Stopped mode) and empties the four series; the commit that follows
    renders that state. *)
Theorem reset_yields_initial_state :
  forall s : Sim,
    state (reset s)
    = {| SimulationState.position := 0;
         SimulationState.velocity := 0;
         SimulationState.acceleration := 0;
         SimulationState.time := 0;
         SimulationState.isRunning := false;
         SimulationState.isPaused := false |}
    /\ runMode (state (reset s)) = Stopped
    /\ TimeSeriesData.displacement (timeSeriesData (reset s)) = []
    /\ TimeSeriesData.velocity (timeSeriesData (reset s)) = []
    /\ TimeSeriesData.acceleration (timeSeriesData (reset s)) = []
    /\ TimeSeriesData.totalEnergy (timeSeriesData (reset s)) = []
    /\ stateRef (commit (reset s)) = state (reset s)
    /\ state (commit (reset s)) = state (reset s)
    /\ timeSeriesData (commit (reset s)) = timeSeriesData (reset s).
Proof.
  intros s.
  assert (E : state (reset s) = initialState).
  { unfold reset. rewrite cancelCurrentFrame_state. reflexivity. }
  assert (D : timeSeriesData (reset s) = UseGraphData.emptyData).
  { unfold reset. rewrite cancelCurrentFrame_timeSeriesData. reflexivity. }
  rewrite commit_state, commit_stateRef, commit_timeSeriesData, E, D.
  repeat split.
Qed.

(** C7: for every append of a sample at a time [t] (a number, so not NaN),
    each of the four channels becomes its earlier samples of time
    [>= t - 15], in their order, followed by the new sample [(t, value)];
    so it ends with the new sample, holds no sample of time [< t - 15],
    and its oldest sample has time [>= t - 15], whatever time the earlier
    samples span. *)
Theorem append_within_window :
  forall (time displacement velocity acceleration totalEnergy : number)
         (prev : TimeSeriesData.t),
    PrimFloat.is_nan time = false ->
    let next :=
      UseGraphData.addDataPoint time displacement velocity acceleration
        totalEnergy prev in
    BufferSpec.appendedWithin time displacement
      (TimeSeriesData.displacement prev) (TimeSeriesData.displacement next)
    /\ BufferSpec.appendedWithin time velocity
         (TimeSeriesData.velocity prev) (TimeSeriesData.velocity next)
    /\ BufferSpec.appendedWithin time acceleration
         (TimeSeriesData.acceleration prev) (TimeSeriesData.acceleration next)
    /\ BufferSpec.appendedWithin time totalEnergy
         (TimeSeriesData.totalEnergy prev) (TimeSeriesData.totalEnergy next).
Proof.
  intros time displacement velocity acceleration totalEnergy prev Ht next.
  pose proof (sub_window_le time Ht) as Hw.
  unfold next, UseGraphData.addDataPoint; cbn [TimeSeriesData.displacement
    TimeSeriesData.velocity TimeSeriesData.acceleration
    TimeSeriesData.totalEnergy].
  repeat split; apply pruneAndAdd_appendedWithin; exact Hw.
Qed.

(** Appending at time 20 evicts the sample of time 1 and keeps the one of
    time 5.5. *)
Lemma append_within_window_witness :
  let old := {| DataPoint.time := 1; DataPoint.value := 7 |} in
  let kept := {| DataPoint.time := 5.5; DataPoint.value := 8 |} in
  let prev :=
    {| TimeSeriesData.displacement := [old; kept];
       TimeSeriesData.velocity := [old; kept];
       TimeSeriesData.acceleration := [old; kept];
       TimeSeriesData.totalEnergy := [old; kept] |} in
  let next := UseGraphData.addDataPoint 20 1 2 3 4 prev in
  BufferSpec.appendedWithin 20 1
    (TimeSeriesData.displacement prev) (TimeSeriesData.displacement next)
  /\ TimeSeriesData.displacement next
     = [kept; {| DataPoint.time := 20; DataPoint.value := 1 |}].
Proof.
  intros old kept prev next. split; [ | reflexivity ].
  apply (@append_within_window 20 1 2 3 4 prev). reflexivity.
Defined.

(** NaN is the one value left out: appended at the time NaN, a sample
    evicts every earlier one and is itself not [>=] its time minus 15.
    No run of the hook appends at such a time: the elapsed time starts at 0
    and grows by one timestep per step. *)
Lemma append_nan_outside_window :
  let next := UseGraphData.addDataPoint nan 1 2 3 4 UseGraphData.emptyData in
  BufferSpec.oldest (TimeSeriesData.displacement next)
  = Some {| DataPoint.time := nan; DataPoint.value := 1 |}
  /\ Number_ge nan (nan - 15) = false
  /\ ~ BufferSpec.appendedWithin nan 1 []
         (TimeSeriesData.displacement next).
Proof.
  split; [ reflexivity | ]. split; [ reflexivity | ].
  intros (_ & _ & _ & H).
  specialize (H _ eq_refl). vm_compute in H. discriminate.
Qed.

(** ** Injecting a displacement *)

Section Displacement.

Variable engine : UsePhysicsEngine.PhysicsEngine.

(** The frame that follows the commit of an injected displacement runs
    [animate] on the injected state. *)
Lemma frame_after_displacement (x : number) (s : Sim) :
  runningCommitted s ->
  let visible := commit (setInitialDisplacement x s) in
  state visible = stateRef visible
  /\ SimulationState.position (state visible) = x
  /\ SimulationState.velocity (state visible) = 0
  /\ SimulationState.time (state visible) = SimulationState.time (state s)
  /\ loopActive (state visible) = true
  /\ frame engine visible = animate engine (taken visible).
Proof.
  intros (E & A & h & P & R).
  destruct s as [st sr d r l p n]. cbn in E, A, P, R. subst sr p r.
  destruct st as [x0 v0 a0 t0 run pz].
  destruct (loopActive_flags _ A) as [F1 F2]. cbn in F1, F2. subst run pz.
  set (injected :=
         {| SimulationState.position := x;
            SimulationState.velocity := 0;
            SimulationState.acceleration := 0;
            SimulationState.time := t0;
            SimulationState.isRunning := true;
            SimulationState.isPaused := false |}).
  assert (C : commit (setInitialDisplacement x
                        (mkSim (SimulationState.mk x0 v0 a0 t0 true false)
                           (SimulationState.mk x0 v0 a0 t0 true false)
                           d (Some h) l [h] n))
              = mkSim injected injected d (Some h) l [h] n)
    by reflexivity.
  cbn zeta. rewrite C. repeat split.
  apply (@frame_one_pending engine _ h). reflexivity.
Qed.

Lemma animate_from (x v : number) (s : Sim) :
  loopActive (stateRef s) = true ->
  SimulationState.position (stateRef s) = x ->
  SimulationState.velocity (stateRef s) = v ->
  (forall nextState,
     UsePhysicsEngine.computeNextState engine (Integration.mkState x v)
       Constants.TIMESTEP = Ok nextState ->
     SimulationState.position (state (animate engine s))
     = UsePhysicsEngine.position nextState
     /\ SimulationState.velocity (state (animate engine s))
        = UsePhysicsEngine.velocity nextState
     /\ SimulationState.acceleration (state (animate engine s))
        = UsePhysicsEngine.acceleration nextState
     /\ SimulationState.time (state (animate engine s))
        = SimulationState.time (stateRef s) + Constants.TIMESTEP)
  /\ (is_ok (UsePhysicsEngine.computeNextState engine (Integration.mkState x v)
               Constants.TIMESTEP) = false ->
      animate engine s = setState (withPaused true) s).
Proof.
  intros A Ex Ev. split.
  - intros nextState C. unfold animate. rewrite animate_guard, A. cbn [negb].
    rewrite Ex, Ev, C.
    unfold animateTry.
    match goal with
    | |- context [ if ?c then _ else _ ] => destruct c
    end;
      [ destruct (UsePhysicsEngine.computeTotalEnergy engine _ _) | ];
      cbn; repeat split.
  - intros T. apply animate_throw; [ exact A | ]. rewrite Ex, Ev. exact T.
Qed.

End Displacement.

(** C8 fails on the code in its last part: the loop reads the state through
    [stateRef.current], which holds the injected displacement only once
    React has committed it, and [animate] then replaces the whole state.
    From the seeded run of [App.tsx]'s parameters at position 0.5, a frame
    that runs right after [setDisplacement(2)] takes the step from 0.5 and
    overwrites the injected position, where the step from the new point
    [(2, 0)] ends above 1.9.  The displacement is discarded for good: after
    the turn the hook is what it would be had [setDisplacement(2)] never
    been called. *)
Lemma displacement_before_commit_is_overwritten :
  let engine := UsePhysicsEngine.usePhysicsEngine defaultParameters in
  let injected := setInitialDisplacement 2 (seeded 0.5) in
  SimulationState.position (state injected) = 2
  /\ loopActive (stateRef injected) = true
  /\ rafPending injected = [1%nat]
  /\ state (frame engine injected) = state (frame engine (seeded 0.5))
  /\ (SimulationState.position (state (frame engine injected)) <? 0.5) = true
  /\ (exists nextState,
        UsePhysicsEngine.computeNextState engine (Integration.mkState 2 0)
          Constants.TIMESTEP = Ok nextState
        /\ (1.9 <? UsePhysicsEngine.position nextState) = true)
  /\ frame engine injected = frame engine (seeded 0.5)
  /\ tick engine injected = tick engine (seeded 0.5)
  /\ ticks engine 11 injected = ticks engine 11 (seeded 0.5).
Proof.
  vm_compute. repeat split. eexists. split; reflexivity.
Qed.

(** The first frame after the commit of an injected displacement takes its
    step from the injected point: it moves to the next state when the step
    succeeds, and pauses at the injected position when it fails. *)
Lemma setInitialDisplacement_after_commit
    (engine : UsePhysicsEngine.PhysicsEngine) (x : number) (s : Sim) :
  runningCommitted s ->
  let after := frame engine (commit (setInitialDisplacement x s)) in
  (forall nextState,
     UsePhysicsEngine.computeNextState engine (Integration.mkState x 0)
       Constants.TIMESTEP = Ok nextState ->
     SimulationState.position (state after)
     = UsePhysicsEngine.position nextState
     /\ SimulationState.velocity (state after)
        = UsePhysicsEngine.velocity nextState
     /\ SimulationState.acceleration (state after)
        = UsePhysicsEngine.acceleration nextState
     /\ SimulationState.time (state after)
        = SimulationState.time (state s) + Constants.TIMESTEP)
  /\ (is_ok (UsePhysicsEngine.computeNextState engine
               (Integration.mkState x 0) Constants.TIMESTEP) = false ->
      SimulationState.position (state after) = x
      /\ runMode (state after) = Paused).
Proof.
  intros H after.
  destruct (frame_after_displacement engine x H) as (E & Px & Vx & Tx & A & F).
  unfold after. rewrite F.
  set (visible := commit (setInitialDisplacement x s)) in *.
  assert (A' : loopActive (stateRef (taken visible)) = true).
  { cbn [stateRef taken]. rewrite <- E. exact A. }
  assert (Px' : SimulationState.position (stateRef (taken visible)) = x).
  { cbn [stateRef taken]. rewrite <- E. exact Px. }
  assert (Vx' : SimulationState.velocity (stateRef (taken visible)) = 0).
  { cbn [stateRef taken]. rewrite <- E. exact Vx. }
  destruct (animate_from engine (taken visible) A' Px' Vx') as [Hok Hthrow].
  split.
  - intros nextState C. destruct (Hok nextState C) as (R1 & R2 & R3 & R4).
    repeat split; try assumption.
    rewrite R4. cbn [stateRef taken]. rewrite <- E, Tx. reflexivity.
  - intros T. rewrite (Hthrow T). cbn [state setState taken].
    unfold runMode, withPaused; cbn.
    rewrite (loopActive_isRunning _ A). split; [ exact Px | reflexivity ].
Qed.

(** X17: in every run mode and for every [x],
    [setDisplacement(x)] sets the position to [x] and the velocity and
    acceleration to 0, and leaves the elapsed time, the two run flags, the
    sample series and the loop's bookkeeping as they are; and from a
    running simulation whose state React has committed, the first frame
    after the commit of this update takes its physics step from [(x, 0)]:
    it moves to the next state when the step succeeds and pauses at [x]
    when it fails. *)
Theorem setInitialDisplacement_frame :
  forall (engine : UsePhysicsEngine.PhysicsEngine) (x : number) (s : Sim),
    state (setInitialDisplacement x s)
    = {| SimulationState.position := x;
         SimulationState.velocity := 0;
         SimulationState.acceleration := 0;
         SimulationState.time := SimulationState.time (state s);
         SimulationState.isRunning := SimulationState.isRunning (state s);
         SimulationState.isPaused := SimulationState.isPaused (state s) |}
    /\ runMode (state (setInitialDisplacement x s)) = runMode (state s)
    /\ timeSeriesData (setInitialDisplacement x s) = timeSeriesData s
    /\ stateRef (setInitialDisplacement x s) = stateRef s
    /\ lastDataUpdateRef (setInitialDisplacement x s) = lastDataUpdateRef s
    /\ rafIdRef (setInitialDisplacement x s) = rafIdRef s
    /\ rafPending (setInitialDisplacement x s) = rafPending s
    /\ (runningCommitted s ->
        let after := frame engine (commit (setInitialDisplacement x s)) in
        (forall nextState,
           UsePhysicsEngine.computeNextState engine (Integration.mkState x 0)
             Constants.TIMESTEP = Ok nextState ->
           SimulationState.position (state after)
           = UsePhysicsEngine.position nextState
           /\ SimulationState.velocity (state after)
              = UsePhysicsEngine.velocity nextState
           /\ SimulationState.acceleration (state after)
              = UsePhysicsEngine.acceleration nextState
           /\ SimulationState.time (state after)
              = SimulationState.time (state s) + Constants.TIMESTEP)
        /\ (is_ok (UsePhysicsEngine.computeNextState engine
                     (Integration.mkState x 0) Constants.TIMESTEP) = false ->
            SimulationState.position (state after) = x
            /\ runMode (state after) = Paused)).
Proof.
  intros engine x s. do 7 (split; [ reflexivity | ]).
  intros H. exact (setInitialDisplacement_after_commit engine x H).
Qed.


(** The seeded run is a running, committed simulation. *)
Lemma seeded_runningCommitted (x : number) : runningCommitted (seeded x).
Proof.
  split; [ reflexivity | ]. split; [ reflexivity | ].
  exists 1%nat. split; reflexivity.
Qed.

(** The seeded run at 0.5, displaced to 2: after the commit the frame
    steps from [(2, 0)]. *)
Lemma setInitialDisplacement_frame_witness :
  let engine := UsePhysicsEngine.usePhysicsEngine defaultParameters in
  let after := frame engine (commit (setInitialDisplacement 2 (seeded 0.5))) in
  exists nextState,
    UsePhysicsEngine.computeNextState engine (Integration.mkState 2 0)
      Constants.TIMESTEP = Ok nextState
    /\ SimulationState.position (state after)
       = UsePhysicsEngine.position nextState
    /\ (1.9 <? SimulationState.position (state after)) = true.
Proof.
  intros engine after.
  destruct (setInitialDisplacement_frame engine 2 (seeded 0.5))
    as (_ & _ & _ & _ & _ & _ & _ & L).
  destruct (L (seeded_runningCommitted 0.5)) as [Hok _].
  eexists. split; [ vm_compute; reflexivity | ].
  split; [ | vm_compute; reflexivity ].
  apply Hok. vm_compute; reflexivity.
Defined.

(** C9 fails on the code for a stiff spring the validation accepts:
    [mass = 0.01], [springConstant = 1000], [dampingCoefficient = 0.01],
    initial displacement 0.5 (125 J).  The first two sampled energies, taken
    after 7 and 14 steps of 1/60 s, are above [1e20] and above [1e40]: the
    second is larger than the first. *)
Lemma energy_grows_for_stiff_spring :
  let parameters :=
    {| SpringParameters.mass := 0.01;
       SpringParameters.springConstant := 1000;
       SpringParameters.initialLength := 1;
       SpringParameters.dampingCoefficient := 0.01 |} in
  let engine := UsePhysicsEngine.usePhysicsEngine parameters in
  let energies := sampledEnergies (ticks engine 14 (seeded 0.5)) in
  Validation.isValid parameters = true
  /\ validParameters parameters = true
  /\ (0 <? SpringParameters.dampingCoefficient parameters) = true
  /\ UsePhysicsEngine.computeEnergy parameters 0.5 0 = Ok 125
  /\ runMode (state (ticks engine 14 (seeded 0.5))) = Running
  /\ BufferSpec.nonIncreasing energies = false
  /\ exists e1 e2,
       energies = [e1; e2]
       /\ (1e20 <? e1) = true /\ (1e40 <? e2) = true /\ (e1 <? e2) = true.
Proof.
  vm_compute. repeat split. do 2 eexists. repeat split.
Qed.

(** With the parameters [App.tsx] starts with, the energies sampled over the
    first 15 seconds of the same run do decrease. *)
Lemma energy_decays_for_default_parameters :
  let engine := UsePhysicsEngine.usePhysicsEngine defaultParameters in
  let energies := sampledEnergies (ticks engine 900 (seeded 0.5)) in
  List.length energies = 139%nat
  /\ BufferSpec.nonIncreasing energies = true.
Proof.
  vm_compute. split; reflexivity.
Qed.

(** C10: [setDisplacement(x)] validates nothing: for every [x] the state
    gets position [x], velocity 0 and acceleration 0.  When [x] is not
    finite and the simulation is running, the commit makes that position
    the visible state, the step of the next frame fails at the input check
    of [rk4Step], and the frame leaves the run Paused at position [x]. *)
Theorem setInitialDisplacement_unvalidated :
  forall (parameters : SpringParameters.t) (x : number) (s : Sim),
    let engine := UsePhysicsEngine.usePhysicsEngine parameters in
    let visible := commit (setInitialDisplacement x s) in
    (SimulationState.position (state (setInitialDisplacement x s)) = x
     /\ SimulationState.velocity (state (setInitialDisplacement x s)) = 0
     /\ SimulationState.acceleration (state (setInitialDisplacement x s)) = 0)
    /\ (SimulationState.position (state visible) = x
        /\ SimulationState.position (stateRef visible) = x)
    /\ (Number_isFinite x = false ->
        runningCommitted s ->
        Integration.rk4Step (Integration.mkState x 0) Constants.TIMESTEP
          (UsePhysicsEngine.computeAccelerationFromState parameters)
        = Throw "Invalid input: position, velocity, and dt must be finite numbers"
        /\ is_ok (UsePhysicsEngine.computeNextState engine
                    (Integration.mkState x 0) Constants.TIMESTEP) = false
        /\ SimulationState.position (state (frame engine visible)) = x
        /\ runMode (state (frame engine visible)) = Paused).
Proof.
  intros parameters x s engine visible.
  split; [ repeat split | ].
  split.
  - unfold visible. rewrite commit_state, commit_stateRef. split; reflexivity.
  - intros Hx H.
    assert (T : Integration.rk4Step (Integration.mkState x 0) Constants.TIMESTEP
                  (UsePhysicsEngine.computeAccelerationFromState parameters)
                = Throw "Invalid input: position, velocity, and dt must be finite numbers").
    { apply rk4Step_invalid_input. exact Hx. }
    assert (T' : is_ok (UsePhysicsEngine.computeNextState engine
                          (Integration.mkState x 0) Constants.TIMESTEP) = false).
    { apply computeNextStateFrom_rk4Step_throws. rewrite T. reflexivity. }
    split; [ exact T | ]. split; [ exact T' | ].
    destruct (setInitialDisplacement_after_commit engine x H) as [_ Hthrow].
    apply Hthrow. exact T'.
Qed.

(** The seeded run, displaced to NaN. *)
Lemma setInitialDisplacement_unvalidated_witness :
  let engine := UsePhysicsEngine.usePhysicsEngine defaultParameters in
  let visible := commit (setInitialDisplacement nan (seeded 0.5)) in
  Number_isFinite nan = false
  /\ Integration.rk4Step (Integration.mkState nan 0) Constants.TIMESTEP
       (UsePhysicsEngine.computeAccelerationFromState defaultParameters)
     = Throw "Invalid input: position, velocity, and dt must be finite numbers"
  /\ SimulationState.position (state (frame engine visible)) = nan
  /\ runMode (state (frame engine visible)) = Paused.
Proof.
  intros engine visible.
  split; [ reflexivity | ].
  destruct (setInitialDisplacement_unvalidated defaultParameters nan (seeded 0.5))
    as (_ & _ & L).
  destruct (L eq_refl (seeded_runningCommitted 0.5)) as (T & _ & P & R).
  repeat split; assumption.
Defined.

(** * Further properties of the code *)

Unset Implicit Arguments.

(** ** Shapes of binary64 values *)

Section Shapes.

Import Stdlib.ZArith.BinInt Stdlib.PArith.BinPos.
Import NumberShape.
Local Open Scope float_scope.

(** What [Prim2SF] makes of a value, by the tests it runs. *)
Lemma Prim2SF_shape (x : number) :
  (is_nan x = true /\ Prim2SF x = S754_nan)
  \/ (is_nan x = false /\ is_zero x = true
      /\ Prim2SF x = S754_zero (get_sign x))
  \/ (is_nan x = false /\ is_zero x = false /\ is_infinity x = true
      /\ Prim2SF x = S754_infinity (get_sign x))
  \/ (is_nan x = false /\ is_zero x = false /\ is_infinity x = false
      /\ exists m e, Prim2SF x = S754_finite (get_sign x) m e).
Proof.
  unfold Prim2SF.
  destruct (is_nan x) eqn:N; [ left; auto | right ].
  destruct (is_zero x) eqn:Z; [ left; auto | right ].
  destruct (is_infinity x) eqn:I; [ left; auto | right ].
  repeat split.
  assert (E : is_zero x = SFeqb (Prim2SF x) (Prim2SF zero))
    by apply FloatAxioms.eqb_spec.
  rewrite Z in E. unfold Prim2SF at 1 in E. rewrite N, Z, I in E.
  destruct (Z.frexp x) as [r ex].
  destruct (shr_fexp _ _ _ _ _) as [sh e'].
  destruct (shr_m sh) as [ | p | p ].
  - exfalso. vm_compute in E. discriminate.
  - exists p, e'. reflexivity.
  - exfalso. vm_compute in E. discriminate.
Qed.

Lemma isFinite_shape (x : number) :
  Number_isFinite x = SFisFinite (Prim2SF x).
Proof.
  unfold Number_isFinite, is_finite.
  destruct (Prim2SF_shape x)
    as [ (N & E) | [ (N & Z & E) | [ (N & Z & I & E) | (N & Z & I & m & e & E) ] ] ];
    rewrite E, N; cbn [SFisFinite orb negb]; try reflexivity.
  - (* a zero is not an infinity *)
    unfold is_infinity. rewrite FloatAxioms.eqb_spec, abs_spec, E.
    vm_compute. reflexivity.
  - rewrite I. reflexivity.
  - rewrite I. reflexivity.
Qed.

Lemma isZero_shape (x : number) :
  isZero x = SFisZero (Prim2SF x).
Proof.
  unfold isZero.
  destruct (Prim2SF_shape x)
    as [ (N & E) | [ (N & Z & E) | [ (N & Z & I & E) | (N & Z & I & m & e & E) ] ] ];
    rewrite E; cbn [SFisZero]; try exact Z.
  rewrite FloatAxioms.eqb_spec, E. reflexivity.
Qed.

End Shapes.

(** ** Rounding keeps the sign *)

Section RoundingSign.

Import Stdlib.ZArith.BinInt Stdlib.PArith.BinPos.
Import NumberShape.
Local Open Scope Z_scope.

Variables prec emax : Z.

Lemma shr_1_nonneg (mrs : shr_record) :
  0 <= shr_m mrs -> 0 <= shr_m (shr_1 mrs).
Proof.
  destruct mrs as [m r s]. cbn [shr_m].
  destruct m as [ | [ p | p | ] | p ]; cbn; intros H; try lia.
Qed.

Lemma iter_shr_1_nonneg (p : positive) (mrs : shr_record) :
  0 <= shr_m mrs -> 0 <= shr_m (@SpecFloat.iter_pos _ shr_1 p mrs).
Proof.
  revert mrs. induction p as [ p IH | p IH | ]; intros mrs H; cbn [SpecFloat.iter_pos].
  - apply IH, IH, shr_1_nonneg, H.
  - apply IH, IH, H.
  - apply shr_1_nonneg, H.
Qed.

Lemma shr_fexp_nonneg (m e : Z) (l : location) :
  0 <= m -> 0 <= shr_m (fst (shr_fexp prec emax m e l)).
Proof.
  intros H. unfold shr_fexp, shr.
  assert (H0 : 0 <= shr_m (shr_record_of_loc m l)).
  { destruct l as [ | [ | | ] ]; exact H. }
  destruct (_ - e) as [ | p | p ]; cbn [fst]; try exact H0.
  apply iter_shr_1_nonneg, H0.
Qed.

Lemma round_nearest_even_nonneg (m : Z) (l : location) :
  0 <= m -> 0 <= round_nearest_even m l.
Proof.
  intros H. unfold round_nearest_even.
  destruct l as [ | [ | | ] ]; try destruct (Z.even m); lia.
Qed.

(** Rounding a non-negative mantissa gives a zero, a finite value or an
    infinity of the sign it is given, never NaN. *)
Lemma binary_round_aux_sign (s : bool) (m e : Z) (l : location) :
  0 <= m -> SFsign (binary_round_aux prec emax s m e l) = Some s.
Proof.
  intros H. unfold binary_round_aux.
  pose proof (shr_fexp_nonneg m e l H) as H1.
  destruct (shr_fexp prec emax m e l) as [mrs' e']. cbn [fst] in H1.
  pose proof (round_nearest_even_nonneg _ (loc_of_shr_record mrs') H1) as H2.
  pose proof (shr_fexp_nonneg _ e' loc_Exact H2) as H3.
  destruct (shr_fexp prec emax _ e' loc_Exact) as [mrs'' e'']. cbn [fst] in H3.
  destruct (shr_m mrs'') as [ | q | q ]; [ reflexivity | | lia ].
  destruct (e'' <=? emax - prec); reflexivity.
Qed.

Lemma binary_round_sign (s : bool) (m : positive) (e : Z) :
  SFsign (binary_round prec emax s m e) = Some s.
Proof.
  unfold binary_round. destruct (shl_align _ _ _) as [mz ez].
  apply binary_round_aux_sign. lia.
Qed.

(** A product has the sign the signs of its factors give, or is NaN. *)
Lemma SFmul_sign (x y : spec_float) (sx sy : bool) :
  SFsign x = Some sx -> SFsign y = Some sy ->
  SFsign (SFmul prec emax x y) = None
  \/ SFsign (SFmul prec emax x y) = Some (xorb sx sy).
Proof.
  destruct x as [ s1 | s1 | | s1 m1 e1 ], y as [ s2 | s2 | | s2 m2 e2 ];
    cbn [SFsign SFmul]; try discriminate;
    intros [= <-] [= <-]; auto.
  right. apply binary_round_aux_sign. lia.
Qed.

Lemma SFmul_nan_l (y : spec_float) : SFmul prec emax S754_nan y = S754_nan.
Proof. reflexivity. Qed.

Lemma SFmul_nan_r (x : spec_float) : SFmul prec emax x S754_nan = S754_nan.
Proof. destruct x; reflexivity. Qed.

(** A square, and a square scaled by a value of clear sign, is not
    negative. *)
Lemma SFmul_square_notNegative (a v : spec_float) :
  SFsign a = Some false ->
  SFnotNegative (SFmul prec emax (SFmul prec emax a v) v) = true.
Proof.
  intros Ha. destruct (SFsign v) as [ sv | ] eqn:Hv.
  - destruct (SFmul_sign a v _ _ Ha Hv) as [ N | S ].
    + destruct (SFmul prec emax a v); try discriminate. reflexivity.
    + destruct (SFmul_sign _ _ _ _ S Hv) as [ N' | S' ];
        unfold SFnotNegative; [ rewrite N'; reflexivity | rewrite S' ].
      destruct sv; reflexivity.
  - destruct v; try discriminate. rewrite SFmul_nan_r. reflexivity.
Qed.

Lemma SFadd_notNegative (x y : spec_float) :
  SFnotNegative x = true -> SFnotNegative y = true ->
  SFnotNegative (SFadd prec emax x y) = true.
Proof.
  unfold SFnotNegative.
  destruct x as [ [ | ] | [ | ] | | [ | ] m1 e1 ],
           y as [ [ | ] | [ | ] | | [ | ] m2 e2 ];
    cbn [SFsign SFadd]; try discriminate; try reflexivity.
  intros _ _. cbn [cond_Zopp]. cbn [Z.add binary_normalize].
  rewrite binary_round_sign. reflexivity.
Qed.

(** A quotient has the sign the signs of its terms give, or is NaN. *)
Lemma SFdiv_sign (x y : spec_float) (sx sy : bool) :
  SFsign x = Some sx -> SFsign y = Some sy ->
  SFsign (SFdiv prec emax x y) = None
  \/ SFsign (SFdiv prec emax x y) = Some (xorb sx sy).
Proof.
  destruct x as [ s1 | s1 | | s1 m1 e1 ], y as [ s2 | s2 | | s2 m2 e2 ];
    cbn [SFsign SFdiv]; try discriminate;
    intros [= <-] [= <-]; auto.
  right. unfold SFdiv_core_binary.
  set (e' := Z.min _ _). set (m' := match _ - e' with Zpos _ => _ | _ => _ end).
  assert (Hm : 0 <= m').
  { unfold m'. destruct (_ - e') as [ | p | p ]; try lia.
    apply Z.shiftl_nonneg. lia. }
  pose proof (Z.div_pos m' (Zpos m2) Hm ltac:(lia)) as Hq.
  unfold Z.div in Hq.
  destruct (Z.div_eucl m' (Zpos m2)) as [q r]. cbn [fst] in Hq.
  apply binary_round_aux_sign. exact Hq.
Qed.

End RoundingSign.

(** ** Signs of numbers *)

Section NumberSigns.

Import NumberShape.
Local Open Scope float_scope.

(** A finite number that is not [<= 0] has a clear sign bit. *)
Lemma positive_sign (m : number) :
  Number_isFinite m = true -> (m <=? 0) = false ->
  SFsign (Prim2SF m) = Some false.
Proof.
  rewrite isFinite_shape, leb_spec.
  change (Prim2SF 0) with (S754_zero false).
  destruct (Prim2SF m) as [ s | s | | [ | ] p e ]; cbn; try discriminate.
  reflexivity.
Qed.

Lemma notNegative_not_below_zero (e : number) :
  SFnotNegative (Prim2SF e) = true -> (e <? 0) = false.
Proof.
  rewrite ltb_spec. change (Prim2SF 0) with (S754_zero false).
  unfold SFnotNegative.
  destruct (Prim2SF e) as [ s | [ | ] | | [ | ] p ex ]; cbn;
    try discriminate; reflexivity.
Qed.

(** [0.5 * m * v * v] is not negative when [m] is positive. *)
Lemma half_square_notNegative (m v : number) :
  Number_isFinite m = true -> (m <=? 0) = false ->
  SFnotNegative (Prim2SF (0.5 * m * v * v)) = true.
Proof.
  intros Hf Hp. rewrite !mul_spec. unfold SF64mul.
  pose proof (positive_sign m Hf Hp) as Sm.
  assert (Sh : SFsign (Prim2SF 0.5) = Some false) by (vm_compute; reflexivity).
  destruct (SFmul_sign prec emax _ _ _ _ Sh Sm) as [ N | S ].
  - destruct (SFmul prec emax (Prim2SF 0.5) (Prim2SF m)); try discriminate.
    reflexivity.
  - apply SFmul_square_notNegative. exact S.
Qed.

End NumberSigns.

Import NumberShape.

(** What [computeTotalEnergy] returns is not [< 0]. *)
Lemma total_energy_not_below_zero
    (mass velocity springConstant displacement energy : number) :
  Physics.computeTotalEnergy mass velocity springConstant displacement
  = Ok energy ->
  (energy <? 0) = false.
Proof.
  unfold Physics.computeTotalEnergy, Physics.computeKineticEnergy,
    Physics.computePotentialEnergy, bind.
  destruct (negb (Number_isFinite mass) || negb (Number_isFinite velocity))
    eqn:G1; [ discriminate | ].
  destruct (mass <=? 0) eqn:G2; [ discriminate | ].
  destruct (negb (Number_isFinite springConstant)
            || negb (Number_isFinite displacement)) eqn:G3; [ discriminate | ].
  destruct (springConstant <=? 0) eqn:G4; [ discriminate | ].
  intros [= <-].
  apply orb_false_elim in G1 as [M _]. apply negb_false_iff in M.
  apply orb_false_elim in G3 as [K _]. apply negb_false_iff in K.
  apply notNegative_not_below_zero.
  rewrite add_spec. apply SFadd_notNegative;
    apply half_square_notNegative; assumption.
Qed.

(** X5: the total energy is never negative: whenever [computeTotalEnergy]
    returns, what it returns is not [< 0], whatever the rounding of the two
    products and of their sum. *)
Theorem computeTotalEnergy_never_negative :
  forall (mass velocity springConstant displacement energy : number),
    Physics.computeTotalEnergy mass velocity springConstant displacement
    = Ok energy ->
    (energy <? 0) = false.
Proof.
  intros mass velocity springConstant displacement energy H.
  exact (total_energy_not_below_zero mass velocity springConstant
           displacement energy H).
Qed.

(** The energy of [App.tsx]'s parameters at position 0.5, velocity -3. *)
Lemma computeTotalEnergy_never_negative_witness :
  exists energy,
    Physics.computeTotalEnergy 10 (- 3) 100 0.5 = Ok energy
    /\ (energy <? 0) = false.
Proof.
  eexists. split; [ vm_compute; reflexivity | ].
  apply (computeTotalEnergy_never_negative 10 (- 3) 100 0.5).
  vm_compute; reflexivity.
Defined.

(** ** Arithmetic on zeros *)

Section Zeros.

Local Open Scope float_scope.

Lemma zero_isFinite (x : number) :
  isZero x = true -> Number_isFinite x = true.
Proof.
  rewrite isZero_shape, isFinite_shape.
  destruct (Prim2SF x); cbn; congruence.
Qed.

Lemma mul_zero_l (x y : number) :
  isZero x = true -> Number_isFinite y = true -> isZero (x * y) = true.
Proof.
  rewrite !isZero_shape, isFinite_shape, mul_spec. unfold SF64mul.
  destruct (Prim2SF x), (Prim2SF y); cbn; congruence.
Qed.

Lemma mul_zero_r (x y : number) :
  Number_isFinite x = true -> isZero y = true -> isZero (x * y) = true.
Proof.
  rewrite !isZero_shape, isFinite_shape, mul_spec. unfold SF64mul.
  destruct (Prim2SF x), (Prim2SF y); cbn; congruence.
Qed.

Lemma add_zero (x y : number) :
  isZero x = true -> isZero y = true -> isZero (x + y) = true.
Proof.
  rewrite !isZero_shape, add_spec. unfold SF64add.
  destruct (Prim2SF x) as [ [ | ] | | | ], (Prim2SF y) as [ [ | ] | | | ];
    cbn; congruence.
Qed.

Lemma div_zero (x y : number) :
  isZero x = true -> Number_isFinite y = true -> isZero y = false ->
  isZero (x / y) = true.
Proof.
  rewrite !isZero_shape, isFinite_shape, div_spec. unfold SF64div.
  destruct (Prim2SF x), (Prim2SF y); cbn; congruence.
Qed.

Lemma opp_isFinite (x : number) :
  Number_isFinite x = true -> Number_isFinite (- x) = true.
Proof.
  rewrite !isFinite_shape, opp_spec.
  destruct (Prim2SF x); cbn; congruence.
Qed.

Lemma positive_not_zero (m : number) :
  (m <=? 0) = false -> isZero m = false.
Proof.
  rewrite isZero_shape, leb_spec. change (Prim2SF 0) with (S754_zero false).
  destruct (Prim2SF m); cbn; congruence.
Qed.

End Zeros.

(** Closes a goal [isZero e = true] or [Number_isFinite e = true] about an
    expression built from zeros and finite factors. *)
Ltac zeros :=
  solve
    [ assumption
    | reflexivity
    | apply add_zero; zeros
    | apply mul_zero_l; zeros
    | apply mul_zero_r; zeros
    | apply div_zero; zeros
    | apply zero_isFinite; zeros
    | apply opp_isFinite; zeros ].

Section AtRest.

Local Open Scope float_scope.

(** From a zero state, with an acceleration function that returns zero on
    zero states, [rk4Step] returns a zero state. *)
Lemma rk4Step_at_rest
    (f : number -> number -> result number) (x v dt : number) :
  isZero x = true -> isZero v = true -> Number_isFinite dt = true ->
  (forall x' v', isZero x' = true -> isZero v' = true ->
                 exists r, f x' v' = Ok r /\ isZero r = true) ->
  exists st,
    Integration.rk4Step (Integration.mkState x v) dt f = Ok st
    /\ isZero (Integration.position st) = true
    /\ isZero (Integration.velocity st) = true.
Proof.
  intros Zx Zv Fdt Hf.
  unfold Integration.rk4Step, bind.
  cbn [Integration.position Integration.velocity].
  rewrite (zero_isFinite x Zx), (zero_isFinite v Zv), Fdt. cbn [negb orb].
  destruct (Hf x v Zx Zv) as (k1 & E1 & Z1). rewrite E1.
  rewrite (zero_isFinite k1 Z1). cbn [negb].
  destruct (Hf (x + v * dt / 2) (v + k1 * dt / 2)) as (k2 & E2 & Z2);
    [ zeros | zeros | ].
  rewrite E2, (zero_isFinite k2 Z2). cbn [negb].
  destruct (Hf (x + (v + k1 * dt / 2) * dt / 2) (v + k2 * dt / 2))
    as (k3 & E3 & Z3); [ zeros | zeros | ].
  rewrite E3, (zero_isFinite k3 Z3). cbn [negb].
  destruct (Hf (x + (v + k2 * dt / 2) * dt) (v + k3 * dt))
    as (k4 & E4 & Z4); [ zeros | zeros | ].
  rewrite E4, (zero_isFinite k4 Z4). cbn [negb].
  match goal with
  | |- exists st, (if negb (Number_isFinite ?p) || negb (Number_isFinite ?q)
                   then _ else _) = _ /\ _ =>
      assert (Zp : isZero p = true) by zeros;
      assert (Zq : isZero q = true) by zeros;
      rewrite (zero_isFinite p Zp), (zero_isFinite q Zq)
  end.
  cbn [negb orb]. eexists. split; [ reflexivity | ]. split; assumption.
Qed.

Variable parameters : SpringParameters.t.

Hypothesis parameters_valid : SimRun.validParameters parameters = true.

(** No displacement and no velocity: no acceleration. *)
Lemma computeAccelerationFromState_at_rest (x v : number) :
  isZero x = true -> isZero v = true ->
  exists r,
    UsePhysicsEngine.computeAccelerationFromState parameters x v = Ok r
    /\ isZero r = true.
Proof.
  intros Zx Zv.
  destruct (validParameters_fields parameters parameters_valid)
    as (M1 & M2 & K1 & _ & C1 & C2).
  unfold UsePhysicsEngine.computeAccelerationFromState,
    Physics.computeSpringForce, Physics.computeDampingForce,
    Physics.computeAcceleration, bind.
  rewrite (zero_isFinite x Zx), (zero_isFinite v Zv), K1, C1, C2.
  cbn [negb orb].
  pose proof (positive_not_zero _ M2) as NZ.
  match goal with
  | |- context [ Number_isFinite (?a + ?b) ] =>
      assert (Zf : isZero (a + b) = true) by zeros;
      rewrite (zero_isFinite _ Zf)
  end.
  rewrite M1, M2. cbn [negb orb].
  eexists. split; [ reflexivity | ]. zeros.
Qed.

(** The next state of a zero state is a zero state. *)
Lemma computeNextState_at_rest (x v : number) :
  isZero x = true -> isZero v = true ->
  exists nextState,
    UsePhysicsEngine.computeNextState
      (UsePhysicsEngine.usePhysicsEngine parameters)
      (Integration.mkState x v) Constants.TIMESTEP = Ok nextState
    /\ isZero (UsePhysicsEngine.position nextState) = true
    /\ isZero (UsePhysicsEngine.velocity nextState) = true
    /\ isZero (UsePhysicsEngine.acceleration nextState) = true.
Proof.
  intros Zx Zv. cbn [UsePhysicsEngine.computeNextState
                      UsePhysicsEngine.usePhysicsEngine].
  unfold UsePhysicsEngine.computeNextStateFrom, bind.
  cbn [Integration.position Integration.velocity].
  destruct (rk4Step_at_rest
              (UsePhysicsEngine.computeAccelerationFromState parameters)
              x v Constants.TIMESTEP Zx Zv eq_refl
              computeAccelerationFromState_at_rest)
    as (st & E & Zp & Zq).
  rewrite E.
  destruct (computeAccelerationFromState_at_rest _ _ Zp Zq) as (r & Er & Zr).
  rewrite Er. eexists. split; [ reflexivity | ]. cbn. auto.
Qed.

End AtRest.

(** ** One turn of a running simulation *)

Section Turn.

Local Open Scope float_scope.

Variable engine : UsePhysicsEngine.PhysicsEngine.

(** What one turn makes of a running, committed simulation whose step
    succeeds, by whether a sample is due and whether the energy of the
    new state is computed. *)
Lemma tick_step (s : Sim) (nextState : UsePhysicsEngine.NextState) :
  runningCommitted s ->
  UsePhysicsEngine.computeNextState engine
    (Integration.mkState (SimulationState.position (state s))
                         (SimulationState.velocity (state s)))
    Constants.TIMESTEP = Ok nextState ->
  let newTime := SimulationState.time (state s) + Constants.TIMESTEP in
  let after := tick engine s in
  if sampleDue s
  then
    match UsePhysicsEngine.computeTotalEnergy engine
            (UsePhysicsEngine.position nextState)
            (UsePhysicsEngine.velocity nextState) with
    | Ok energy =>
        runningCommitted after
        /\ state after = advanced s nextState
        /\ timeSeriesData after
           = UseGraphData.addDataPoint newTime
               (UsePhysicsEngine.position nextState)
               (UsePhysicsEngine.velocity nextState)
               (UsePhysicsEngine.acceleration nextState) energy
               (timeSeriesData s)
        /\ lastDataUpdateRef after = newTime
    | Throw _ =>
        state after = withPaused true (advanced s nextState)
        /\ stateRef after = state after
        /\ timeSeriesData after = timeSeriesData s
        /\ lastDataUpdateRef after = lastDataUpdateRef s
        /\ rafPending after = []
    end
  else
    runningCommitted after
    /\ state after = advanced s nextState
    /\ timeSeriesData after = timeSeriesData s
    /\ lastDataUpdateRef after = lastDataUpdateRef s.
Proof.
  intros (E & A & h & P & R) C newTime after. subst newTime after.
  unfold tick. rewrite (@frame_one_pending engine s h P).
  destruct s as [st sr d r l p n]. cbn in E, A, P, R. subst sr p r.
  destruct st as [x v a t run pz].
  destruct (loopActive_flags _ A) as [F1 F2]. cbn in F1, F2. subst run pz.
  unfold sampleDue, advanced.
  cbn [state lastDataUpdateRef timeSeriesData SimulationState.time
       SimulationState.position SimulationState.velocity] in *.
  unfold animate, taken.
  cbn [stateRef SimulationState.isRunning SimulationState.isPaused
       SimulationState.position SimulationState.velocity negb orb].
  rewrite C. unfold animateTry.
  cbn [state lastDataUpdateRef timeSeriesData setState SimulationState.time].
  destruct (Number_ge _ _).
  - destruct (UsePhysicsEngine.computeTotalEnergy engine _ _) as [ energy | msg ].
    + unfold commit; cbn.
      split; [ | repeat split ].
      split; [ reflexivity | split; [ reflexivity | ] ].
      exists n; split; reflexivity.
    + unfold commit; cbn. repeat split.
  - unfold commit; cbn.
    split; [ | repeat split ].
    split; [ reflexivity | split; [ reflexivity | ] ].
    exists n; split; reflexivity.
Qed.

End Turn.

(** ** The integrator and the force model, for every callback and input *)

Local Open Scope string_scope.
Local Open Scope float_scope.

(** X1: whatever the acceleration callback does (return any number, throw),
    a state that [rk4Step] returns has a finite position and a finite
    velocity. *)
Theorem rk4Step_returns_finite_state :
  forall (state state' : Integration.State) (dt : number)
         (accelerationFunc : number -> number -> result number),
    Integration.rk4Step state dt accelerationFunc = Ok state' ->
    Number_isFinite (Integration.position state') = true
    /\ Number_isFinite (Integration.velocity state') = true.
Proof.
  intros st st' dt f H. exact (rk4Step_ok_finite st dt f H).
Qed.

(** One step of the undamped unit oscillator from [(1, 0)]. *)
Lemma rk4Step_returns_finite_state_witness :
  exists state',
    Integration.rk4Step (Integration.mkState 1 0) 0.5 (returns2 (fun x _ => - x))
    = Ok state'
    /\ Number_isFinite (Integration.position state') = true
    /\ Number_isFinite (Integration.velocity state') = true.
Proof.
  eexists. split; [ vm_compute; reflexivity | ].
  apply (rk4Step_returns_finite_state (Integration.mkState 1 0) _ 0.5
           (returns2 (fun x _ => - x))).
  vm_compute; reflexivity.
Defined.

(** X2: when the position, the velocity or the timestep is not finite,
    [rk4Step] throws its input error whatever the callback is (the callback
    is not consulted). *)
Theorem rk4Step_rejects_non_finite_input :
  forall (state : Integration.State) (dt : number)
         (accelerationFunc : number -> number -> result number),
    Number_isFinite (Integration.position state)
    && Number_isFinite (Integration.velocity state)
    && Number_isFinite dt = false ->
    Integration.rk4Step state dt accelerationFunc
    = Throw "Invalid input: position, velocity, and dt must be finite numbers".
Proof.
  intros st dt f H. unfold Integration.rk4Step.
  destruct (Number_isFinite (Integration.position st)),
           (Number_isFinite (Integration.velocity st)),
           (Number_isFinite dt); try discriminate; reflexivity.
Qed.

(** A finite state with an infinite timestep, and a callback that would
    throw. *)
Lemma rk4Step_rejects_non_finite_input_witness :
  Integration.rk4Step (Integration.mkState 1 0) infinity
    (fun _ _ => Throw "never called")
  = Throw "Invalid input: position, velocity, and dt must be finite numbers".
Proof.
  apply (rk4Step_rejects_non_finite_input (Integration.mkState 1 0) infinity).
  vm_compute; reflexivity.
Defined.

(** X3: every failure of [rk4Step] is one of its own six checks or an
    error the callback threw, passed on unchanged. *)
Theorem rk4Step_failures :
  forall (state : Integration.State) (dt : number)
         (accelerationFunc : number -> number -> result number) (msg : string),
    Integration.rk4Step state dt accelerationFunc = Throw msg ->
    In msg
      [ "Invalid input: position, velocity, and dt must be finite numbers";
        "Acceleration function returned non-finite value";
        "Acceleration function returned non-finite value at k2";
        "Acceleration function returned non-finite value at k3";
        "Acceleration function returned non-finite value at k4";
        "RK4 integration produced non-finite values" ]
    \/ exists x v, accelerationFunc x v = Throw msg.
Proof.
  intros st dt f msg. unfold Integration.rk4Step, bind.
  repeat match goal with
         | |- context [ if ?c then _ else _ ] => destruct c
         | |- context [ match f ?u ?w with _ => _ end ] =>
             let E := fresh "E" in destruct (f u w) eqn:E
         | |- Throw ?m = Throw _ -> _ =>
             intros [= <-];
             first [ left; cbn [In]; tauto | right; eauto ]
         end; try discriminate.
Qed.

(** A callback that throws at the second evaluation. *)
Lemma rk4Step_failures_witness :
  let f : number -> number -> result number :=
    fun x _ => if x <? 1 then Throw "out of range" else Ok 0 in
  Integration.rk4Step (Integration.mkState 1 (- 1)) 0.5 f = Throw "out of range"
  /\ exists x v, f x v = Throw "out of range".
Proof.
  intros f. split; [ vm_compute; reflexivity | ].
  destruct (rk4Step_failures (Integration.mkState 1 (- 1)) 0.5 f "out of range")
    as [ H | H ]; [ vm_compute; reflexivity | | exact H ].
  exfalso. cbn [In] in H.
  repeat destruct H as [ H | H ]; try discriminate H. exact H.
Defined.

(** X4: the composite acceleration returns a number exactly when [x], [v],
    the spring constant, the damping coefficient and the mass are finite,
    the damping coefficient is not negative, the mass is not [<= 0] and the
    total force is finite; the number is then [(-k*x + -c*v) / mass].  The
    spring constant may be zero or negative. *)
Theorem computeAccelerationFromState_returns_iff :
  forall (parameters : SpringParameters.t) (x v : number),
    let k := SpringParameters.springConstant parameters in
    let c := SpringParameters.dampingCoefficient parameters in
    let mass := SpringParameters.mass parameters in
    is_ok (UsePhysicsEngine.computeAccelerationFromState parameters x v)
    = Number_isFinite x && Number_isFinite k
      && Number_isFinite v && Number_isFinite c && negb (c <? 0)
      && Number_isFinite ((- k) * x + (- c) * v)
      && Number_isFinite mass && negb (mass <=? 0)
    /\ forall r,
         UsePhysicsEngine.computeAccelerationFromState parameters x v = Ok r ->
         r = ((- k) * x + (- c) * v) / mass.
Proof.
  intros parameters x v k c mass. subst k c mass.
  unfold UsePhysicsEngine.computeAccelerationFromState,
    Physics.computeSpringForce, Physics.computeDampingForce,
    Physics.computeAcceleration, bind.
  destruct (Number_isFinite x),
           (Number_isFinite (SpringParameters.springConstant parameters));
    cbn [negb orb andb is_ok]; try (split; [ reflexivity | discriminate ]).
  destruct (Number_isFinite v),
           (Number_isFinite (SpringParameters.dampingCoefficient parameters));
    cbn [negb orb andb is_ok]; try (split; [ reflexivity | discriminate ]).
  destruct (SpringParameters.dampingCoefficient parameters <? 0);
    cbn [negb orb andb is_ok]; try (split; [ reflexivity | discriminate ]).
  destruct (Number_isFinite (_ + _)),
           (Number_isFinite (SpringParameters.mass parameters));
    cbn [negb orb andb is_ok]; try (split; [ reflexivity | discriminate ]).
  destruct (SpringParameters.mass parameters <=? 0);
    cbn [negb orb andb is_ok]; split; try reflexivity; try discriminate.
  intros r [= <-]. reflexivity.
Qed.

(** A negative spring constant is accepted by the acceleration. *)
Lemma computeAccelerationFromState_returns_iff_witness :
  let parameters :=
    {| SpringParameters.mass := 2;
       SpringParameters.springConstant := - 8;
       SpringParameters.initialLength := 1;
       SpringParameters.dampingCoefficient := 0 |} in
  is_ok (UsePhysicsEngine.computeAccelerationFromState parameters 0.5 0) = true
  /\ forall r,
       UsePhysicsEngine.computeAccelerationFromState parameters 0.5 0 = Ok r ->
       r = ((- (- 8)) * 0.5 + (- 0) * 0) / 2.
Proof.
  intros parameters.
  destruct (computeAccelerationFromState_returns_iff parameters 0.5 0)
    as [H1 H2].
  split; [ rewrite H1; vm_compute; reflexivity | exact H2 ].
Defined.

(** X6: the energy is stricter than the acceleration about the spring
    constant: for finite inputs and a valid mass and damping, a finite
    spring constant that is [<= 0] gives an acceleration as long as the
    force is finite, and makes [computeTotalEnergy] throw. *)
Theorem non_positive_spring_constant :
  forall (parameters : SpringParameters.t) (x v : number),
    let k := SpringParameters.springConstant parameters in
    let c := SpringParameters.dampingCoefficient parameters in
    let mass := SpringParameters.mass parameters in
    Number_isFinite x = true ->
    Number_isFinite v = true ->
    Number_isFinite mass = true -> (mass <=? 0) = false ->
    Number_isFinite c = true -> (c <? 0) = false ->
    Number_isFinite k = true -> (k <=? 0) = true ->
    Number_isFinite ((- k) * x + (- c) * v) = true ->
    UsePhysicsEngine.computeAccelerationFromState parameters x v
    = Ok (((- k) * x + (- c) * v) / mass)
    /\ UsePhysicsEngine.computeEnergy parameters x v
       = Throw "Invalid input: springConstant must be positive".
Proof.
  intros parameters x v k c mass Hx Hv M1 M2 C1 C2 K1 K2 F. subst k c mass.
  unfold UsePhysicsEngine.computeAccelerationFromState,
    UsePhysicsEngine.computeEnergy, Physics.computeTotalEnergy,
    Physics.computeKineticEnergy, Physics.computePotentialEnergy,
    Physics.computeSpringForce, Physics.computeDampingForce,
    Physics.computeAcceleration, bind.
  rewrite Hx, Hv, M1, M2, C1, C2, K1, K2. cbn [negb orb].
  rewrite F. cbn [negb orb]. split; reflexivity.
Qed.

(** A spring constant of zero. *)
Lemma non_positive_spring_constant_witness :
  let parameters :=
    {| SpringParameters.mass := 2;
       SpringParameters.springConstant := 0;
       SpringParameters.initialLength := 1;
       SpringParameters.dampingCoefficient := 0.5 |} in
  UsePhysicsEngine.computeAccelerationFromState parameters 0.5 1
  = Ok (((- 0) * 0.5 + (- 0.5) * 1) / 2)
  /\ UsePhysicsEngine.computeEnergy parameters 0.5 1
     = Throw "Invalid input: springConstant must be positive".
Proof.
  intros parameters.
  apply (non_positive_spring_constant parameters 0.5 1);
    vm_compute; reflexivity.
Defined.

(** X7: a next state that [computeNextState] returns is the state
    [rk4Step] returned, it is finite, and its acceleration is the
    acceleration function at that very state. *)
Theorem computeNextState_consistent :
  forall (accelerationFunc : number -> number -> result number)
         (currentState : Integration.State) (dt : number)
         (nextState : UsePhysicsEngine.NextState),
    UsePhysicsEngine.computeNextStateFrom accelerationFunc currentState dt
    = Ok nextState ->
    Integration.rk4Step currentState dt accelerationFunc
    = Ok (Integration.mkState (UsePhysicsEngine.position nextState)
                              (UsePhysicsEngine.velocity nextState))
    /\ Number_isFinite (UsePhysicsEngine.position nextState) = true
    /\ Number_isFinite (UsePhysicsEngine.velocity nextState) = true
    /\ accelerationFunc (UsePhysicsEngine.position nextState)
                        (UsePhysicsEngine.velocity nextState)
       = Ok (UsePhysicsEngine.acceleration nextState).
Proof.
  intros f st dt n H.
  destruct (@computeNextStateFrom_ok_finite f st dt n H) as [Fp Fv].
  revert H. unfold UsePhysicsEngine.computeNextStateFrom, bind.
  destruct st as [x v]. cbn [Integration.position Integration.velocity].
  destruct (Integration.rk4Step _ _ _) as [ [x' v'] | ]; [ | discriminate ].
  cbn [Integration.position Integration.velocity].
  destruct (f x' v') as [ a | ] eqn:E; [ | discriminate ].
  intros [= <-]. cbn in *. rewrite E. auto.
Qed.

(** The next state of [App.tsx]'s parameters from [(0.5, 0)]. *)
Lemma computeNextState_consistent_witness :
  exists nextState,
    UsePhysicsEngine.computeNextState
      (UsePhysicsEngine.usePhysicsEngine defaultParameters)
      (Integration.mkState 0.5 0) Constants.TIMESTEP = Ok nextState
    /\ UsePhysicsEngine.computeAccelerationFromState defaultParameters
         (UsePhysicsEngine.position nextState)
         (UsePhysicsEngine.velocity nextState)
       = Ok (UsePhysicsEngine.acceleration nextState).
Proof.
  eexists. split; [ vm_compute; reflexivity | ].
  apply (computeNextState_consistent
           (UsePhysicsEngine.computeAccelerationFromState defaultParameters)
           (Integration.mkState 0.5 0) Constants.TIMESTEP).
  vm_compute; reflexivity.
Defined.

(** ** Validation *)

Section ValidationFacts.

Local Open Scope float_scope.

Lemma finite_not_le_zero (m : number) :
  Number_isFinite m = true -> (m <=? 0) = false -> (0 <? m) = true.
Proof.
  rewrite isFinite_shape, leb_spec, ltb_spec.
  change (Prim2SF 0) with (S754_zero false).
  destruct (Prim2SF m) as [ s | s | | [ | ] p e ]; cbn; congruence.
Qed.

Lemma finite_not_lt_zero (c : number) :
  Number_isFinite c = true -> (c <? 0) = false -> (0 <=? c) = true.
Proof.
  rewrite isFinite_shape, leb_spec, ltb_spec.
  change (Prim2SF 0) with (S754_zero false).
  destruct (Prim2SF c) as [ s | s | | [ | ] p e ]; cbn; congruence.
Qed.

Lemma isValid_checks (p : SpringParameters.t) :
  Validation.isValid p
  = withinLimits (SpringParameters.mass p)
      Constants.MIN_MASS Constants.MAX_MASS
    && withinLimits (SpringParameters.springConstant p)
         Constants.MIN_SPRING_CONSTANT Constants.MAX_SPRING_CONSTANT
    && withinLimits (SpringParameters.initialLength p)
         Constants.MIN_LENGTH Constants.MAX_LENGTH
    && (Number_isFinite (SpringParameters.dampingCoefficient p)
        && negb (SpringParameters.dampingCoefficient p <? 0)
        && negb (100 <? SpringParameters.dampingCoefficient p)).
Proof.
  unfold Validation.isValid, Validation.validationErrors, withinLimits.
  repeat match goal with
         | |- context [ Number_isFinite ?x ] =>
             destruct (Number_isFinite x); cbn; try reflexivity
         | |- context [ ?x <=? ?y ] =>
             destruct (x <=? y); cbn; try reflexivity
         | |- context [ ?x <? ?y ] =>
             destruct (x <? y); cbn; try reflexivity
         end.
Qed.

End ValidationFacts.

(** X8: [validateParameters] accepts a parameter set exactly when each of
    mass, spring constant and initial length is finite, not [<= 0] and
    inside its limits, and the damping coefficient is finite, not negative
    and at most 100; an accepted set satisfies the invariant the physics
    relies on (finite fields, positive mass and spring constant,
    non-negative damping). *)
Theorem validateParameters_accepts :
  forall p : SpringParameters.t,
    Validation.isValid p
    = withinLimits (SpringParameters.mass p)
        Constants.MIN_MASS Constants.MAX_MASS
      && withinLimits (SpringParameters.springConstant p)
           Constants.MIN_SPRING_CONSTANT Constants.MAX_SPRING_CONSTANT
      && withinLimits (SpringParameters.initialLength p)
           Constants.MIN_LENGTH Constants.MAX_LENGTH
      && (Number_isFinite (SpringParameters.dampingCoefficient p)
          && negb (SpringParameters.dampingCoefficient p <? 0)
          && negb (100 <? SpringParameters.dampingCoefficient p))
    /\ (Validation.isValid p = true -> validParameters p = true).
Proof.
  intros p. split; [ apply isValid_checks | ].
  rewrite isValid_checks. unfold withinLimits, validParameters.
  intros H.
  repeat match goal with
         | H0 : _ && _ = true |- _ =>
             let H1 := fresh "H" in
             let H2 := fresh "H" in
             apply andb_prop in H0 as [H1 H2]
         end.
  repeat match goal with
         | H : negb _ = true |- _ => apply negb_true_iff in H
         end.
  repeat (apply andb_true_intro; split);
    auto using finite_not_le_zero, finite_not_lt_zero.
Qed.

(** [App.tsx]'s parameters are accepted. *)
Lemma validateParameters_accepts_witness :
  Validation.isValid defaultParameters = true
  /\ validParameters defaultParameters = true.
Proof.
  split; [ vm_compute; reflexivity | ].
  apply (validateParameters_accepts defaultParameters).
  vm_compute; reflexivity.
Defined.

(** ** Invariants of the runs of the hook *)

(** X9: in every state the hook reaches from its mount, through any
    sequence of [start], [pause], [resume], [reset], [setDisplacement],
    commits and animation frames, at most one animation frame callback is
    pending; when one is, [rafIdRef] holds its handle, the committed state
    is running and not paused, and the state to render has [isRunning]
    set. *)
Theorem at_most_one_callback_pending :
  forall (engine : UsePhysicsEngine.PhysicsEngine) (es : list Event),
    let s := run engine es mount in
    (List.length (rafPending s) <= 1)%nat
    /\ forall h, In h (rafPending s) ->
         rafPending s = [h]
         /\ rafIdRef s = Some h
         /\ runMode (stateRef s) = Running
         /\ SimulationState.isRunning (state s) = true.
Proof.
  intros engine es s.
  destruct (wellFormed_cases s (reachable_wellFormed engine es))
    as [ E | (h & E & R & A & I) ]; rewrite E.
  - split; [ cbn; lia | intros h [] ].
  - split; [ cbn; lia | ].
    intros h' [ <- | [] ]. repeat split; try assumption.
    destruct (loopActive_flags _ A) as [F1 F2].
    unfold runMode. rewrite F1, F2. reflexivity.
Qed.

Section Alignment.

Import BufferSpec.

Variable engine : UsePhysicsEngine.PhysicsEngine.

Lemma pruneAndAdd_times (time cutoffTime value : number)
    (data : list DataPoint.t) :
  times (UseGraphData.pruneAndAdd time cutoffTime data value)
  = (filter (fun t => Number_ge t cutoffTime) (times data) ++ [time])%list.
Proof.
  unfold UseGraphData.pruneAndAdd, times. rewrite map_app. f_equal.
  induction data as [ | p data IH ]; [ reflexivity | ].
  cbn [filter map]. destruct (Number_ge (DataPoint.time p) cutoffTime);
    cbn [map]; rewrite IH; reflexivity.
Qed.

Lemma aligned_addDataPoint
    (time displacement velocity acceleration totalEnergy : number)
    (prev : TimeSeriesData.t) :
  aligned prev ->
  aligned (UseGraphData.addDataPoint time displacement velocity
             acceleration totalEnergy prev).
Proof.
  intros (A1 & A2 & A3). unfold aligned, UseGraphData.addDataPoint.
  cbn [TimeSeriesData.displacement TimeSeriesData.velocity
       TimeSeriesData.acceleration TimeSeriesData.totalEnergy].
  rewrite !pruneAndAdd_times, A1, A2, A3. repeat split.
Qed.

Lemma aligned_animate (s : Sim) :
  aligned (timeSeriesData s) -> aligned (timeSeriesData (animate engine s)).
Proof.
  intros A. unfold animate.
  destruct (negb _ || _); [ exact A | ].
  destruct (UsePhysicsEngine.computeNextState engine _ _); [ | exact A ].
  unfold animateTry.
  destruct (Number_ge _ _);
    [ destruct (UsePhysicsEngine.computeTotalEnergy engine _ _) | ];
    cbn [fst snd timeSeriesData setState setTimeSeriesData
         setLastDataUpdateRef requestAnimationFrame];
    try exact A.
  apply aligned_addDataPoint. exact A.
Qed.

Lemma aligned_frame (s : Sim) :
  aligned (timeSeriesData s) -> aligned (timeSeriesData (frame engine s)).
Proof.
  unfold frame. generalize (rafPending s) at 1. intros hs. revert s.
  induction hs as [ | h hs IH ]; intros s A; [ exact A | ].
  cbn [fold_left]. apply IH. unfold runCallback.
  destruct (existsb _ _); [ | exact A ].
  apply aligned_animate. exact A.
Qed.

Lemma aligned_handle (s : Sim) (e : Event) :
  aligned (timeSeriesData s) ->
  aligned (timeSeriesData (handle engine s e)).
Proof.
  intros A. destruct e; cbn [handle]; try exact A.
  - unfold reset. rewrite cancelCurrentFrame_timeSeriesData.
    repeat split.
  - rewrite commit_timeSeriesData. exact A.
  - apply aligned_frame. exact A.
Qed.

Lemma aligned_run (es : list Event) (s : Sim) :
  aligned (timeSeriesData s) -> aligned (timeSeriesData (run engine es s)).
Proof.
  revert s. induction es as [ | e es IH ]; intros s A; [ exact A | ].
  cbn [run fold_left]. apply IH, aligned_handle, A.
Qed.

End Alignment.

(** X10: in every state the hook reaches from its mount, the four series
    hold samples of the same times in the same order; in particular they
    have the same length. *)
Theorem series_stay_aligned :
  forall (engine : UsePhysicsEngine.PhysicsEngine) (es : list Event),
    let data := timeSeriesData (run engine es mount) in
    BufferSpec.aligned data
    /\ List.length (TimeSeriesData.velocity data)
       = List.length (TimeSeriesData.displacement data)
    /\ List.length (TimeSeriesData.acceleration data)
       = List.length (TimeSeriesData.displacement data)
    /\ List.length (TimeSeriesData.totalEnergy data)
       = List.length (TimeSeriesData.displacement data).
Proof.
  intros engine es data.
  assert (A : BufferSpec.aligned data).
  { apply aligned_run. repeat split. }
  split; [ exact A | ].
  destruct A as (A1 & A2 & A3). unfold BufferSpec.times in *.
  pose proof (f_equal (@List.length _) A1) as L1.
  pose proof (f_equal (@List.length _) A2) as L2.
  pose proof (f_equal (@List.length _) A3) as L3.
  rewrite !length_map in L1, L2, L3. repeat split; congruence.
Qed.

(** ** Turns of the loop *)

Section RestInvariant.

Variable parameters : SpringParameters.t.

Hypothesis parameters_valid : validParameters parameters = true.

Let engine := UsePhysicsEngine.usePhysicsEngine parameters.

(** A running, committed simulation at rest. *)
Let atRest (s : Sim) : Prop :=
  runningCommitted s
  /\ isZero (SimulationState.position (state s)) = true
  /\ isZero (SimulationState.velocity (state s)) = true
  /\ isZero (SimulationState.acceleration (state s)) = true.

Lemma tick_at_rest (s : Sim) :
  atRest s ->
  atRest (tick engine s)
  /\ SimulationState.time (state (tick engine s))
     = SimulationState.time (state s) + Constants.TIMESTEP.
Proof.
  intros (R & Zx & Zv & Za).
  destruct (computeNextState_at_rest parameters parameters_valid _ _ Zx Zv)
    as (n & C & Nx & Nv & Na).
  pose proof (tick_step engine s n R C) as T. cbv zeta in T.
  pose proof (computeEnergy_ok parameters parameters_valid _ _
                (zero_isFinite _ Nx) (zero_isFinite _ Nv)) as En.
  assert (G : runningCommitted (tick engine s)
              /\ state (tick engine s) = advanced s n).
  { destruct (sampleDue s).
    - change (UsePhysicsEngine.computeTotalEnergy engine)
        with (UsePhysicsEngine.computeEnergy parameters) in T.
      destruct (UsePhysicsEngine.computeEnergy parameters _ _);
        [ | discriminate ].
      tauto.
    - tauto. }
  destruct G as [R' E]. unfold atRest. rewrite E. cbn. auto.
Qed.

Lemma ticks_at_rest (n : nat) (s : Sim) :
  atRest s ->
  atRest (ticks engine n s)
  /\ SimulationState.time (state (ticks engine n s))
     = Nat.iter n (fun t => t + Constants.TIMESTEP)
         (SimulationState.time (state s)).
Proof.
  revert s. induction n as [ | n IH ]; intros s H; [ split; [ exact H | reflexivity ] | ].
  cbn [ticks]. destruct (tick_at_rest s H) as [H' T].
  destruct (IH _ H') as [H'' T'']. split; [ exact H'' | ].
  rewrite T'', T, Nat.iter_succ_r. reflexivity.
Qed.

End RestInvariant.

(** X11: with valid parameters, a running simulation at rest (position,
    velocity and acceleration zero) stays at rest: after any number of
    turns it is still running, its position, velocity and acceleration are
    zero, and its elapsed time has grown by one timestep per turn. *)
Theorem rest_stays_at_rest :
  forall (parameters : SpringParameters.t) (s : Sim) (n : nat),
    validParameters parameters = true ->
    runningCommitted s ->
    isZero (SimulationState.position (state s)) = true ->
    isZero (SimulationState.velocity (state s)) = true ->
    isZero (SimulationState.acceleration (state s)) = true ->
    let after := ticks (UsePhysicsEngine.usePhysicsEngine parameters) n s in
    runMode (state after) = Running
    /\ isZero (SimulationState.position (state after)) = true
    /\ isZero (SimulationState.velocity (state after)) = true
    /\ isZero (SimulationState.acceleration (state after)) = true
    /\ SimulationState.time (state after)
       = Nat.iter n (fun t => t + Constants.TIMESTEP)
           (SimulationState.time (state s)).
Proof.
  intros parameters s n Hp R Zx Zv Za after.
  destruct (ticks_at_rest parameters Hp n s (conj R (conj Zx (conj Zv Za))))
    as [ ((E & A & _) & Zx' & Zv' & Za') T ].
  destruct (loopActive_flags _ A) as [F1 F2].
  unfold runMode. fold after in F1, F2, Zx', Zv', Za', T.
  rewrite F1, F2. auto.
Qed.

(** Started and never displaced: two seconds later nothing has moved. *)
Lemma rest_stays_at_rest_witness :
  let after :=
    ticks (UsePhysicsEngine.usePhysicsEngine defaultParameters) 120
      (commit (start mount)) in
  runMode (state after) = Running
  /\ isZero (SimulationState.position (state after)) = true
  /\ isZero (SimulationState.velocity (state after)) = true
  /\ isZero (SimulationState.acceleration (state after)) = true
  /\ SimulationState.time (state after)
     = Nat.iter 120 (fun t => t + Constants.TIMESTEP) 0.
Proof.
  apply (rest_stays_at_rest defaultParameters (commit (start mount)) 120);
    try (vm_compute; reflexivity).
  split; [ reflexivity | ]. split; [ reflexivity | ].
  exists 1%nat. split; reflexivity.
Defined.

(** X12: in a turn of a running, committed simulation whose step succeeds,
    the state becomes the next state with the elapsed time one timestep
    later; when the energy of the new state is computed, the simulation
    keeps running, and a sample of the new time and the new state is
    appended to the four series exactly when at least 100 ms of simulated
    time have passed since [lastDataUpdateRef], which then becomes the new
    time. *)
Theorem turn_steps_and_samples :
  forall (engine : UsePhysicsEngine.PhysicsEngine) (s : Sim)
         (nextState : UsePhysicsEngine.NextState) (energy : number),
    runningCommitted s ->
    UsePhysicsEngine.computeNextState engine
      (Integration.mkState (SimulationState.position (state s))
                           (SimulationState.velocity (state s)))
      Constants.TIMESTEP = Ok nextState ->
    UsePhysicsEngine.computeTotalEnergy engine
      (UsePhysicsEngine.position nextState)
      (UsePhysicsEngine.velocity nextState) = Ok energy ->
    let newTime := SimulationState.time (state s) + Constants.TIMESTEP in
    let after := tick engine s in
    runningCommitted after
    /\ state after
       = {| SimulationState.position := UsePhysicsEngine.position nextState;
            SimulationState.velocity := UsePhysicsEngine.velocity nextState;
            SimulationState.acceleration :=
              UsePhysicsEngine.acceleration nextState;
            SimulationState.time := newTime;
            SimulationState.isRunning := true;
            SimulationState.isPaused := false |}
    /\ (Number_ge ((newTime - lastDataUpdateRef s) * 1000)
          Constants.GRAPH_UPDATE_INTERVAL = true ->
        timeSeriesData after
        = UseGraphData.addDataPoint newTime
            (UsePhysicsEngine.position nextState)
            (UsePhysicsEngine.velocity nextState)
            (UsePhysicsEngine.acceleration nextState) energy
            (timeSeriesData s)
        /\ lastDataUpdateRef after = newTime)
    /\ (Number_ge ((newTime - lastDataUpdateRef s) * 1000)
          Constants.GRAPH_UPDATE_INTERVAL = false ->
        timeSeriesData after = timeSeriesData s
        /\ lastDataUpdateRef after = lastDataUpdateRef s).
Proof.
  intros engine s n energy R C En newTime after.
  pose proof (tick_step engine s n R C) as T. cbv zeta in T.
  fold after in T. fold newTime in T. unfold sampleDue in T.
  fold newTime in T. rewrite En in T.
  destruct (Number_ge _ _).
  - destruct T as (R' & E & D & L).
    repeat split; try assumption; try discriminate; apply R'.
  - destruct T as (R' & E & D & L).
    repeat split; try assumption; try discriminate; apply R'.
Qed.

(** The seventh turn of the seeded run appends the first sample. *)
Lemma turn_steps_and_samples_witness :
  let engine := UsePhysicsEngine.usePhysicsEngine defaultParameters in
  let s := ticks engine 6 (seeded 0.5) in
  runningCommitted (tick engine s)
  /\ List.length (TimeSeriesData.displacement (timeSeriesData s)) = 0%nat
  /\ List.length (TimeSeriesData.displacement (timeSeriesData (tick engine s)))
     = 1%nat
  /\ lastDataUpdateRef (tick engine s)
     = SimulationState.time (state s) + Constants.TIMESTEP.
Proof.
  intros engine s.
  assert (R : runningCommitted s).
  { split; [ vm_compute; reflexivity | ]. split; [ vm_compute; reflexivity | ].
    eexists. split; vm_compute; reflexivity. }
  destruct (UsePhysicsEngine.computeNextState engine
              (Integration.mkState (SimulationState.position (state s))
                                   (SimulationState.velocity (state s)))
              Constants.TIMESTEP) as [ n | ] eqn:C;
    [ | vm_compute in C; discriminate C ].
  destruct (UsePhysicsEngine.computeTotalEnergy engine
              (UsePhysicsEngine.position n) (UsePhysicsEngine.velocity n))
    as [ e | ] eqn:En.
  - destruct (turn_steps_and_samples engine s n e R C En)
      as (R' & _ & Due & _).
    split; [ exact R' | ]. split; [ vm_compute; reflexivity | ].
    destruct Due as [D L]; [ vm_compute; reflexivity | ].
    split; [ | exact L ].
    fold engine in D. rewrite D. vm_compute. reflexivity.
  - exfalso. vm_compute in C. injection C as <-. vm_compute in En. discriminate En.
Defined.

(** X13: in a turn whose step succeeds and is due for a sample, when
    the energy of the new state cannot be computed the state still becomes
    the next state with the elapsed time one timestep later, but the run is
    left Paused, no sample is appended, [lastDataUpdateRef] keeps its value
    and no callback is pending. *)
Theorem turn_with_failed_sampling :
  forall (engine : UsePhysicsEngine.PhysicsEngine) (s : Sim)
         (nextState : UsePhysicsEngine.NextState),
    runningCommitted s ->
    UsePhysicsEngine.computeNextState engine
      (Integration.mkState (SimulationState.position (state s))
                           (SimulationState.velocity (state s)))
      Constants.TIMESTEP = Ok nextState ->
    Number_ge ((SimulationState.time (state s) + Constants.TIMESTEP
                - lastDataUpdateRef s) * 1000)
      Constants.GRAPH_UPDATE_INTERVAL = true ->
    is_ok (UsePhysicsEngine.computeTotalEnergy engine
             (UsePhysicsEngine.position nextState)
             (UsePhysicsEngine.velocity nextState)) = false ->
    let after := tick engine s in
    state after
    = {| SimulationState.position := UsePhysicsEngine.position nextState;
         SimulationState.velocity := UsePhysicsEngine.velocity nextState;
         SimulationState.acceleration := UsePhysicsEngine.acceleration nextState;
         SimulationState.time :=
           SimulationState.time (state s) + Constants.TIMESTEP;
         SimulationState.isRunning := true;
         SimulationState.isPaused := true |}
    /\ runMode (state after) = Paused
    /\ stateRef after = state after
    /\ timeSeriesData after = timeSeriesData s
    /\ lastDataUpdateRef after = lastDataUpdateRef s
    /\ rafPending after = [].
Proof.
  intros engine s n R C Due En after.
  pose proof (tick_step engine s n R C) as T. cbv zeta in T.
  fold after in T. unfold sampleDue in T. rewrite Due in T.
  destruct (UsePhysicsEngine.computeTotalEnergy engine _ _);
    [ discriminate | ].
  destruct T as (E & Rf & D & L & P).
  split; [ exact E | ]. split; [ rewrite E; reflexivity | ].
  repeat split; assumption.
Qed.

(** A spring constant of zero: the seventh turn of the seeded run moves the
    mass and pauses the run without a sample. *)
Lemma turn_with_failed_sampling_witness :
  let parameters :=
    {| SpringParameters.mass := 2;
       SpringParameters.springConstant := 0;
       SpringParameters.initialLength := 1;
       SpringParameters.dampingCoefficient := 0.5 |} in
  let engine := UsePhysicsEngine.usePhysicsEngine parameters in
  let s := ticks engine 6 (seeded 0.5) in
  runMode (state s) = Running
  /\ runMode (state (tick engine s)) = Paused
  /\ SimulationState.time (state (tick engine s))
     = SimulationState.time (state s) + Constants.TIMESTEP
  /\ timeSeriesData (tick engine s) = timeSeriesData s
  /\ rafPending (tick engine s) = [].
Proof.
  intros parameters engine s.
  assert (R : runningCommitted s).
  { split; [ vm_compute; reflexivity | ]. split; [ vm_compute; reflexivity | ].
    eexists. split; vm_compute; reflexivity. }
  destruct (UsePhysicsEngine.computeNextState engine
              (Integration.mkState (SimulationState.position (state s))
                                   (SimulationState.velocity (state s)))
              Constants.TIMESTEP) as [ n | ] eqn:C;
    [ | vm_compute in C; discriminate C ].
  destruct (turn_with_failed_sampling engine s n R C)
    as (E & M & _ & D & _ & P).
  - vm_compute; reflexivity.
  - vm_compute in C. injection C as <-. vm_compute. reflexivity.
  - split; [ vm_compute; reflexivity | ].
    split; [ exact M | ]. split; [ rewrite E; reflexivity | ].
    split; assumption.
Defined.

(** ** The equilibrium position *)

Section Equilibrium.

Lemma zero_not_below_zero (r : number) :
  isZero r = true -> (r <? 0) = false.
Proof.
  rewrite isZero_shape, ltb_spec. change (Prim2SF 0) with (S754_zero false).
  destruct (Prim2SF r); cbn; congruence.
Qed.

Lemma not_negative_sign (g : number) :
  Number_isFinite g = true -> (0 <=? g) = true -> isZero g = false ->
  SFsign (Prim2SF g) = Some false.
Proof.
  rewrite isFinite_shape, isZero_shape, leb_spec.
  change (Prim2SF 0) with (S754_zero false).
  destruct (Prim2SF g) as [ s | s | | [ | ] p e ]; cbn; congruence.
Qed.

(** [m * g / k] is not negative for positive [m] and [k] and a gravity
    that is not negative. *)
Lemma weight_over_stiffness (m g k : number) :
  Number_isFinite m = true -> (m <=? 0) = false ->
  Number_isFinite k = true -> (k <=? 0) = false ->
  Number_isFinite g = true -> (0 <=? g) = true ->
  (m * g / k <? 0) = false.
Proof.
  intros Fm Pm Fk Pk Fg Pg.
  destruct (isZero g) eqn:Zg.
  - apply zero_not_below_zero. apply div_zero;
      [ apply mul_zero_r; assumption | assumption
      | apply positive_not_zero; assumption ].
  - apply notNegative_not_below_zero.
    rewrite div_spec, mul_spec. unfold SF64div, SF64mul.
    pose proof (positive_sign m Fm Pm) as Sm.
    pose proof (positive_sign k Fk Pk) as Sk.
    pose proof (not_negative_sign g Fg Pg Zg) as Sg.
    unfold SFnotNegative.
    destruct (SFmul_sign prec emax _ _ _ _ Sm Sg) as [ N | S ].
    + destruct (SFmul prec emax (Prim2SF m) (Prim2SF g)); try discriminate.
      reflexivity.
    + destruct (SFdiv_sign prec emax _ _ _ _ S Sk) as [ N' | S' ];
        [ rewrite N' | rewrite S' ]; reflexivity.
Qed.

End Equilibrium.

(** X14: the equilibrium position is never negative: whenever
    [computeEquilibriumPosition] returns, with the default gravity or with a
    gravity that is not negative, what it returns is not [< 0]; and it
    throws for a mass or a spring constant that is [<= 0]. *)
Theorem computeEquilibriumPosition_never_negative :
  forall (mass springConstant : number) (gravity : option number),
    (forall g, gravity = Some g -> (0 <=? g) = true) ->
    (forall r,
       Physics.computeEquilibriumPosition mass springConstant gravity = Ok r ->
       (r <? 0) = false)
    /\ ((mass <=? 0) || (springConstant <=? 0) = true ->
        is_ok (Physics.computeEquilibriumPosition mass springConstant gravity)
        = false).
Proof.
  intros mass k gravity Hg.
  set (g := match gravity with Some g => g | None => 9.81 end).
  assert (Pg : (0 <=? g) = true).
  { unfold g. destruct gravity as [ g' | ]; [ apply Hg | ]; reflexivity. }
  unfold Physics.computeEquilibriumPosition. fold g.
  destruct (negb (Number_isFinite mass) || negb (Number_isFinite k)
            || negb (Number_isFinite g)) eqn:F.
  - split; [ discriminate | reflexivity ].
  - destruct ((mass <=? 0) || (k <=? 0)) eqn:P.
    + split; [ discriminate | reflexivity ].
    + split; [ | discriminate ].
      intros r [= <-].
      apply orb_false_elim in F as [F Fg]. apply orb_false_elim in F as [Fm Fk].
      apply negb_false_iff in Fm, Fk, Fg.
      apply orb_false_elim in P as [Pm Pk].
      apply weight_over_stiffness; assumption.
Qed.

(** The equilibrium of [App.tsx]'s parameters under the gravity of
    [constants.ts]. *)
Lemma computeEquilibriumPosition_never_negative_witness :
  exists r,
    Physics.computeEquilibriumPosition 10 100 (Some Constants.GRAVITY) = Ok r
    /\ (r <? 0) = false
    /\ is_ok (Physics.computeEquilibriumPosition 0 100 (Some Constants.GRAVITY))
       = false.
Proof.
  eexists. split; [ vm_compute; reflexivity | ].
  destruct (computeEquilibriumPosition_never_negative 10 100
              (Some Constants.GRAVITY)) as [H _].
  { intros g [= <-]. vm_compute; reflexivity. }
  split; [ apply H; vm_compute; reflexivity | ].
  apply (computeEquilibriumPosition_never_negative 0 100 (Some Constants.GRAVITY)).
  - intros g [= <-]. vm_compute; reflexivity.
  - vm_compute; reflexivity.
Defined.

(** ** What the buffer holds *)

Section Plottable.

Import BufferSpec.

Variable parameters : SpringParameters.t.

Let engine := UsePhysicsEngine.usePhysicsEngine parameters.

Lemma pruneAndAdd_values (P : number -> Prop)
    (time cutoffTime value : number) (data : list DataPoint.t) :
  Forall P (values data) -> P value ->
  Forall P (values (UseGraphData.pruneAndAdd time cutoffTime data value)).
Proof.
  intros H Hv. unfold UseGraphData.pruneAndAdd, values in *.
  rewrite map_app. apply Forall_app. split.
  - rewrite Forall_forall in *. intros x Hx.
    apply in_map_iff in Hx as (p & <- & Hp). apply filter_In in Hp as [Hp _].
    apply H. apply in_map. exact Hp.
  - constructor; [ exact Hv | constructor ].
Qed.

Lemma plottable_animate (s : Sim) :
  plottable (timeSeriesData s) ->
  plottable (timeSeriesData (animate engine s)).
Proof.
  intros A. unfold animate.
  destruct (negb _ || _); [ exact A | ].
  destruct (UsePhysicsEngine.computeNextState engine _ _)
    as [ n | ] eqn:C; [ | exact A ].
  destruct (@computeNextStateFrom_ok_finite _ _ _ _ C) as [Fx Fv].
  unfold animateTry.
  destruct (Number_ge _ _); [ | exact A ].
  destruct (UsePhysicsEngine.computeTotalEnergy engine _ _)
    as [ e | ] eqn:En; [ | exact A ].
  cbn [fst snd timeSeriesData setState setTimeSeriesData
       setLastDataUpdateRef requestAnimationFrame].
  destruct A as (A1 & A2 & A3).
  unfold plottable, UseGraphData.addDataPoint.
  cbn [TimeSeriesData.displacement TimeSeriesData.velocity
       TimeSeriesData.totalEnergy].
  repeat split; apply pruneAndAdd_values; try assumption.
  exact (total_energy_not_below_zero _ _ _ _ _ En).
Qed.

Lemma plottable_frame (s : Sim) :
  plottable (timeSeriesData s) ->
  plottable (timeSeriesData (frame engine s)).
Proof.
  unfold frame. generalize (rafPending s) at 1. intros hs. revert s.
  induction hs as [ | h hs IH ]; intros s A; [ exact A | ].
  cbn [fold_left]. apply IH. unfold runCallback.
  destruct (existsb _ _); [ | exact A ].
  apply plottable_animate. exact A.
Qed.

Lemma plottable_run (es : list Event) (s : Sim) :
  plottable (timeSeriesData s) ->
  plottable (timeSeriesData (run engine es s)).
Proof.
  revert s. induction es as [ | e es IH ]; intros s A; [ exact A | ].
  cbn [run fold_left]. apply IH.
  destruct e; cbn [handle]; try exact A.
  - unfold reset. rewrite cancelCurrentFrame_timeSeriesData.
    repeat split; constructor.
  - rewrite commit_timeSeriesData. exact A.
  - apply plottable_frame. exact A.
Qed.

End Plottable.

(** X15: whatever the parameters and whatever is injected (NaN and
    infinities included), in every state the hook reaches from its mount
    every displacement sample and every velocity sample of the buffer is
    finite, and no total energy sample is [< 0]. *)
Theorem buffer_is_plottable :
  forall (parameters : SpringParameters.t) (es : list Event),
    let data :=
      timeSeriesData
        (run (UsePhysicsEngine.usePhysicsEngine parameters) es mount) in
    Forall (fun p => Number_isFinite (DataPoint.value p) = true)
      (TimeSeriesData.displacement data)
    /\ Forall (fun p => Number_isFinite (DataPoint.value p) = true)
         (TimeSeriesData.velocity data)
    /\ Forall (fun p => (DataPoint.value p <? 0) = false)
         (TimeSeriesData.totalEnergy data).
Proof.
  intros parameters es data.
  assert (A : BufferSpec.plottable data).
  { apply plottable_run. repeat split; constructor. }
  destruct A as (A1 & A2 & A3). unfold BufferSpec.values in *.
  rewrite Forall_map in A1, A2, A3. auto.
Qed.

(** ** The window of the buffer along a run *)

Section Window.

Import BufferSpec.

Variable engine : UsePhysicsEngine.PhysicsEngine.

Ltac conjuncts := unfold timed; repeat match goal with |- _ /\ _ => split end.

Lemma windowed_nil : windowed [].
Proof. intros latest H. discriminate. Qed.

Lemma windowed_pruneAndAdd (time value : number) (data : list DataPoint.t) :
  PrimFloat.is_nan time = false ->
  windowed (UseGraphData.pruneAndAdd time
              (time - Constants.GRAPH_WINDOW_DURATION) data value).
Proof.
  intros N latest H.
  destruct (@pruneAndAdd_appendedWithin time value data (sub_window_le time N))
    as (_ & L & F & _).
  rewrite L in H. injection H as <-. cbn [DataPoint.time].
  split; [ exact N | ].
  revert F. apply Forall_impl. intros p [Hp _]. exact Hp.
Qed.

Lemma timed_animate (s : Sim) : timed s -> timed (animate engine s).
Proof.
  intros (T1 & T2 & D1 & D2 & D3 & D4). unfold animate.
  destruct (negb _ || _); [ conjuncts; assumption | ].
  pose proof (add_timestep_not_nan _ T2) as T3.
  destruct (UsePhysicsEngine.computeNextState engine _ _) as [ n | ];
    [ | conjuncts; assumption ].
  unfold animateTry.
  destruct (Number_ge _ _);
    [ destruct (UsePhysicsEngine.computeTotalEnergy engine _ _) | ];
    unfold timed;
    cbn [fst snd state stateRef timeSeriesData setState setTimeSeriesData
         setLastDataUpdateRef requestAnimationFrame withPaused
         SimulationState.time];
    try (conjuncts; assumption).
  unfold UseGraphData.addDataPoint.
  cbn [TimeSeriesData.displacement TimeSeriesData.velocity
       TimeSeriesData.acceleration TimeSeriesData.totalEnergy].
  conjuncts; try assumption; apply windowed_pruneAndAdd; exact T3.
Qed.

Lemma timed_frame (s : Sim) : timed s -> timed (frame engine s).
Proof.
  unfold frame. generalize (rafPending s) at 1. intros hs. revert s.
  induction hs as [ | h hs IH ]; intros s A; [ exact A | ].
  cbn [fold_left]. apply IH. unfold runCallback.
  destruct (existsb _ _); [ | exact A ].
  apply timed_animate. exact A.
Qed.

Lemma timed_handle (s : Sim) (e : Event) :
  timed s -> timed (handle engine s e).
Proof.
  intros A. pose proof A as (T1 & T2 & D1 & D2 & D3 & D4).
  destruct e; cbn [handle];
    try (conjuncts; assumption).
  - unfold timed, reset.
    rewrite cancelCurrentFrame_state, cancelCurrentFrame_stateRef,
      cancelCurrentFrame_timeSeriesData.
    cbn [state stateRef timeSeriesData setTimeSeriesData setState
         UseGraphData.clearData TimeSeriesData.displacement
         TimeSeriesData.velocity TimeSeriesData.acceleration
         TimeSeriesData.totalEnergy].
    conjuncts; try assumption; try reflexivity; apply windowed_nil.
  - unfold timed.
    rewrite commit_state, commit_stateRef, commit_timeSeriesData.
    conjuncts; assumption.
  - apply timed_frame. exact A.
Qed.

Lemma timed_run (es : list Event) (s : Sim) :
  timed s -> timed (run engine es s).
Proof.
  revert s. induction es as [ | e es IH ]; intros s A; [ exact A | ].
  cbn [run fold_left]. apply IH, timed_handle, A.
Qed.

Lemma timed_mount : timed mount.
Proof. conjuncts; try reflexivity; apply windowed_nil. Qed.

Lemma windowed_oldest (channel : list DataPoint.t) (latest first : DataPoint.t) :
  windowed channel ->
  newest channel = Some latest ->
  oldest channel = Some first ->
  Number_ge (DataPoint.time first)
    (DataPoint.time latest - Constants.GRAPH_WINDOW_DURATION) = true.
Proof.
  intros W L O. destruct (W latest L) as [_ F].
  destruct channel as [ | p channel ]; [ discriminate | ].
  injection O as <-. inversion F. assumption.
Qed.

End Window.

(** X18: in every state the hook reaches from its mount, whatever the
    engine and whatever is injected, the times of the samples are numbers
    and each of the four series lies inside the window of its newest
    sample: every sample, the oldest one included, has a time
    [>= latestTime - 15]. *)
Theorem buffer_stays_within_window :
  forall (engine : UsePhysicsEngine.PhysicsEngine) (es : list Event),
    let data := timeSeriesData (run engine es mount) in
    let inWindow (channel : list DataPoint.t) :=
      forall latest,
        BufferSpec.newest channel = Some latest ->
        PrimFloat.is_nan (DataPoint.time latest) = false
        /\ Forall (fun p => Number_ge (DataPoint.time p)
                              (DataPoint.time latest - 15) = true) channel
        /\ forall first,
             BufferSpec.oldest channel = Some first ->
             Number_ge (DataPoint.time first) (DataPoint.time latest - 15)
             = true in
    inWindow (TimeSeriesData.displacement data)
    /\ inWindow (TimeSeriesData.velocity data)
    /\ inWindow (TimeSeriesData.acceleration data)
    /\ inWindow (TimeSeriesData.totalEnergy data).
Proof.
  intros engine es data inWindow.
  destruct (timed_run engine es mount timed_mount) as (_ & _ & D1 & D2 & D3 & D4).
  assert (W : forall channel, BufferSpec.windowed channel -> inWindow channel).
  { intros channel Wc latest L. destruct (Wc latest L) as [N F].
    split; [ exact N | ]. split; [ exact F | ].
    intros first O. exact (windowed_oldest channel latest first Wc L O). }
  split; [ | split; [ | split ] ]; apply W; assumption.
Qed.

(** The seeded run of [App.tsx]'s parameters after fourteen turns: two
    samples, both inside the window of the second. *)
Lemma buffer_stays_within_window_witness :
  let engine := UsePhysicsEngine.usePhysicsEngine defaultParameters in
  let es :=
    ([EvStart; EvCommit; EvSetDisplacement 0.5; EvCommit]
     ++ List.concat (List.repeat [EvFrame; EvCommit] 14))%list in
  let channel :=
    TimeSeriesData.displacement (timeSeriesData (run engine es mount)) in
  List.length channel = 2%nat
  /\ exists latest,
       BufferSpec.newest channel = Some latest
       /\ Forall (fun p => Number_ge (DataPoint.time p)
                             (DataPoint.time latest - 15) = true) channel.
Proof.
  intros engine es channel.
  destruct (buffer_stays_within_window engine es) as (W & _).
  split; [ vm_compute; reflexivity | ].
  eexists. split; [ vm_compute; reflexivity | ].
  apply W. vm_compute. reflexivity.
Defined.
